(** * Food-Delivery-Backend: the order lifecycle coordinator

    A shallow embedding of the order state machine
    ([app/service/order_service.py], [app/task/order_task.py]), the payment
    reconciliation paths ([app/service/payment_service.py],
    [app/task/payment_task.py], [app/api/v1/payments.py]), the money helpers
    ([app/utils/__init__.py]) and the connection manager
    ([app/utils/websocket_manager.py]), with the properties of the
    specification stated against them.

    Conventions.
    - A Python call either returns or raises: [Result].
    - The [Float] columns are IEEE binary64 numbers: Rocq's primitive floats.
    - A SQLAlchemy table is the list of its rows, a primary-key lookup the
      first row with that id; a session works on a copy of the durable
      tables which [commit] makes durable and [rollback]/[close] discard.
    - The Celery broker is the list of the jobs sent so far, oldest first.
    - Instants ([datetime]) are integers, in seconds.  An operation is
      given the clocks it reads: [now] for [datetime.utcnow()] or
      [datetime.now()], and [db_now] for the store's [func.now()], which
      dates [created_at] on INSERT and [updated_at] on every UPDATE.
    - Names imported from [app.utils.helpers] are the helpers of
      [app/utils/__init__.py]; [calculate_delivery_fee] is the helper
      spelled [calculate_deliver_fee] there. *)

From Stdlib Require Import ZArith Floats Uint63 Lia Bool.
From stdpp Require Import base option list gmap strings.

Set Warnings "-inexact-float".
#[local] Open Scope Z_scope.

(** ** Python outcomes *)

Module Py.

(** The f-strings the services raise [ValidationException] with, kept
    as data: the fields are the values the f-string formats. *)
Inductive ValidationMessage : Type :=
| MenuItemNotAvailable (menu_item_id : Z)
    (* f"Menu item {item['menu_item_id']} not available" *)
| QuantityNotPositive
    (* "Quantity must be greater than 0" *)
| MinimumOrderAmount (minimum_order : float)
    (* f"Minimum order amount is ${restaurant.minimum_order:.2f}" *)
| CannotTransition (old_value new_value : string)
    (* f"Cannot transition from {order.status.value} to {new_status.value}" *)
| OrderNotReadyForPickup
    (* "Order not ready for pickup" *)
| OrderCannotBeCancelled.
    (* "Order cannot be cancelled at this stage" *)

(** The exceptions the modelled code raises or meets. *)
Inductive Exn : Type :=
| NotFoundException (resource : string)
| ValidationException (message : ValidationMessage)
| AuthorizationException (message : string)
| KeyError (key : string)
| AttributeError (what : string)
| TypeError (what : string)
| ValueError (what : string)
| OverflowError (what : string)
| StripeError (what : string)
| SQLAlchemyError (what : string).

Inductive Result (A : Type) : Type :=
| Ok (a : A)
| Raised (e : Exn).
Arguments Ok {A} a.
Arguments Raised {A} e.

Definition bind {A B} (r : Result A) (k : A -> Result B) : Result B :=
  match r with
  | Ok a => k a
  | Raised e => Raised e
  end.

(** Truthiness of an [Optional[float]] / float: [None], [0.0] and [-0.0]
    are falsy, everything else (NaN included) is truthy. *)
Definition float_truthy (x : float) : bool := negb (PrimFloat.eqb x 0%float).

(** Truthiness of an [Optional[str]]: [None] and the empty string are
    falsy. *)
Definition str_truthy (s : option string) : bool :=
  match s with
  | None => false
  | Some s => negb (String.eqb s "")
  end.

End Py.
Export Py.

Notation "'let?' x ':=' r 'in' k" := (Py.bind r (fun x => k))
  (at level 10, x name, r at level 100, k at level 200).

(** ** app/models *)

Module Models.

(** [app/models/order.py], class [OrderStatus]. *)
Inductive OrderStatus : Type :=
| PENDING | CONFIRMED | PREPARING | READY_FOR_PICKUP
| OUT_FOR_DELIVERY | DELIVERED | CANCELLED | REFUNDED.

#[export] Instance OrderStatus_eq_dec : EqDecision OrderStatus.
Proof. solve_decision. Defined.

Definition all_statuses : list OrderStatus :=
  [PENDING; CONFIRMED; PREPARING; READY_FOR_PICKUP;
   OUT_FOR_DELIVERY; DELIVERED; CANCELLED; REFUNDED].

(** The member's [.value]. *)
Definition status_value (s : OrderStatus) : string :=
  match s with
  | PENDING => "pending"
  | CONFIRMED => "confirmed"
  | PREPARING => "preparing"
  | READY_FOR_PICKUP => "ready_for_pickup"
  | OUT_FOR_DELIVERY => "out_for_delivery"
  | DELIVERED => "delivered"
  | CANCELLED => "cancelled"
  | REFUNDED => "refunded"
  end.

(** The member's [.name]. *)
Definition status_name (s : OrderStatus) : string :=
  match s with
  | PENDING => "PENDING"
  | CONFIRMED => "CONFIRMED"
  | PREPARING => "PREPARING"
  | READY_FOR_PICKUP => "READY_FOR_PICKUP"
  | OUT_FOR_DELIVERY => "OUT_FOR_DELIVERY"
  | DELIVERED => "DELIVERED"
  | CANCELLED => "CANCELLED"
  | REFUNDED => "REFUNDED"
  end.

(** [OrderStatus[key]]: lookup of a member by NAME; [KeyError] when no
    member has that name. *)
Definition status_by_name (key : string) : Result OrderStatus :=
  match find (fun s => String.eqb (status_name s) key) all_statuses with
  | Some s => Ok s
  | None => Raised (KeyError key)
  end.

(** [app/models/payment.py], class [PaymentStatus]. *)
Inductive PaymentStatus : Type :=
| PAY_PENDING | PAY_PROCESSING | PAY_COMPLETED
| PAY_FAILED | PAY_CANCELLED | PAY_REFUNDED.

#[export] Instance PaymentStatus_eq_dec : EqDecision PaymentStatus.
Proof. solve_decision. Defined.

Inductive PaymentMethod : Type :=
| CREDIT_CARD | DEBIT_CARD | DIGITAL_WALLET | CASH_ON_DELIVERY.

(** [app/models/order.py], class [PaymentStatus]: the module has an enum
    of its own, with four members, for the [payment_status] column of an
    order. *)
Inductive OrderPaymentStatus : Type :=
| ORDER_PAY_PENDING | ORDER_PAY_COMPLETED | ORDER_PAY_FAILED | ORDER_PAY_REFUNDED.

(** [app/models/order.py], class [Order]: the columns.  [created_at] and
    [updated_at] take the store's [func.now()] when the row is inserted
    ([server_default]); [updated_at] takes it again with every UPDATE of
    the row ([onupdate]). *)
Record Order : Type := mkOrder {
  order_id : Z;
  order_number : string;
  customer_id : Z;
  restaurant_id : Z;
  delivery_partner_id : option Z;
  status : OrderStatus;
  payment_status : OrderPaymentStatus;
  subtotal : float;
  delivery_fee : float;
  tax_amount : float;
  discount_amount : float;
  total_amount : float;
  delivery_address : string;
  delivery_latitude : option float;
  delivery_longitude : option float;
  delivery_instructions : option string;
  estimated_delivery_time : option Z;
  prepared_at : option Z;
  picked_up_at : option Z;
  delivered_at : option Z;
  cancelled_at : option Z;
  created_at : Z;
  updated_at : Z
}.

(** [app/models/order.py], class [OrderItem]. *)
Record OrderItem : Type := mkOrderItem {
  item_id : Z;
  item_order_id : Z;
  menu_item_id : Z;
  quantity : Z;
  unit_price : float;
  total_price : float;
  special_instructions : option string
}.

(** [app/models/restaurant.py], class [Restaurant]: the columns the order
    paths read. *)
Record Restaurant : Type := mkRestaurant {
  rest_id : Z;
  rest_latitude : option float;
  rest_longitude : option float;
  rest_delivery_fee : float;
  minimum_order : float;
  rest_delivery_time : option Z;
  rest_is_active : bool;
  owner_id : Z
}.

(** [app/models/restaurant.py], class [MenuItem]. *)
Record MenuItem : Type := mkMenuItem {
  mi_id : Z;
  mi_price : float;
  mi_is_available : bool;
  mi_restaurant_id : Z
}.

(** [app/models/payment.py], class [Payment]: the columns, with
    [created_at] and [updated_at] as for an order. *)
Record Payment : Type := mkPayment {
  payment_id : Z;
  pay_user_id : Z;
  pay_order_id : Z;
  stripe_payment_intent_id : option string;
  amount : float;
  currency : string;
  method : PaymentMethod;
  pay_status : PaymentStatus;
  failure_reason : option string;
  refund_amount : float;
  refunded_at : option Z;
  pay_created_at : Z;
  pay_updated_at : Z
}.

(** The tables. *)
Record DB : Type := mkDB {
  orders : list Order;
  order_items : list OrderItem;
  restaurants : list Restaurant;
  menu_items : list MenuItem;
  payments : list Payment
}.

(** [db.query(Order).filter(Order.id == id).first()] *)
Definition get_order (db : DB) (id : Z) : option Order :=
  find (fun o => order_id o =? id) (orders db).

Definition get_payment (db : DB) (id : Z) : option Payment :=
  find (fun p => payment_id p =? id) (payments db).

Definition get_restaurant (db : DB) (id : Z) : option Restaurant :=
  find (fun r => rest_id r =? id) (restaurants db).

(** Writing a loaded row back: the row of the same primary key is
    replaced, in place. *)
Definition put_order (o : Order) (db : DB) : DB :=
  mkDB (map (fun x => if order_id x =? order_id o then o else x) (orders db))
       (order_items db) (restaurants db) (menu_items db) (payments db).

Definition put_payment (p : Payment) (db : DB) : DB :=
  mkDB (orders db) (order_items db) (restaurants db) (menu_items db)
       (map (fun x => if payment_id x =? payment_id p then p else x) (payments db)).

(** Attribute assignments on a loaded [Order]. *)
Definition set_status (s : OrderStatus) (o : Order) : Order :=
  mkOrder (order_id o) (order_number o) (customer_id o) (restaurant_id o)
    (delivery_partner_id o) s (payment_status o) (subtotal o) (delivery_fee o)
    (tax_amount o) (discount_amount o) (total_amount o) (delivery_address o)
    (delivery_latitude o) (delivery_longitude o) (delivery_instructions o)
    (estimated_delivery_time o) (prepared_at o) (picked_up_at o) (delivered_at o)
    (cancelled_at o) (created_at o) (updated_at o).

Definition set_delivery_partner_id (partner : option Z) (o : Order) : Order :=
  mkOrder (order_id o) (order_number o) (customer_id o) (restaurant_id o) partner
    (status o) (payment_status o) (subtotal o) (delivery_fee o) (tax_amount o)
    (discount_amount o) (total_amount o) (delivery_address o) (delivery_latitude o)
    (delivery_longitude o) (delivery_instructions o) (estimated_delivery_time o)
    (prepared_at o) (picked_up_at o) (delivered_at o) (cancelled_at o) (created_at o)
    (updated_at o).

Definition set_estimated_delivery_time (t : Z) (o : Order) : Order :=
  mkOrder (order_id o) (order_number o) (customer_id o) (restaurant_id o)
    (delivery_partner_id o) (status o) (payment_status o) (subtotal o) (delivery_fee o)
    (tax_amount o) (discount_amount o) (total_amount o) (delivery_address o)
    (delivery_latitude o) (delivery_longitude o) (delivery_instructions o) (Some t)
    (prepared_at o) (picked_up_at o) (delivered_at o) (cancelled_at o) (created_at o)
    (updated_at o).

Definition set_prepared_at (t : Z) (o : Order) : Order :=
  mkOrder (order_id o) (order_number o) (customer_id o) (restaurant_id o)
    (delivery_partner_id o) (status o) (payment_status o) (subtotal o) (delivery_fee o)
    (tax_amount o) (discount_amount o) (total_amount o) (delivery_address o)
    (delivery_latitude o) (delivery_longitude o) (delivery_instructions o)
    (estimated_delivery_time o) (Some t) (picked_up_at o) (delivered_at o)
    (cancelled_at o) (created_at o) (updated_at o).

Definition set_picked_up_at (t : Z) (o : Order) : Order :=
  mkOrder (order_id o) (order_number o) (customer_id o) (restaurant_id o)
    (delivery_partner_id o) (status o) (payment_status o) (subtotal o) (delivery_fee o)
    (tax_amount o) (discount_amount o) (total_amount o) (delivery_address o)
    (delivery_latitude o) (delivery_longitude o) (delivery_instructions o)
    (estimated_delivery_time o) (prepared_at o) (Some t) (delivered_at o)
    (cancelled_at o) (created_at o) (updated_at o).

Definition set_delivered_at (t : Z) (o : Order) : Order :=
  mkOrder (order_id o) (order_number o) (customer_id o) (restaurant_id o)
    (delivery_partner_id o) (status o) (payment_status o) (subtotal o) (delivery_fee o)
    (tax_amount o) (discount_amount o) (total_amount o) (delivery_address o)
    (delivery_latitude o) (delivery_longitude o) (delivery_instructions o)
    (estimated_delivery_time o) (prepared_at o) (picked_up_at o) (Some t)
    (cancelled_at o) (created_at o) (updated_at o).

Definition set_cancelled_at (t : Z) (o : Order) : Order :=
  mkOrder (order_id o) (order_number o) (customer_id o) (restaurant_id o)
    (delivery_partner_id o) (status o) (payment_status o) (subtotal o) (delivery_fee o)
    (tax_amount o) (discount_amount o) (total_amount o) (delivery_address o)
    (delivery_latitude o) (delivery_longitude o) (delivery_instructions o)
    (estimated_delivery_time o) (prepared_at o) (picked_up_at o) (delivered_at o)
    (Some t) (created_at o) (updated_at o).

(** What the store writes into [updated_at] with an UPDATE of the row. *)
Definition set_updated_at (t : Z) (o : Order) : Order :=
  mkOrder (order_id o) (order_number o) (customer_id o) (restaurant_id o)
    (delivery_partner_id o) (status o) (payment_status o) (subtotal o) (delivery_fee o)
    (tax_amount o) (discount_amount o) (total_amount o) (delivery_address o)
    (delivery_latitude o) (delivery_longitude o) (delivery_instructions o)
    (estimated_delivery_time o) (prepared_at o) (picked_up_at o) (delivered_at o)
    (cancelled_at o) (created_at o) t.

(** The columns of an order that the modelled code assigns on a loaded
    row. *)
Definition order_assigned_columns (o : Order) :=
  (delivery_partner_id o, status o, estimated_delivery_time o,
   prepared_at o, picked_up_at o, delivered_at o, cancelled_at o).

(** What a commit writes for a loaded order that was assigned to.  The
    session emits an UPDATE only when an assigned column differs from
    the value that was loaded; the UPDATE sets [updated_at] to the
    store's [func.now()] as well ([onupdate]).  [loaded] is the row as it
    was read, [o] the object after the assignments, [db_now] the store's
    clock when the UPDATE runs; the result is the row the store holds
    afterwards (and what the expired object reads back). *)
Definition flush_order (db_now : Z) (loaded o : Order) : Order :=
  if decide (order_assigned_columns o = order_assigned_columns loaded)
  then loaded
  else set_updated_at db_now o.

(** Attribute assignments on a loaded [Payment]. *)
Definition set_pay_status (s : PaymentStatus) (p : Payment) : Payment :=
  mkPayment (payment_id p) (pay_user_id p) (pay_order_id p) (stripe_payment_intent_id p)
    (amount p) (currency p) (method p) s (failure_reason p) (refund_amount p)
    (refunded_at p) (pay_created_at p) (pay_updated_at p).

Definition set_failure_reason (r : string) (p : Payment) : Payment :=
  mkPayment (payment_id p) (pay_user_id p) (pay_order_id p) (stripe_payment_intent_id p)
    (amount p) (currency p) (method p) (pay_status p) (Some r) (refund_amount p)
    (refunded_at p) (pay_created_at p) (pay_updated_at p).

Definition set_refund_amount (a : float) (p : Payment) : Payment :=
  mkPayment (payment_id p) (pay_user_id p) (pay_order_id p) (stripe_payment_intent_id p)
    (amount p) (currency p) (method p) (pay_status p) (failure_reason p) a
    (refunded_at p) (pay_created_at p) (pay_updated_at p).

Definition set_refunded_at (t : Z) (p : Payment) : Payment :=
  mkPayment (payment_id p) (pay_user_id p) (pay_order_id p) (stripe_payment_intent_id p)
    (amount p) (currency p) (method p) (pay_status p) (failure_reason p)
    (refund_amount p) (Some t) (pay_created_at p) (pay_updated_at p).

Definition set_pay_updated_at (t : Z) (p : Payment) : Payment :=
  mkPayment (payment_id p) (pay_user_id p) (pay_order_id p) (stripe_payment_intent_id p)
    (amount p) (currency p) (method p) (pay_status p) (failure_reason p)
    (refund_amount p) (refunded_at p) (pay_created_at p) t.

(** The columns of a payment that the reconciliation paths assign on a
    loaded row, and [refunded_at]. *)
Definition payment_assigned_columns (p : Payment) :=
  (pay_status p, failure_reason p, refunded_at p).

(** What a commit writes for a loaded payment that was assigned to: as
    for an order, no UPDATE without a changed column, and [updated_at]
    set by the UPDATE. *)
Definition flush_payment (db_now : Z) (loaded p : Payment) : Payment :=
  if decide (payment_assigned_columns p = payment_assigned_columns loaded)
  then loaded
  else set_pay_updated_at db_now p.

(** The same for the commit of [process_refund], which assigns the float
    [refund_amount] as well: the session compares the new amount with the
    loaded one by [==] and does not write one that compares equal. *)
Definition flush_refund (db_now : Z) (loaded p : Payment) : Payment :=
  let same_amount := PrimFloat.eqb (refund_amount p) (refund_amount loaded) in
  if same_amount
     && bool_decide (payment_assigned_columns p = payment_assigned_columns loaded)
  then loaded
  else set_pay_updated_at db_now
         (if same_amount then set_refund_amount (refund_amount loaded) p else p).

End Models.
Export Models.

(** ** The Celery broker *)

Module Broker.

(** A JSON value of a notification payload. *)
Inductive Json : Type :=
| JInt (z : Z)
| JStr (s : string)
| JFloat (x : float)
| JTime (t : Z)                 (* an instant, as [isoformat()] prints it *)
| JClassAttribute (name : string).
    (* a mapped class attribute such as [Order.order_number]: not the
       value of a row, and not serializable *)

(** A positional argument of a job. *)
Inductive Arg : Type :=
| AInt (z : Z)
| AStr (s : string)
| ADict (d : list (string * Json)).

Record Job : Type := mkJob {
  task_name : string;
  task_args : list Arg
}.

Definition Queue : Type := list Job.

Definition json_serializable (j : Json) : bool :=
  match j with
  | JClassAttribute _ => false
  | _ => true
  end.

Definition arg_serializable (a : Arg) : bool :=
  match a with
  | ADict d => forallb (fun kv => json_serializable (snd kv)) d
  | _ => true
  end.

(** [current_app.send_task(name, args=...)]. [name] is the one required
    positional parameter of [Celery.send_task]: a call that passes only
    [args=] raises [TypeError] and sends nothing.  The arguments go
    through the JSON serializer ([task_serializer="json"]), which refuses
    an object it cannot encode. *)
Definition send_task (name : option string) (args : list Arg) (q : Queue)
  : Result Queue :=
  match name with
  | None => Raised (TypeError "send_task() missing 1 required positional argument: 'name'")
  | Some n =>
      if forallb arg_serializable args
      then Ok (q ++ [mkJob n args])
      else Raised (TypeError "Object is not JSON serializable")
  end.

(** [task.delay(...)]: the task is sent under its registered name. *)
Definition delay (registered_name : string) (args : list Arg) (q : Queue) : Queue :=
  q ++ [mkJob registered_name args].

End Broker.
Export Broker.

(** ** app/utils/__init__.py: the money helpers *)

Module Helpers.

(** The binary64 number nearest to an integer, ties to even: exact below
    2^53, an infinity beyond the range of binary64. *)
Definition nearest_float (z : Z) : float :=
  SF2Prim (binary_normalize prec emax z 0 false).

(** The conversion of a Python [int] to [float]: the nearest binary64
    number, and [OverflowError] for an [int] whose nearest number is not
    finite. *)
Definition float_of_int (z : Z) : Result float :=
  match Prim2SF (nearest_float z) with
  | S754_infinity _ => Raised (OverflowError "int too large to convert to float")
  | _ => Ok (nearest_float z)
  end.

(** [x * n] for a float [x] and an [int] [n]: the [int] is converted
    first. *)
Definition float_mul_int (x : float) (n : Z) : Result float :=
  let? y := float_of_int n in Ok (x * y)%float.

(** [num / den] rounded to the nearest integer, ties to the even one
    ([den > 0], [num >= 0]). *)
Definition round_half_even (num den : Z) : Z :=
  let q := num / den in
  let r := num mod den in
  if 2 * r <? den then q
  else if den <? 2 * r then q + 1
  else if Z.even q then q else q + 1.

(** The builtin [round(x, 2)] on a float: the exact binary value of [x]
    is rounded to two decimals, ties to even, and the decimal is read
    back as the nearest float.  A float with a non-negative exponent is
    an integer and is returned as it is; so is one whose hundredths
    exceed 2^53 (its spacing is then above one cent).  Zeros, infinities
    and NaN are returned unchanged. *)
Definition py_round2 (x : float) : float :=
  match Prim2SF x with
  | S754_finite s m e =>
      if 0 <=? e then x
      else
        let n := round_half_even (Z.pos m * 100) (2 ^ (- e)) in
        if 2 ^ 53 <=? n then x
        else
          let y := (nearest_float n / 100)%float in
          if s then (- y)%float else y
  | _ => x
  end.

(** [calculate_deliver_fee(distance_km, base_fee)] *)
Definition calculate_deliver_fee (distance_km base_fee : float) : float :=
  let per_km_charge := 0.50%float in
  if PrimFloat.leb distance_km 2 then base_fee
  else
    let additional_km := (distance_km - 3)%float in
    py_round2 (base_fee + additional_km * per_km_charge)%float.

(** [calculate_tax(subtotal, tax_rate)] *)
Definition calculate_tax (subtotal tax_rate : float) : float :=
  py_round2 (subtotal * tax_rate)%float.

(** The dict [calculate_order_total] returns. *)
Record Totals : Type := mkTotals {
  t_subtotal : float;
  t_delivery_fee : float;
  t_tax_amount : float;
  t_discount_amount : float;
  t_total_amount : float
}.

(** [calculate_order_total(subtotal, delivery_fee, tax_rate, discount_amount)] *)
Definition calculate_order_total
    (subtotal delivery_fee tax_rate discount_amount : float) : Totals :=
  let tax_amount := calculate_tax subtotal tax_rate in
  let total := (subtotal + delivery_fee + tax_amount - discount_amount)%float in
  mkTotals (py_round2 subtotal) (py_round2 delivery_fee) (py_round2 tax_amount)
           (py_round2 discount_amount) (py_round2 total).

(** An amount in whole cents, for comparing two amounts at the currency
    precision of two decimals: [None] for NaN and the infinities. *)
Definition cents (x : float) : option Z :=
  match Prim2SF x with
  | S754_zero _ => Some 0
  | S754_finite s m e =>
      let n := if 0 <=? e then Z.pos m * 100 * 2 ^ e
               else round_half_even (Z.pos m * 100) (2 ^ (- e)) in
      Some (if s then - n else n)
  | _ => None
  end.

End Helpers.
Export Helpers.

(** ** app/service/order_service.py *)

Module OrderService.

(** One entry of the [items] argument of [create_order]. *)
Record ItemReq : Type := mkItemReq {
  req_menu_item_id : Z;
  req_quantity : Z;
  req_special_instructions : option string
}.

(** One entry of [order_items_data]. *)
Record ItemData : Type := mkItemData {
  d_menu_item_id : Z;
  d_quantity : Z;
  d_unit_price : float;
  d_total_price : float;
  d_special_instructions : option string
}.

(** The query of the item loop: the available menu item of that id in
    that restaurant. *)
Definition find_menu_item (db : DB) (restaurant_id menu_item_id : Z) : option MenuItem :=
  find (fun m => (mi_id m =? menu_item_id) && (mi_restaurant_id m =? restaurant_id)
                 && mi_is_available m)
       (menu_items db).

(** The loop [for item in items] of [create_order], from the running
    [subtotal] and [order_items_data]. *)
Fixpoint price_items (db : DB) (restaurant_id : Z) (items : list ItemReq)
    (subtotal : float) (order_items_data : list ItemData)
  : Result (float * list ItemData) :=
  match items with
  | [] => Ok (subtotal, order_items_data)
  | item :: rest =>
      match find_menu_item db restaurant_id (req_menu_item_id item) with
      | None => Raised (ValidationException (MenuItemNotAvailable (req_menu_item_id item)))
      | Some menu_item =>
          if req_quantity item <=? 0
          then Raised (ValidationException QuantityNotPositive)
          else
            let? item_total := float_mul_int (mi_price menu_item) (req_quantity item) in
            price_items db restaurant_id rest
              (subtotal + item_total)%float
              (order_items_data ++
                 [mkItemData (req_menu_item_id item) (req_quantity item)
                    (mi_price menu_item) item_total (req_special_instructions item)])
      end
  end.

(** The primary key the store gives the next inserted row. *)
Definition next_id (ids : list Z) : Z := 1 + fold_right Z.max 0 ids.

(** [OrderItem(order_id=order.id, **item_data)] for each entry, with the
    keys the store assigns from [first_id] on. *)
Fixpoint make_items (order_id first_id : Z) (data : list ItemData) : list OrderItem :=
  match data with
  | [] => []
  | d :: rest =>
      mkOrderItem first_id order_id (d_menu_item_id d) (d_quantity d)
                  (d_unit_price d) (d_total_price d) (d_special_instructions d)
      :: make_items order_id (first_id + 1) rest
  end.

Definition insert_order (o : Order) (db : DB) : DB :=
  mkDB (orders db ++ [o]) (order_items db) (restaurants db) (menu_items db) (payments db).

Definition insert_items (its : list OrderItem) (db : DB) : DB :=
  mkDB (orders db) (order_items db ++ its) (restaurants db) (menu_items db) (payments db).

Section CreateOrder.

(** [calculate_distance] is the haversine formula over [math.sin],
    [math.cos], [math.sqrt] and [math.asin]; it is taken as given.  The
    functions of [math] raise [ValueError] outside their domain (on an
    infinite coordinate, for one), so the call returns or raises. *)
Variable calculate_distance : float -> float -> float -> float -> Result float.

(** Whether the [n]-th [db.commit()] of the call (from 0) raises. *)
Variable commit_raises : nat -> bool.

(** The values the environment supplies: [generate_order_number()] and
    the store's [func.now()]. *)
Variable order_number : string.
Variable now : Z.

(** The delivery fee block of [create_order]. *)
Definition order_delivery_fee (restaurant : Restaurant)
    (delivery_latitude delivery_longitude : option float) : Result float :=
  match delivery_latitude, delivery_longitude,
        rest_latitude restaurant, rest_longitude restaurant with
  | Some dlat, Some dlon, Some rlat, Some rlon =>
      if float_truthy dlat && float_truthy dlon && float_truthy rlat && float_truthy rlon
      then let? distance := calculate_distance rlat rlon dlat dlon in
           Ok (calculate_deliver_fee distance (rest_delivery_fee restaurant))
      else Ok (rest_delivery_fee restaurant)
  | _, _, _, _ => Ok (rest_delivery_fee restaurant)
  end.

(** [OrderService.create_order]: the outcome and the durable tables
    after the call. *)
Definition create_order (db : DB) (customer_id restaurant_id : Z)
    (items : list ItemReq) (delivery_address : string)
    (delivery_latitude delivery_longitude : option float)
    (delivery_instructions : option string) : Result Order * DB :=
  match find (fun r => (rest_id r =? restaurant_id) && rest_is_active r)
             (restaurants db) with
  | None => (Raised (NotFoundException "Restaurant"), db)
  | Some restaurant =>
      match price_items db restaurant_id items 0%float [] with
      | Raised e => (Raised e, db)
      | Ok (subtotal, order_items_data) =>
          if PrimFloat.ltb subtotal (minimum_order restaurant)
          then (Raised (ValidationException
                          (MinimumOrderAmount (minimum_order restaurant))), db)
          else
            match order_delivery_fee restaurant delivery_latitude delivery_longitude with
            | Raised e => (Raised e, db)
            | Ok delivery_fee =>
                let totals := calculate_order_total subtotal delivery_fee 0.08 0.0 in
                let order :=
                  mkOrder (next_id (map order_id (orders db))) order_number
                    customer_id restaurant_id None PENDING ORDER_PAY_PENDING
                    (t_subtotal totals) (t_delivery_fee totals) (t_tax_amount totals)
                    (t_discount_amount totals) (t_total_amount totals)
                    delivery_address delivery_latitude delivery_longitude
                    delivery_instructions None None None None None now now in
                (* self.db.add(order); self.db.commit(); self.db.refresh(order) *)
                if commit_raises 0%nat
                then (Raised (SQLAlchemyError "commit"), db)
                else
                  let db1 := insert_order order db in
                  (* the OrderItem rows; self.db.commit() *)
                  let order_items :=
                    make_items (order_id order)
                               (next_id (map item_id (order_items db1)))
                               order_items_data in
                  if commit_raises 1%nat
                  then (Raised (SQLAlchemyError "commit"), db1)
                  else (Ok order, insert_items order_items db1)
            end
      end
  end.

End CreateOrder.

(** The dict [valid_transitions] of [update_order_status]: [None] for a
    status that is not a key. *)
Definition valid_transitions (s : OrderStatus) : option (list OrderStatus) :=
  match s with
  | PENDING => Some [CONFIRMED; CANCELLED]
  | CONFIRMED => Some [PREPARING; CANCELLED]
  | PREPARING => Some [READY_FOR_PICKUP; CANCELLED]
  | READY_FOR_PICKUP => Some [OUT_FOR_DELIVERY]
  | OUT_FOR_DELIVERY => Some [DELIVERED]
  | DELIVERED | CANCELLED | REFUNDED => None
  end.

(** [x in xs] for statuses. *)
Definition status_in (x : OrderStatus) (xs : list OrderStatus) : bool :=
  bool_decide (x ∈ xs).

(** The [if]/[elif] chain that stamps the timestamp of the new status. *)
Definition stamp (new_status : OrderStatus) (now : Z) (order : Order) : Order :=
  match new_status with
  | PREPARING => set_prepared_at now order
  | OUT_FOR_DELIVERY => set_picked_up_at now order
  | DELIVERED => set_delivered_at now order
  | CANCELLED => set_cancelled_at now order
  | _ => order
  end.

(** [OrderService.update_order_status]; [now] is [datetime.utcnow()],
    [db_now] the store's clock at the commit. *)
Definition update_order_status (db : DB) (now db_now : Z)
    (order_id : Z) (new_status : OrderStatus) (updated_by_id : Z)
  : Result Order * DB :=
  match get_order db order_id with
  | None => (Raised (NotFoundException "Order"), db)
  | Some order =>
      let rejected :=
        match valid_transitions (status order) with
        | Some allowed => negb (status_in new_status allowed)
        | None => false
        end in
      if rejected
      then (Raised (ValidationException
                      (CannotTransition (status_value (status order))
                                        (status_value new_status))), db)
      else
        let order :=
          flush_order db_now order (stamp new_status now (set_status new_status order)) in
        (Ok order, put_order order db)
  end.

(** [OrderService.cancel_order] *)
Definition cancel_order (db : DB) (now db_now : Z) (order_id user_id : Z)
  : Result Order * DB :=
  match get_order db order_id with
  | None => (Raised (NotFoundException "Order"), db)
  | Some order =>
      if negb (customer_id order =? user_id)
      then (Raised (AuthorizationException "Not authorized to cancel this order"), db)
      else if negb (status_in (status order) [PENDING; CONFIRMED])
      then (Raised (ValidationException OrderCannotBeCancelled), db)
      else
        let order :=
          flush_order db_now order (set_cancelled_at now (set_status CANCELLED order)) in
        (Ok order, put_order order db)
  end.

(** [OrderService.assign_delivery_partner] *)
Definition assign_delivery_partner (db : DB) (db_now : Z) (order_id delivery_partner_id : Z)
  : Result Order * DB :=
  match get_order db order_id with
  | None => (Raised (NotFoundException "Order"), db)
  | Some order =>
      if negb (bool_decide (status order = READY_FOR_PICKUP))
      then (Raised (ValidationException OrderNotReadyForPickup), db)
      else
        let order :=
          flush_order db_now order
            (set_delivery_partner_id (Some delivery_partner_id) order) in
        (Ok order, put_order order db)
  end.

End OrderService.

(** ** The payment provider *)

Module Provider.

(** What the Stripe client answers: [PaymentIntent.retrieve(id).status]
    and [Refund.create(payment_intent=id, amount=cents).status], or the
    exception the call raises. *)
Record Stripe : Type := mkStripe {
  retrieve : string -> Result string;
  refund_create : string -> Z -> Result string
}.

End Provider.
Export Provider.

(** ** app/service/payment_service.py *)

Module PaymentService.

(** [int(x)] on a float: truncation towards zero; [ValueError] on NaN,
    [OverflowError] on an infinity. *)
Definition py_int_of_float (x : float) : Result Z :=
  match Prim2SF x with
  | S754_zero _ => Ok 0
  | S754_finite s m e =>
      let n := if 0 <=? e then Z.pos m * 2 ^ e else Z.pos m / 2 ^ (- e) in
      Ok (if s then - n else n)
  | S754_infinity _ => Raised (OverflowError "cannot convert float infinity to integer")
  | S754_nan => Raised (ValueError "cannot convert float NaN to integer")
  end.

(** [datetime.utcnow()] as [payment_service.py] evaluates it.  The file
    has [import datetime], so the name is the module, which has no
    attribute [utcnow] (the class [datetime.datetime] has): the
    expression raises [AttributeError] whatever the instant. *)
Definition datetime_utcnow (now : Z) : Result Z :=
  Raised (AttributeError "module 'datetime' has no attribute 'utcnow'").

(** [PaymentService.process_stripe_payment]: the outcome, the [payment]
    object after the call and the durable tables after the call.
    [payment] is a row the session loaded; [db_now] is the store's clock
    at the commit. *)
Definition process_stripe_payment (stripe : Stripe) (db_now : Z) (db : DB)
    (payment : Payment) : Result bool * Payment * DB :=
  match stripe_payment_intent_id payment with
  | None => (Ok false, payment, db)
  | Some intent_id =>
      if String.eqb intent_id "" then (Ok false, payment, db)
      else
        match retrieve stripe intent_id with
        | Ok intent_status =>
            if String.eqb intent_status "succeeded" then
              let payment :=
                flush_payment db_now payment (set_pay_status PAY_COMPLETED payment) in
              (Ok true, payment, put_payment payment db)
            else if String.eqb intent_status "requires_payment_method" then
              let payment :=
                flush_payment db_now payment
                  (set_failure_reason "Payment method required"
                     (set_pay_status PAY_FAILED payment)) in
              (Ok false, payment, put_payment payment db)
            else if String.eqb intent_status "canceled" then
              let payment :=
                flush_payment db_now payment (set_pay_status PAY_CANCELLED payment) in
              (Ok false, payment, put_payment payment db)
            else (Ok false, payment, db)
        | Raised (StripeError e) =>
            let payment :=
              flush_payment db_now payment
                (set_failure_reason e (set_pay_status PAY_FAILED payment)) in
            (Ok false, payment, put_payment payment db)
        | Raised e => (Raised e, payment, db)
        end
  end.

(** [PaymentService.check_stripe_payment_status] *)
Definition check_stripe_payment_status (stripe : Stripe) (payment_intent_id : string)
  : Result PaymentStatus :=
  match retrieve stripe payment_intent_id with
  | Ok intent_status =>
      if String.eqb intent_status "succeeded" then Ok PAY_COMPLETED
      else if String.eqb intent_status "requires_payment_method"
              || String.eqb intent_status "payment_failed" then Ok PAY_FAILED
      else if String.eqb intent_status "canceled" then Ok PAY_CANCELLED
      else if String.eqb intent_status "requires_confirmation"
              || String.eqb intent_status "requires_action" then Ok PAY_PROCESSING
      else Ok PAY_PENDING
  | Raised (StripeError _) => Ok PAY_FAILED
  | Raised e => Raised e
  end.

(** [refund_amount or payment.amount] *)
Definition amount_to_refund (payment : Payment) (refund_amount : option float) : float :=
  match refund_amount with
  | Some a => if float_truthy a then a else amount payment
  | None => amount payment
  end.

(** [PaymentService.process_refund]: the outcome, the [payment] object
    after the call and the durable tables after the call.  The two
    assignments before [datetime.utcnow()] are made on the object only:
    nothing is stored without the commit. *)
Definition process_refund (stripe : Stripe) (now db_now : Z) (db : DB) (payment : Payment)
    (refund_amount : option float) : Result bool * Payment * DB :=
  match stripe_payment_intent_id payment with
  | None => (Ok false, payment, db)
  | Some intent_id =>
      if String.eqb intent_id "" then (Ok false, payment, db)
      else
        let amount_to_refund := amount_to_refund payment refund_amount in
        match py_int_of_float (amount_to_refund * 100)%float with
        | Raised e => (Raised e, payment, db)
        | Ok amount_cents =>
            match refund_create stripe intent_id amount_cents with
            | Ok refund_status =>
                if String.eqb refund_status "succeeded" then
                  let assigned := set_pay_status PAY_REFUNDED payment in
                  let assigned := set_refund_amount amount_to_refund assigned in
                  match datetime_utcnow now with
                  | Ok t =>
                      let stored :=
                        flush_refund db_now payment (set_refunded_at t assigned) in
                      (Ok true, stored, put_payment stored db)
                  | Raised e => (Raised e, assigned, db)
                  end
                else (Ok false, payment, db)
            | Raised (StripeError _) => (Ok false, payment, db)
            | Raised e => (Raised e, payment, db)
            end
        end
  end.

End PaymentService.

(** ** app/task/payment_task.py

    A task opens a session, works, and closes it in [finally]: what the
    task did not commit is discarded.  A task is given the durable tables
    and the broker, and yields its return value, the durable tables and
    the broker after the run. *)

Module PaymentTask.

Definition update_order_status_name : string :=
  "app.tasks.order_tasks.update_order_status".
Definition send_websocket_notification_name : string :=
  "app.tasks.notification_tasks.send_websocket_notification".

(** [process_payment(payment_id)]; [db_now] is the store's clock at the
    commit of [process_stripe_payment]. *)
Definition process_payment (stripe : Stripe) (db_now : Z) (db : DB) (q : Queue)
    (payment_id : Z) : bool * DB * Queue :=
  match get_payment db payment_id with
  | None => (false, db, q)
  | Some payment =>
      match PaymentService.process_stripe_payment stripe db_now db payment with
      | (Raised _, _, db) => (false, db, q)
      | (Ok success, payment, db) =>
          if success then
            match get_order db (pay_order_id payment) with
            | Some order =>
                (* both calls pass [args=] only *)
                match send_task None
                        [AInt (order_id order); AStr (status_value CONFIRMED)] q with
                | Raised _ => (false, db, q)
                | Ok q1 =>
                    match send_task None [AInt (order_id order)] q1 with
                    | Raised _ => (false, db, q1)
                    | Ok q2 => (success, db, q2)
                    end
                end
            | None => (success, db, q)
            end
          else (success, db, q)
      end
  end.

(** The query of [check_pending_payments]: the payments in [PENDING]
    created before the cutoff. *)
Definition pending_payments (db : DB) (cutoff_time : Z) : list Payment :=
  filter (fun p => bool_decide (pay_status p = PAY_PENDING)
                   && (pay_created_at p <? cutoff_time))
         (payments db).

(** The loop [for payment in pending_payments]: the session's tables,
    [updated_count] and the broker, or the exception that ended it (the
    jobs sent before it stay sent).  The rows assigned to are written by
    the commit that follows the loop, one UPDATE a row; [db_now] gives,
    for the key of a row, the store's clock when its UPDATE runs. *)
Fixpoint check_loop (stripe : Stripe) (db_now : Z -> Z) (pending : list Payment)
    (work : DB) (updated_count : Z) (q : Queue) : Result (DB * Z) * Queue :=
  match pending with
  | [] => (Ok (work, updated_count), q)
  | payment :: rest =>
      if str_truthy (stripe_payment_intent_id payment) then
        match PaymentService.check_stripe_payment_status stripe
                (default "" (stripe_payment_intent_id payment)) with
        | Raised e => (Raised e, q)
        | Ok status =>
            if bool_decide (status <> pay_status payment) then
              let work :=
                put_payment (flush_payment (db_now (payment_id payment)) payment
                               (set_pay_status status payment)) work in
              let updated_count := updated_count + 1 in
              match status with
              | PAY_COMPLETED =>
                  match send_task (Some update_order_status_name)
                          [AInt (pay_order_id payment); AStr (status_value CONFIRMED)] q with
                  | Raised e => (Raised e, q)
                  | Ok q => check_loop stripe db_now rest work updated_count q
                  end
              | PAY_FAILED =>
                  match send_task (Some update_order_status_name)
                          [AInt (pay_order_id payment); AStr (status_value CANCELLED)] q with
                  | Raised e => (Raised e, q)
                  | Ok q => check_loop stripe db_now rest work updated_count q
                  end
              | _ => check_loop stripe db_now rest work updated_count q
              end
            else check_loop stripe db_now rest work updated_count q
        end
      else check_loop stripe db_now rest work updated_count q
  end.

(** [check_pending_payments()]; [now] is [datetime.utcnow()]. *)
Definition check_pending_payments (stripe : Stripe) (now : Z) (db_now : Z -> Z)
    (db : DB) (q : Queue) : Z * DB * Queue :=
  let cutoff_time := now - 5 * 60 in
  match check_loop stripe db_now (pending_payments db cutoff_time) db 0 q with
  | (Ok (work, updated_count), q) => (updated_count, work, q)   (* db.commit() *)
  | (Raised _, q) => (0, db, q)                                 (* db.rollback() *)
  end.

(** [process_refund(payment_id, refund_amount)] *)
Definition process_refund (stripe : Stripe) (now db_now : Z) (db : DB) (q : Queue)
    (payment_id : Z) (refund_amount : option float) : bool * DB * Queue :=
  match get_payment db payment_id with
  | None => (false, db, q)
  | Some payment =>
      match PaymentService.process_refund stripe now db_now db payment refund_amount with
      | (Raised _, _, db) => (false, db, q)
      | (Ok success, payment, db) =>
          if success then
            match send_task (Some update_order_status_name)
                    [AInt (pay_order_id payment); AStr (status_value REFUNDED)] q with
            | Raised _ => (false, db, q)
            | Ok q1 =>
                let notification :=
                  [("type", JStr "refund_processed");
                   ("order_id", JInt (pay_order_id payment));
                   ("refund_amount",
                    JFloat (PaymentService.amount_to_refund payment refund_amount));
                   ("timestamp", JTime now)] in
                match send_task (Some send_websocket_notification_name)
                        [AInt (pay_user_id payment); ADict notification] q1 with
                | Raised _ => (false, db, q1)
                | Ok q2 => (success, db, q2)
                end
            end
          else (success, db, q)
      end
  end.

End PaymentTask.

(** ** app/api/v1/payments.py: the webhook *)

Module Webhook.

(** The [order_id] entry of the intent's metadata, by what the handler
    does with it: the truth test [if order_id] and [int(order_id)]. *)
Inductive MetaOrderId : Type :=
| NoOrderId                (* absent, or the empty string: falsy *)
| IntOrderId (z : Z)       (* a text [int()] accepts, with its value *)
| BadOrderId (s : string). (* a non-empty text [int()] refuses *)

Record Event : Type := mkEvent {
  event_id : string;
  event_type : string;
  meta_order_id : MetaOrderId
}.

(** What [stripe.Webhook.construct_event(payload, sig_header, secret)]
    does with a request. *)
Inductive Construct : Type :=
| InvalidPayload                (* raises ValueError *)
| InvalidSignature              (* raises SignatureVerificationError *)
| Verified (event : Event).

Inductive Response : Type :=
| Success                          (* {"status": "success"} *)
| HTTP400 (detail : string)
| HTTP500 (e : Exn).               (* an exception the handler lets out *)

Definition process_payment_name : string := "app.task.payment_task.process_payment".

(** [stripe_webhook(request)], from the outcome of [construct_event]:
    the response and the broker after the call. *)
Definition stripe_webhook (c : Construct) (q : Queue) : Response * Queue :=
  match c with
  | InvalidPayload => (HTTP400 "Invalid payload", q)
  | InvalidSignature => (HTTP400 "Invalid signature", q)
  | Verified event =>
      if String.eqb (event_type event) "payment_intent.succeeded" then
        match meta_order_id event with
        | NoOrderId => (Success, q)
        | IntOrderId order_id =>
            (* process_payment.delay(int(order_id)) *)
            (Success, delay process_payment_name [AInt order_id] q)
        | BadOrderId s => (HTTP500 (ValueError s), q)
        end
      else if String.eqb (event_type event) "payment_intent.payment_failed" then
        (Success, q)   (* the failure is logged only *)
      else (Success, q)
  end.

(** The jobs one delivery of a verified event is expected to add to the
    broker: one [process_payment] for a succeeded event that carries an
    integer order id. *)
Definition jobs_of_event (event : Event) : list Job :=
  if String.eqb (event_type event) "payment_intent.succeeded" then
    match meta_order_id event with
    | IntOrderId order_id => [mkJob process_payment_name [AInt order_id]]
    | _ => []
    end
  else [].

End Webhook.

(** ** app/task/order_task.py *)

Module OrderTask.

Definition send_websocket_notification_name : string :=
  "app.tasks.notification_tasks.send_websocket_notification".

(** [OrderStatus.PREPARING.values]: a member has [value] and [name], no
    attribute [values]; evaluating the expression raises. *)
Definition PREPARING_values : Result string :=
  Raised (AttributeError "'OrderStatus' object has no attribute 'values'").

(** The [if]/[elif] chain on [new_status] (a string); its first test
    evaluates [OrderStatus.PREPARING.values]. *)
Definition stamp (new_status : string) (now : Z) (order : Order) : Result Order :=
  let? preparing := PREPARING_values in
  if String.eqb new_status preparing then Ok (set_prepared_at now order)
  else if String.eqb new_status (status_value OUT_FOR_DELIVERY)
  then Ok (set_picked_up_at now order)
  else if String.eqb new_status (status_value DELIVERED)
  then Ok (set_delivered_at now order)
  else if String.eqb new_status (status_value CANCELLED)
  then Ok (set_cancelled_at now order)
  else Ok order.

(** The dict [notification_message]. *)
Definition notification_message (order_id : Z) (old_status : OrderStatus)
    (new_status : string) (now : Z) : list (string * Json) :=
  [("type", JStr "order_status_update");
   ("order_id", JInt order_id);
   ("order_number", JClassAttribute "Order.order_number");
   ("old_status", JStr (status_value old_status));
   ("new_status", JStr new_status);
   ("timestamp", JTime now)].

(** The two [send_task] calls after the commit; both are addressed to
    [order.restaurant.owner_id]. *)
Definition notify (db : DB) (order : Order) (message : list (string * Json)) (q : Queue)
  : Result Queue :=
  match get_restaurant db (restaurant_id order) with
  | None => Raised (AttributeError "'NoneType' object has no attribute 'owner_id'")
  | Some restaurant =>
      let? q1 := send_task (Some send_websocket_notification_name)
                   [AInt (owner_id restaurant); ADict message] q in
      send_task (Some send_websocket_notification_name)
        [AInt (owner_id restaurant); ADict message] q1
  end.

(** [update_order_status(order_id, new_status)]; [now] is
    [datetime.now()], [db_now] the store's clock at the commit.  An
    exception before [db.commit()] rolls the session back; the handler
    returns [False] on every exception. *)
Definition update_order_status (now db_now : Z) (db : DB) (q : Queue)
    (order_id : Z) (new_status : string) : bool * DB * Queue :=
  match get_order db order_id with
  | None => (false, db, q)
  | Some loaded =>
      let old_status := status loaded in
      match status_by_name new_status with
      | Raised _ => (false, db, q)
      | Ok s =>
          match stamp new_status now (set_status s loaded) with
          | Raised _ => (false, db, q)
          | Ok order =>
              let order := flush_order db_now loaded order in
              let db := put_order order db in
              match notify db order
                      (notification_message order_id old_status new_status now) q with
              | Raised _ => (false, db, q)
              | Ok q => (true, db, q)
              end
          end
      end
  end.

(** The right operand of [Order.status == ...] in a filter. *)
Inductive StatusOperand : Type :=
| Member (s : OrderStatus)   (* a member, such as [OrderStatus.PENDING] *)
| EnumClass.                 (* the class [OrderStatus] itself *)

(** Whether a row's status satisfies [Order.status == operand].  The
    class is none of its members: no row's status equals it.  (The
    store's Enum type has no database value for the class; SQLAlchemy
    reports that when the query runs, the handler catches it, rolls back
    and returns 0: no row is selected either way.) *)
Definition status_equals (column : OrderStatus) (operand : StatusOperand) : bool :=
  match operand with
  | Member s => bool_decide (column = s)
  | EnumClass => false
  end.

(** [cutoff_time = datetime.now() + timedelta(minutes=15)] *)
Definition cutoff_time (now : Z) : Z := now + 15 * 60.

(** The query of [auto_cancel_unpaid_order]:
    [filter(Order.status == OrderStatus, Order.created_at < cutoff_time)]. *)
Definition unpaid_orders (db : DB) (now : Z) : list Order :=
  filter (fun o => status_equals (status o) EnumClass
                   && (created_at o <? cutoff_time now))
         (orders db).

(** The loop [for order in unpaid_orders]: [now] is [datetime.now()],
    which stamps [cancelled_at], [utcnow] is [datetime.utcnow()], which
    dates the notification.  The rows assigned to are written by the
    commit that follows the loop, one UPDATE a row; [db_now] gives, for
    the key of a row, the store's clock when its UPDATE runs. *)
Fixpoint cancel_loop (now utcnow : Z) (db_now : Z -> Z) (selected : list Order)
    (work : DB) (cancelled_count : Z) (q : Queue) : Result (DB * Z) * Queue :=
  match selected with
  | [] => (Ok (work, cancelled_count), q)
  | loaded :: rest =>
      let order :=
        flush_order (db_now (order_id loaded)) loaded
          (set_cancelled_at now (set_status CANCELLED loaded)) in
      let work := put_order order work in
      let cancelled_count := cancelled_count + 1 in
      let notification :=
        [("type", JStr "order_cancelled");
         ("order_id", JInt (order_id order));
         ("reason", JStr "Payment timeout");
         ("timestamp", JTime utcnow)] in
      match send_task (Some send_websocket_notification_name)
              [AInt (customer_id order); ADict notification] q with
      | Raised e => (Raised e, q)
      | Ok q => cancel_loop now utcnow db_now rest work cancelled_count q
      end
  end.

(** [auto_cancel_unpaid_order()] *)
Definition auto_cancel_unpaid_order (now utcnow : Z) (db_now : Z -> Z) (db : DB)
    (q : Queue) : Z * DB * Queue :=
  match cancel_loop now utcnow db_now (unpaid_orders db now) db 0 q with
  | (Ok (work, cancelled_count), q) => (cancelled_count, work, q)
  | (Raised _, q) => (0, db, q)
  end.

End OrderTask.

(** ** app/utils/websocket_manager.py *)

Module WebsocketManager.

(** A [WebSocket] object, by identity. *)
Abbreviation WebSocket := nat (only parsing).

(** A key as Python compares it: an [int] and a [str] are never equal. *)
Abbreviation Key := (Z + string)%type (only parsing).

(** [ConnectionManager]: [user_connection] is keyed by what the code
    stores in it, [role_connection] by role name. *)
Record ConnectionManager : Type := mkManager {
  user_connection : gmap (Z + string) nat;
  role_connection : gmap string (list nat)
}.

(** [ConnectionManager.__init__] *)
Definition init : ConnectionManager :=
  mkManager ∅
    (<["customer" := []]> (<["restaurant_owner" := []]>
       (<["delivery_partner" := []]> (<["admin" := []]> ∅)))).

(** [connect(websocket, user_id, user_role)], once [websocket.accept()]
    has returned.  The role test reads [user_connection]. *)
Definition connect (websocket : WebSocket) (user_id : Z) (user_role : string)
    (m : ConnectionManager) : Result unit * ConnectionManager :=
  let uc := <[inl user_id := websocket]> (user_connection m) in
  if bool_decide (is_Some (uc !! inr user_role)) then
    match role_connection m !! user_role with
    | Some l => (Ok (), mkManager uc (<[user_role := l ++ [websocket]]> (role_connection m)))
    | None => (Raised (KeyError user_role), mkManager uc (role_connection m))
    end
  else (Ok (), mkManager uc (role_connection m)).

(** [disconnect(user_id, user_role)]: a dict has no method [remove]. *)
Definition disconnect (user_id : Z) (user_role : string) (m : ConnectionManager)
  : Result unit * ConnectionManager :=
  (Raised (AttributeError "'dict' object has no attribute 'remove'"), m).

(** A message: the dict handed to [json.dumps]. *)
Abbreviation Message := (list (string * Json)) (only parsing).

(** Whether [json.dumps(msg)] returns: the encoder raises [TypeError] on
    a value it cannot encode. *)
Definition json_dumps_returns (msg : Message) : bool :=
  forallb (fun kv => json_serializable (snd kv)) msg.

(** [send_personal_msg(msg, user_id)]: the manager after the call and
    the sockets [send_text] was called on, in order.  [raises] tells
    which sockets' [send_text] raises during this call.  [json.dumps(msg)]
    is evaluated inside the [try]: when it raises, nothing is written and
    the user is popped all the same. *)
Definition send_personal_msg (raises : WebSocket -> bool) (msg : Message) (user_id : Z)
    (m : ConnectionManager) : ConnectionManager * list WebSocket :=
  match user_connection m !! inl user_id with
  | Some websocket =>
      if json_dumps_returns msg then
        if raises websocket
        then (mkManager (delete (inl user_id) (user_connection m)) (role_connection m),
              [websocket])
        else (m, [websocket])
      else (mkManager (delete (inl user_id) (user_connection m)) (role_connection m), [])
  | None => (m, [])
  end.

(** [list.remove(x)], with the [ValueError] of an absent [x] passed
    over: the first occurrence is removed. *)
Fixpoint remove_first (x : WebSocket) (l : list WebSocket) : list WebSocket :=
  match l with
  | [] => []
  | y :: l' => if bool_decide (x = y) then l' else y :: remove_first x l'
  end.

(** [send_to_role(message, role)]: a socket is put on [disconnected] when
    its [send_text] raises, and every socket of the role when
    [json.dumps(message)] does (nothing is written then). *)
Definition send_to_role (raises : WebSocket -> bool) (message : Message) (role : string)
    (m : ConnectionManager) : ConnectionManager * list WebSocket :=
  match role_connection m !! role with
  | None => (m, [])
  | Some l =>
      let dumps := json_dumps_returns message in
      let disconnected := filter (fun ws => (negb dumps || raises ws) = true) l in
      (mkManager (user_connection m)
         (<[role := fold_left (fun acc ws => remove_first ws acc) disconnected l]>
            (role_connection m)),
       if dumps then l else [])
  end.

(** [broadcast(msg)]: every stored socket is written to, unless
    [json.dumps(msg)] raises; the users whose write (or whose
    [json.dumps]) raised are popped afterwards.  The dict is kept as a
    finite map: the list of the sockets written to is in the order of the
    map's keys, which need not be the order in which the dict yields its
    items. *)
Definition broadcast (raises : WebSocket -> bool) (msg : Message) (m : ConnectionManager)
  : ConnectionManager * list WebSocket :=
  let items := map_to_list (user_connection m) in
  let dumps := json_dumps_returns msg in
  let disconnected_users :=
    filter (fun kv => (negb dumps || raises (snd kv)) = true) items in
  (mkManager (fold_left (fun uc kv => delete (fst kv) uc) disconnected_users
                (user_connection m))
             (role_connection m),
   if dumps then map snd items else []).

(** One call on the manager. *)
Inductive Op : Type :=
| Connect (websocket : WebSocket) (user_id : Z) (user_role : string)
| Disconnect (user_id : Z) (user_role : string)
| SendPersonalMsg (raises : WebSocket -> bool) (msg : Message) (user_id : Z)
| SendToRole (raises : WebSocket -> bool) (message : Message) (role : string)
| Broadcast (raises : WebSocket -> bool) (msg : Message).

Definition step (m : ConnectionManager) (op : Op) : ConnectionManager * list WebSocket :=
  match op with
  | Connect ws u r => (snd (connect ws u r m), [])
  | Disconnect u r => (snd (disconnect u r m), [])
  | SendPersonalMsg raises msg u => send_personal_msg raises msg u m
  | SendToRole raises message r => send_to_role raises message r m
  | Broadcast raises msg => broadcast raises msg m
  end.

(** A sequence of calls: the final manager and every socket written to. *)
Fixpoint run (m : ConnectionManager) (ops : list Op) : ConnectionManager * list WebSocket :=
  match ops with
  | [] => (m, [])
  | op :: rest =>
      let '(m1, w1) := step m op in
      let '(m2, w2) := run m1 rest in
      (m2, w1 ++ w2)
  end.

(** The call registers [ws]. *)
Definition connects (ws : WebSocket) (op : Op) : Prop :=
  match op with
  | Connect ws' _ _ => ws' = ws
  | _ => False
  end.

(** Every call of the sequence leaves [ws] unregistered. *)
Definition never_connects (ws : WebSocket) (ops : list Op) : Prop :=
  Forall (fun op => ~ connects ws op) ops.

(** [user_connection] holds [ws] under the keys [allowed] only, and no
    role list holds it. *)
Definition confined (allowed : Z + string -> Prop) (ws : WebSocket)
    (m : ConnectionManager) : Prop :=
  (forall k, user_connection m !! k = Some ws -> allowed k) /\
  (forall role l, role_connection m !! role = Some l -> ws ∉ l).

(** The manager holds [ws] nowhere. *)
Definition unregistered (ws : WebSocket) (m : ConnectionManager) : Prop :=
  confined (fun _ => False) ws m.

(** [user_connection] has user ids for keys, no string. *)
Definition int_keyed (m : ConnectionManager) : Prop :=
  forall s : string, user_connection m !! inr s = None.

End WebsocketManager.

(** ** The specification's vocabulary *)

Module Spec.

(** The legal transition graph of the specification (section 4.1), in
    its words: source and allowed targets; the terminal statuses have
    none. *)
Definition legal_transition (source target : OrderStatus) : bool :=
  match source, target with
  | PENDING, CONFIRMED | PENDING, CANCELLED => true
  | CONFIRMED, PREPARING | CONFIRMED, CANCELLED => true
  | PREPARING, READY_FOR_PICKUP | PREPARING, CANCELLED => true
  | READY_FOR_PICKUP, OUT_FOR_DELIVERY => true
  | OUT_FOR_DELIVERY, DELIVERED => true
  | _, _ => false
  end.

Definition terminal (s : OrderStatus) : bool :=
  match s with
  | DELIVERED | CANCELLED | REFUNDED => true
  | _ => false
  end.

(** The columns of an order other than its status, its four transition
    timestamps and [updated_at] are the same in [o] and [o']. *)
Definition same_other_columns (o o' : Order) : Prop :=
  order_id o' = order_id o /\ order_number o' = order_number o /\
  customer_id o' = customer_id o /\ restaurant_id o' = restaurant_id o /\
  delivery_partner_id o' = delivery_partner_id o /\
  payment_status o' = payment_status o /\
  subtotal o' = subtotal o /\ delivery_fee o' = delivery_fee o /\
  tax_amount o' = tax_amount o /\ discount_amount o' = discount_amount o /\
  total_amount o' = total_amount o /\
  delivery_address o' = delivery_address o /\
  delivery_latitude o' = delivery_latitude o /\
  delivery_longitude o' = delivery_longitude o /\
  delivery_instructions o' = delivery_instructions o /\
  estimated_delivery_time o' = estimated_delivery_time o /\
  created_at o' = created_at o.

(** The four transition timestamps of [o'] are those of [o], except that
    the one matching [target] is [now]: [prepared_at] for PREPARING,
    [picked_up_at] for OUT_FOR_DELIVERY, [delivered_at] for DELIVERED,
    [cancelled_at] for CANCELLED. *)
Definition stamped (target : OrderStatus) (now : Z) (o o' : Order) : Prop :=
  prepared_at o' = (if bool_decide (target = PREPARING) then Some now else prepared_at o) /\
  picked_up_at o' = (if bool_decide (target = OUT_FOR_DELIVERY) then Some now else picked_up_at o) /\
  delivered_at o' = (if bool_decide (target = DELIVERED) then Some now else delivered_at o) /\
  cancelled_at o' = (if bool_decide (target = CANCELLED) then Some now else cancelled_at o).

(** The rows of [order_items] that belong to the order [id]. *)
Definition items_of (db : DB) (id : Z) : list OrderItem :=
  filter (fun it => item_order_id it = id) (order_items db).

(** The foreign key of [order_items]: every row refers to a stored order. *)
Definition referential_integrity (db : DB) : Prop :=
  forall it, it ∈ order_items db ->
             exists o, o ∈ orders db /\ order_id o = item_order_id it.

(** Two amounts are equal to the currency precision of two decimals. *)
Definition same_cents (x y : float) : Prop := cents x = cents y.

End Spec.

(** ** The two payment signals *)

Module Reconcile.

Import PaymentTask Webhook.

(** The worker runs a job the webhook sent: [process_payment] with the
    job's one integer argument. *)
Definition run_job (stripe : Stripe) (db_now : Z) (st : DB * Queue) (job : Job)
  : DB * Queue :=
  match task_args job with
  | [AInt id] =>
      let '(_, db, q) := process_payment stripe db_now (fst st) (snd st) id in (db, q)
  | _ => st
  end.

(** The webhook signal: the verified event is delivered to
    [stripe_webhook] and the worker runs the jobs the handler sent, the
    store's clock being [db_now]. *)
Definition webhook_signal (stripe : Stripe) (db_now : Z) (event : Event) (st : DB * Queue)
  : DB * Queue :=
  fold_left (run_job stripe db_now) (snd (stripe_webhook (Verified event) [])) st.

(** The poll signal: one run of [check_pending_payments] at [now], the
    store's clock being [db_now]. *)
Definition poll_signal (stripe : Stripe) (now db_now : Z) (st : DB * Queue) : DB * Queue :=
  let '(_, db, q) :=
    check_pending_payments stripe now (fun _ => db_now) (fst st) (snd st) in (db, q).

(** The jobs of the broker that ask for the transition of an order to
    CONFIRMED, under whatever task name. *)
Definition asks_confirmed (job : Job) : bool :=
  match task_args job with
  | [AInt _; AStr s] => String.eqb s (status_value CONFIRMED)
  | _ => false
  end.

Definition confirmed_jobs (q : Queue) : list Job :=
  filter (fun job => asks_confirmed job = true) q.

End Reconcile.

(** ** The provider's answer to a refund request *)

Module RefundSpec.

Import PaymentService.

(** What the provider's answer to the refund request is, for a payment
    that has a provider reference and a finite amount to refund. *)
Inductive RefundAnswer (stripe : Stripe) (p : Payment) (ra : option float) : bool -> Prop :=
| AnswerSucceeded (intent_id : string) (cents : Z) :
    stripe_payment_intent_id p = Some intent_id -> intent_id <> "" ->
    py_int_of_float (amount_to_refund p ra * 100)%float = Ok cents ->
    refund_create stripe intent_id cents = Ok "succeeded" ->
    RefundAnswer stripe p ra true
| AnswerOther (intent_id : string) (cents : Z) (refund_status : string) :
    stripe_payment_intent_id p = Some intent_id -> intent_id <> "" ->
    py_int_of_float (amount_to_refund p ra * 100)%float = Ok cents ->
    refund_create stripe intent_id cents = Ok refund_status ->
    refund_status <> "succeeded" ->
    RefundAnswer stripe p ra false
| AnswerStripeError (intent_id : string) (cents : Z) (e : string) :
    stripe_payment_intent_id p = Some intent_id -> intent_id <> "" ->
    py_int_of_float (amount_to_refund p ra * 100)%float = Ok cents ->
    refund_create stripe intent_id cents = Raised (StripeError e) ->
    RefundAnswer stripe p ra false
| NoReference :
    str_truthy (stripe_payment_intent_id p) = false ->
    RefundAnswer stripe p ra false.

End RefundSpec.

(** ** Sample rows *)

Module Samples.

(** An order of customer 10 at restaurant 5, created at instant 0 and
    not updated since, with no timestamp set. *)
Definition order_in (id : Z) (s : OrderStatus) : Order :=
  mkOrder id "ORD=20240101-A1B2C3" 10 5 None s ORDER_PAY_PENDING
    25.0 2.99 2.0 0.0 29.99 "1 Main Street" None None None
    None None None None None 0 0.

Definition restaurant_5 : Restaurant :=
  mkRestaurant 5 None None 2.99 30.0 (Some 30) true 20.

(** Restaurant 6: delivery fee 2.99, minimum order 20.00, no coordinates;
    its menu item 1 costs 25.00. *)
Definition restaurant_6 : Restaurant :=
  mkRestaurant 6 None None 2.99 20.0 (Some 30) true 20.

(** Restaurant 7: delivery fee 2.004, no minimum order; its menu item 2
    costs 10.004. *)
Definition restaurant_7 : Restaurant :=
  mkRestaurant 7 None None 2.004 0.0 (Some 30) true 20.

(** A store with the three restaurants, their menus and no order yet;
    menu item 3 (25.00) is on the menu of restaurant 5, whose minimum
    order is 30.00. *)
Definition menu_store : DB :=
  mkDB [] [] [restaurant_5; restaurant_6; restaurant_7]
       [mkMenuItem 1 25.0 true 6; mkMenuItem 2 10.004 true 7; mkMenuItem 3 25.0 true 5] [].

(** No coordinates are given in the samples: the distance is not asked for. *)
Definition no_distance (lat1 lon1 lat2 lon2 : float) : Result float := Ok 0%float.

(** What [calculate_distance] does with a coordinate that is not finite:
    [math.sin] and [math.cos] raise on an infinity.  Nothing else about it
    is used in the samples. *)
Definition domain_distance (lat1 lon1 lat2 lon2 : float) : Result float :=
  if existsb (fun x => PrimFloat.eqb (abs x) infinity) [lat1; lon1; lat2; lon2]
  then Raised (ValueError "math domain error")
  else Ok 0%float.

(** Restaurant 8 has coordinates; its menu item 4 costs 25.00. *)
Definition restaurant_8 : Restaurant :=
  mkRestaurant 8 (Some 12.97%float) (Some 77.59%float) 2.99 0.0 (Some 30) true 20.

Definition located_store : DB :=
  mkDB [] [] [restaurant_8] [mkMenuItem 4 25.0 true 8] [].

(** The order customer 10 places at restaurant 6 at instant 50, for one
    menu item 1, and the store once it is placed. *)
Definition placed_order : Order :=
  mkOrder 1 "ORD=20240101-000001" 10 6 None PENDING ORDER_PAY_PENDING
    25.0 2.99 2.0 0.0 29.99 "1 Main Street" None None None
    None None None None None 50 50.

Definition placed_store : DB :=
  OrderService.insert_items [mkOrderItem 1 1 1 1 25.0 25.0 None]
    (OrderService.insert_order placed_order menu_store).

(** A store where every commit succeeds, and one whose second commit of
    a call fails. *)
Definition commits : nat -> bool := fun _ => false.
Definition second_commit_fails : nat -> bool := fun n => Nat.eqb n 1.

(** A store holding the one order [o] and restaurant 5. *)
Definition store_of (o : Order) : DB := mkDB [o] [] [restaurant_5] [] [].

(** A payment of 29.99 by customer 10, created at instant 0 and not
    updated since, with the provider reference "pi_1". *)
Definition payment_in (id order_id : Z) (s : PaymentStatus) : Payment :=
  mkPayment id 10 order_id (Some "pi_1") 29.99 "usd" CREDIT_CARD s None 0.0 None 0 0.

(** A store holding the order [o], restaurant 5 and the payment [p]. *)
Definition store_with (o : Order) (p : Payment) : DB :=
  mkDB [o] [] [restaurant_5] [] [p].

(** A provider that reports every intent and every refund as succeeded. *)
Definition stripe_succeeded : Stripe :=
  mkStripe (fun _ => Ok "succeeded") (fun _ _ => Ok "succeeded").

(** The event [payment_intent.succeeded] for the intent of order 1. *)
Definition succeeded_event : Webhook.Event :=
  Webhook.mkEvent "evt_1" "payment_intent.succeeded" (Webhook.IntOrderId 1).

End Samples.

(** ** app/utils/__init__.py: the sequence helpers *)

Module Utils.

(** The exceptions these helpers raise. *)
Inductive PyError : Type :=
| ErrValue (what : string)
| ErrIndex (what : string)
| ErrZeroDivision.

Inductive Outcome (A : Type) : Type :=
| Returns (a : A)
| Raises (e : PyError).
Arguments Returns {A} a.
Arguments Raises {A} e.

(** [len(s)] *)
Definition len {A} (s : list A) : Z := Z.of_nat (length s).

(** The slice [s[:k]]: the first [k] elements, or all but the last [-k]
    when [k] is negative. *)
Definition slice_to {A} (k : Z) (s : list A) : list A :=
  if 0 <=? k then take (Z.to_nat k) s else take (Z.to_nat (len s + k)) s.

(** The slice [s[k:]]: without the first [k] elements, or the last [-k]
    when [k] is negative. *)
Definition slice_from {A} (k : Z) (s : list A) : list A :=
  if 0 <=? k then drop (Z.to_nat k) s else drop (Z.to_nat (len s + k)) s.

(** [truncate_string(text, max_length, suffix)] *)
Definition truncate_string {A} (text : list A) (max_length : Z) (suffix : list A)
  : list A :=
  if len text <=? max_length then text
  else slice_to (max_length - len suffix) text ++ suffix.

(** [range(0, stop, step)] for a positive [step]. *)
Definition range0 (stop step : nat) : list nat :=
  (fun k => k * step)%nat <$> seq 0 ((stop + step - 1) / step)%nat.

(** [chunk_list(lst, chunk_size)]: [range] refuses a step of zero, and is
    empty for a negative one. *)
Definition chunk_list {A} (lst : list A) (chunk_size : Z) : Outcome (list (list A)) :=
  if chunk_size =? 0 then Raises (ErrValue "range() arg 3 must not be zero")
  else if chunk_size <? 0 then Returns []
  else
    let n := Z.to_nat chunk_size in
    Returns ((fun i => take n (drop i lst)) <$> range0 (length lst) n).

(** The comprehension of [remove_duplicates], from the set [seen]: an
    element is kept, and added to [seen], when it is not in [seen]. *)
Fixpoint unseen {A} `{EqDecision A} (seen lst : list A) : list A :=
  match lst with
  | [] => []
  | x :: rest =>
      if decide (x ∈ seen) then unseen seen rest
      else x :: unseen (x :: seen) rest
  end.

(** [remove_duplicates(lst)] *)
Definition remove_duplicates {A} `{EqDecision A} (lst : list A) : list A :=
  unseen [] lst.

(** [query.offset(k).limit(n).all()] on the rows of a query, as SQLite
    (the configured store) reads them: a negative offset is 0, a negative
    limit is no limit. *)
Definition offset_limit {A} (k n : Z) (rows : list A) : list A :=
  let rest := drop (Z.to_nat k) rows in
  if n <? 0 then rest else take (Z.to_nat n) rest.

(** The dict [paginate_query] returns. *)
Record Page (A : Type) : Type := mkPage {
  items : list A;
  total : Z;
  page : Z;
  per_page : Z;
  pages : Z;
  has_prev : bool;
  has_next : bool
}.
Arguments mkPage {A}.
Arguments items {A}.
Arguments total {A}.
Arguments page {A}.
Arguments per_page {A}.
Arguments pages {A}.
Arguments has_prev {A}.
Arguments has_next {A}.

(** [paginate_query(query, page, per_page)], on the rows of the query. *)
Definition paginate_query {A} (rows : list A) (page per_page : Z) : Outcome (Page A) :=
  let total := len rows in
  if per_page =? 0 then Raises ErrZeroDivision
  else
    let pages := (total + per_page - 1) / per_page in
    let items := offset_limit ((page - 1) * per_page) per_page rows in
    Returns (mkPage items total page per_page pages (1 <? page) (page <? pages)).

(** The items of page [p], nothing when the call raises. *)
Definition page_items {A} (rows : list A) (p per_page : Z) : list A :=
  match paginate_query rows p per_page with
  | Returns pg => items pg
  | Raises _ => []
  end.

Section Masks.

(** The characters of a text, with the two the masks write. *)
Context {char : Type} `{EqDecision char}.
Variable at_sign star : char.

(** [s.split('@')] when it has exactly two parts: the text before and
    after the one separator. *)
Fixpoint split_once (s : list char) : option (list char * list char) :=
  match s with
  | [] => None
  | c :: rest =>
      if decide (c = at_sign)
      then if decide (at_sign ∈ rest) then None else Some ([], rest)
      else match split_once rest with
           | Some (before, after) => Some (c :: before, after)
           | None => None
           end
  end.

(** [mask_email(email)]: unpacking the split raises unless there is
    exactly one separator; [local[0]] raises on an empty local part. *)
Definition mask_email (email : list char) : Outcome (list char) :=
  if decide (at_sign ∈ email) then
    match split_once email with
    | None => Raises (ErrValue "too many values to unpack (expected 2)")
    | Some (local, domain) =>
        match local with
        | [] => Raises (ErrIndex "string index out of range")
        | first :: _ =>
            if len local <=? 2
            then Returns (first :: [star; star; star] ++ at_sign :: domain)
            else Returns (first :: replicate (length local - 2) star
                            ++ slice_from (-1) local ++ at_sign :: domain)
        end
    end
  else Returns email.

End Masks.

End Utils.

(** ** app/task/order_task.py: the estimated delivery time *)

Module EtaTask.

(** [order.restaurant.delivery_time or 30]: 30 for [None] and for 0. *)
Definition prep_time (restaurant : Restaurant) : Z :=
  match rest_delivery_time restaurant with
  | Some t => if t =? 0 then 30 else t
  | None => 30
  end.

(** [calculate_estimated_delivery_time(order_id)]; [now] is
    [datetime.now()], in seconds, [db_now] the store's clock at the
    commit.  A missing restaurant raises on
    [order.restaurant.delivery_time]; the handler rolls back and returns
    False. *)
Definition calculate_estimated_delivery_time (now db_now : Z) (db : DB) (q : Queue)
    (order_id : Z) : bool * DB * Queue :=
  match get_order db order_id with
  | None => (false, db, q)
  | Some order =>
      match get_restaurant db (restaurant_id order) with
      | None => (false, db, q)
      | Some restaurant =>
          let travel_time := 15 in
          let estimated_time := now + (prep_time restaurant + travel_time) * 60 in
          let order :=
            flush_order db_now order (set_estimated_delivery_time estimated_time order) in
          let db := put_order order db in
          let notification :=
            [("type", JStr "delivery_time_update");
             ("order_id", JInt (Models.order_id order));
             ("estimated_delivery_time", JTime estimated_time)] in
          match send_task (Some OrderTask.send_websocket_notification_name)
                  [AInt (customer_id order); ADict notification] q with
          | Raised _ => (false, db, q)
          | Ok q => (true, db, q)
          end
      end
  end.

End EtaTask.

(** ** app/api/v1/order.py: the order routes *)

Module OrdersApi.

(** [app/models/user.py], class [UserRole]. *)
Inductive UserRole : Type :=
| CUSTOMER | RESTAURANT_OWNER | DELIVERY_PARTNER | ADMIN.

#[export] Instance UserRole_eq_dec : EqDecision UserRole.
Proof. solve_decision. Defined.

(** The current user, as the routes read it. *)
Record User : Type := mkUser {
  user_id : Z;
  role : UserRole
}.

(** [app/schema/order.py], class [OrderUpdate]. *)
Record OrderUpdate : Type := mkOrderUpdate {
  upd_status : option OrderStatus;
  upd_delivery_partner_id : option Z
}.

Definition update_order_status_name : string := "app.task.order_task.update_order_status".
Definition calculate_estimated_delivery_time_name : string :=
  "app.task.order_task.calculate_estimated_delivery_time".

(** The permission chain of [update_order] for a requested status: the
    exception it raises, if any. *)
Definition status_permission (db : DB) (current_user : User) (order : Order)
    (new_status : OrderStatus) : option Exn :=
  if bool_decide (role current_user = RESTAURANT_OWNER)
     && OrderService.status_in new_status [CONFIRMED; PREPARING; READY_FOR_PICKUP] then
    match find (fun r => (rest_id r =? restaurant_id order)
                         && (owner_id r =? user_id current_user)) (restaurants db) with
    | Some _ => None
    | None => Some (AuthorizationException "Not authorized to update this order")
    end
  else if bool_decide (role current_user = DELIVERY_PARTNER)
          && OrderService.status_in new_status [OUT_FOR_DELIVERY; DELIVERED] then
    if bool_decide (delivery_partner_id order <> Some (user_id current_user))
    then Some (AuthorizationException "Not assigned to this order")
    else None
  else if bool_decide (role current_user = CUSTOMER)
          && bool_decide (new_status = CANCELLED) then
    if negb (customer_id order =? user_id current_user)
       || negb (OrderService.status_in (status order) [PENDING; CONFIRMED])
    then Some (AuthorizationException "Cannot cancel this order")
    else None
  else if bool_decide (role current_user <> ADMIN)
  then Some (AuthorizationException "Not authorized to update order status")
  else None.

(** [update_order(order_id, order_update)] (PATCH /orders/{order_id}):
    the outcome, the store and the broker after the call; [db_now] is
    the store's clock at the commit. *)
Definition update_order (db_now : Z) (db : DB) (q : Queue) (current_user : User)
    (order_id : Z) (order_update : OrderUpdate) : Result Order * DB * Queue :=
  match get_order db order_id with
  | None => (Raised (NotFoundException "Order"), db, q)
  | Some order =>
      let checked :=
        match upd_status order_update with
        | Some new_status =>
            match status_permission db current_user order new_status with
            | Some e => Raised e
            | None => Ok (delay update_order_status_name
                            [AInt order_id; AStr (status_value new_status)] q)
            end
        | None => Ok q
        end in
      match checked with
      | Raised e => (Raised e, db, q)
      | Ok q =>
          match upd_delivery_partner_id order_update with
          | Some partner =>
              if negb (bool_decide (role current_user = ADMIN)
                       || bool_decide (role current_user = RESTAURANT_OWNER))
              then (Raised (AuthorizationException
                              "Not authorized to assign delivery partner"), db, q)
              else
                let order :=
                  flush_order db_now order (set_delivery_partner_id (Some partner) order) in
                (Ok order, put_order order db, q)
          | None => (Ok order, db, q)
          end
      end
  end.

(** [create_order(order_data)] (POST /orders/).  The item loop is the
    loop of [OrderService.create_order], written out again in the route;
    the amounts are stored as computed, the delivery fee is the
    restaurant's, and [discount_amount] takes the column default.
    [order_number] is the column default (a fresh token), [now] the
    store's [func.now()], [commit_raises] as for the service. *)
Definition create_order (commit_raises : nat -> bool) (order_number : string) (now : Z)
    (db : DB) (q : Queue) (current_user : User) (restaurant_id : Z)
    (items : list OrderService.ItemReq) (delivery_address : string)
    (delivery_latitude delivery_longitude : option float)
    (delivery_instructions : option string) : Result Order * DB * Queue :=
  match find (fun r => (rest_id r =? restaurant_id) && rest_is_active r)
             (restaurants db) with
  | None => (Raised (NotFoundException "Restaurant"), db, q)
  | Some restaurant =>
      match OrderService.price_items db restaurant_id items 0%float [] with
      | Raised e => (Raised e, db, q)
      | Ok (subtotal, order_items_data) =>
          let delivery_fee := rest_delivery_fee restaurant in
          let tax_rate := 0.08%float in
          let tax_amount := (subtotal * tax_rate)%float in
          let total_amount := (subtotal + delivery_fee + tax_amount)%float in
          if PrimFloat.ltb subtotal (minimum_order restaurant)
          then (Raised (ValidationException
                          (MinimumOrderAmount (minimum_order restaurant))), db, q)
          else
            let db_order :=
              mkOrder (OrderService.next_id (map order_id (orders db))) order_number
                (user_id current_user) restaurant_id None PENDING ORDER_PAY_PENDING
                subtotal delivery_fee tax_amount 0.0 total_amount
                delivery_address delivery_latitude delivery_longitude
                delivery_instructions None None None None None now now in
            if commit_raises 0%nat
            then (Raised (SQLAlchemyError "commit"), db, q)
            else
              let db1 := OrderService.insert_order db_order db in
              let order_items :=
                OrderService.make_items (order_id db_order)
                  (OrderService.next_id (map item_id (order_items db1)))
                  order_items_data in
              if commit_raises 1%nat
              then (Raised (SQLAlchemyError "commit"), db1, q)
              else
                (Ok db_order, OrderService.insert_items order_items db1,
                 delay calculate_estimated_delivery_time_name
                       [AInt (order_id db_order)] q)
      end
  end.

(** [require_role(UserRole.DELIVERY_PARTNER)], the dependency of the
    delivery routes. *)
Definition get_delivery_partner (current_user : User) : Result User :=
  if bool_decide (role current_user = DELIVERY_PARTNER) then Ok current_user
  else Raised (AuthorizationException
                 "Access denied. Required roles: ['delivery_partner']").

(** [accept_delivery(order_id)] (PATCH /orders/delivery/{order_id}/accept);
    [db_now] is the store's clock at the commit. *)
Definition accept_delivery (db_now : Z) (db : DB) (current_user : User) (order_id : Z)
  : Result unit * DB :=
  match get_delivery_partner current_user with
  | Raised e => (Raised e, db)
  | Ok current_user =>
      match find (fun o => (Models.order_id o =? order_id)
                           && bool_decide (status o = READY_FOR_PICKUP)
                           && bool_decide (delivery_partner_id o = None))
                 (orders db) with
      | None => (Raised (NotFoundException "Available delivery order"), db)
      | Some order =>
          let order :=
            flush_order db_now order
              (set_delivery_partner_id (Some (user_id current_user)) order) in
          (Ok (), put_order order db)
      end
  end.

End OrdersApi.

(** ** app/service/payment_service.py and app/api/v1/payments.py: the
    payment intent *)

Module PaymentIntent.

(** What [stripe.PaymentIntent.create(amount, currency, metadata)]
    answers for an amount in cents, an order and a customer: the intent's
    [id] and [client_secret], or the exception it raises. *)
Definition Create : Type := Z -> Z -> Z -> Result (string * string).

(** The dict [create_payment_intent] returns. *)
Record IntentResult : Type := mkIntentResult {
  client_secret : string;
  payment_intent_id : string;
  res_payment_id : Z
}.

Definition insert_payment (p : Payment) (db : DB) : DB :=
  mkDB (orders db) (order_items db) (restaurants db) (menu_items db) (payments db ++ [p]).

(** The unique constraint on [stripe_payment_intent_id]: the commit of a
    payment whose reference is already stored fails. *)
Definition reference_taken (db : DB) (intent_id : string) : bool :=
  existsb (fun p => bool_decide (stripe_payment_intent_id p = Some intent_id)) (payments db).

(** [PaymentService.create_payment_intent]: every exception ends in
    [None]; what was not committed is not stored.  [now] is the store's
    [func.now()]. *)
Definition create_payment_intent (create : Create) (now : Z) (db : DB)
    (order_id : Z) (payment_method : PaymentMethod) : option IntentResult * DB :=
  match get_order db order_id with
  | None => (None, db)
  | Some order =>
      match PaymentService.py_int_of_float (total_amount order * 100)%float with
      | Raised _ => (None, db)
      | Ok amount_cents =>
          match create amount_cents order_id (customer_id order) with
          | Raised _ => (None, db)
          | Ok (intent_id, secret) =>
              let payment :=
                mkPayment (OrderService.next_id (map payment_id (payments db)))
                  (customer_id order) order_id (Some intent_id)
                  (total_amount order) "usd" payment_method PAY_PENDING
                  None 0.0 None now now in
              if reference_taken db intent_id then (None, db)
              else (Some (mkIntentResult secret intent_id (payment_id payment)),
                    insert_payment payment db)
          end
      end
  end.

Inductive IntentResponse : Type :=
| IntentCreated (client_secret payment_intent_id : string)
| IntentHTTP404       (* "Order not found" *)
| IntentHTTP400.      (* "Failed to create payment intent" *)

(** [create_payment_intent(payment_data)] (POST /payments/create-intent) *)
Definition create_intent_route (create : Create) (now : Z) (db : DB)
    (current_user_id order_id : Z) (payment_method : PaymentMethod)
  : IntentResponse * DB :=
  match find (fun o => (Models.order_id o =? order_id)
                       && (customer_id o =? current_user_id)) (orders db) with
  | None => (IntentHTTP404, db)
  | Some _ =>
      match create_payment_intent create now db order_id payment_method with
      | (None, db) => (IntentHTTP400, db)
      | (Some result, db) =>
          (IntentCreated (client_secret result) (payment_intent_id result), db)
      end
  end.

End PaymentIntent.

(** ** What a poll may do to a payment, and the jobs it may send *)

Module PollSpec.

(** The row [b] is the row [a], or [a] was selected by the poll at [now]
    (PENDING and created more than five minutes before) and [b] is [a]
    with another status and the [updated_at] the store gave its UPDATE. *)
Definition poll_update (now : Z) (a b : Payment) : Prop :=
  b = a \/
  (pay_status a = PAY_PENDING /\ pay_created_at a < now - 5 * 60 /\
   exists s t, s <> PAY_PENDING /\ b = set_pay_updated_at t (set_pay_status s a)).

(** A job that asks [update_order_status] for CONFIRMED or CANCELLED. *)
Definition poll_job (j : Job) : Prop :=
  task_name j = PaymentTask.update_order_status_name /\
  exists order_id, task_args j = [AInt order_id; AStr (status_value CONFIRMED)] \/
                   task_args j = [AInt order_id; AStr (status_value CANCELLED)].

(** The primary keys of the payments are pairwise distinct. *)
Definition payment_keys_unique (db : DB) : Prop := NoDup (map payment_id (payments db)).

End PollSpec.

(** ** The code base as a whole: every operation on the store and the broker *)

Module System.

(** The operations of the code base that write to the store or send a
    job, each with its arguments and with what the environment supplies
    to it (clocks, the provider, the outcome of the commits). *)
Inductive Call : Type :=
| ServiceCreateOrder
    (calculate_distance : float -> float -> float -> float -> Result float)
    (commit_raises : nat -> bool) (order_number : string) (now : Z)
    (customer_id restaurant_id : Z) (items : list OrderService.ItemReq)
    (delivery_address : string) (delivery_latitude delivery_longitude : option float)
    (delivery_instructions : option string)
| ServiceUpdateOrderStatus (now db_now order_id : Z) (new_status : OrderStatus)
    (updated_by_id : Z)
| ServiceAssignDeliveryPartner (db_now order_id delivery_partner_id : Z)
| ServiceCancelOrder (now db_now order_id user_id : Z)
| RouteCreateOrder
    (commit_raises : nat -> bool) (order_number : string) (now : Z)
    (current_user : OrdersApi.User) (restaurant_id : Z) (items : list OrderService.ItemReq)
    (delivery_address : string) (delivery_latitude delivery_longitude : option float)
    (delivery_instructions : option string)
| RouteUpdateOrder (db_now : Z) (current_user : OrdersApi.User) (order_id : Z)
    (order_update : OrdersApi.OrderUpdate)
| RouteAcceptDelivery (db_now : Z) (current_user : OrdersApi.User) (order_id : Z)
| RouteCreatePaymentIntent (create : PaymentIntent.Create) (now : Z)
    (current_user_id order_id : Z) (payment_method : PaymentMethod)
| RouteStripeWebhook (request : Webhook.Construct)
| TaskUpdateOrderStatus (now db_now order_id : Z) (new_status : string)
| TaskCalculateEstimatedDeliveryTime (now db_now order_id : Z)
| TaskAutoCancelUnpaidOrder (now utcnow : Z) (db_now : Z -> Z)
| TaskProcessPayment (stripe : Stripe) (db_now payment_id : Z)
| TaskCheckPendingPayments (stripe : Stripe) (now : Z) (db_now : Z -> Z)
| TaskProcessRefund (stripe : Stripe) (now db_now payment_id : Z)
    (refund_amount : option float).

(** The store and the broker after a call.  The methods of
    [OrderService] and the route [accept_delivery] have no access to the
    broker. *)
Definition exec (call : Call) (st : DB * Queue) : DB * Queue :=
  let '(db, q) := st in
  match call with
  | ServiceCreateOrder distance commit_raises number now customer rid items address
      lat lon instructions =>
      (snd (OrderService.create_order distance commit_raises number now db customer rid
              items address lat lon instructions), q)
  | ServiceUpdateOrderStatus now db_now id new_status by_id =>
      (snd (OrderService.update_order_status db now db_now id new_status by_id), q)
  | ServiceAssignDeliveryPartner db_now id partner =>
      (snd (OrderService.assign_delivery_partner db db_now id partner), q)
  | ServiceCancelOrder now db_now id user =>
      (snd (OrderService.cancel_order db now db_now id user), q)
  | RouteCreateOrder commit_raises number now user rid items address lat lon instructions =>
      let '(_, db', q') :=
        OrdersApi.create_order commit_raises number now db q user rid items address
          lat lon instructions in (db', q')
  | RouteUpdateOrder db_now user id order_update =>
      let '(_, db', q') := OrdersApi.update_order db_now db q user id order_update in
      (db', q')
  | RouteAcceptDelivery db_now user id =>
      (snd (OrdersApi.accept_delivery db_now db user id), q)
  | RouteCreatePaymentIntent create now user id payment_method =>
      (snd (PaymentIntent.create_intent_route create now db user id payment_method), q)
  | RouteStripeWebhook request => (db, snd (Webhook.stripe_webhook request q))
  | TaskUpdateOrderStatus now db_now id new_status =>
      let '(_, db', q') := OrderTask.update_order_status now db_now db q id new_status in
      (db', q')
  | TaskCalculateEstimatedDeliveryTime now db_now id =>
      let '(_, db', q') := EtaTask.calculate_estimated_delivery_time now db_now db q id in
      (db', q')
  | TaskAutoCancelUnpaidOrder now utcnow db_now =>
      let '(_, db', q') := OrderTask.auto_cancel_unpaid_order now utcnow db_now db q in
      (db', q')
  | TaskProcessPayment stripe db_now id =>
      let '(_, db', q') := PaymentTask.process_payment stripe db_now db q id in (db', q')
  | TaskCheckPendingPayments stripe now db_now =>
      let '(_, db', q') := PaymentTask.check_pending_payments stripe now db_now db q in
      (db', q')
  | TaskProcessRefund stripe now db_now id refund_amount =>
      let '(_, db', q') := PaymentTask.process_refund stripe now db_now db q id refund_amount in
      (db', q')
  end.

(** The call is a successful status transition: some stored order has
    another status after it. *)
Definition changes_status (call : Call) (st : DB * Queue) : Prop :=
  exists id o o',
    get_order (fst st) id = Some o /\
    get_order (fst (exec call st)) id = Some o' /\
    status o' <> status o.

(** No stored order has another status in [db'] than it has in [db]. *)
Definition statuses_kept (db db' : DB) : Prop :=
  forall id o o',
    get_order db id = Some o -> get_order db' id = Some o' -> status o' = status o.

End System.

(** ** What the sweep stores *)

Module SweepSpec.

(** The row the sweep stores for an order it is given. *)
Definition swept (now : Z) (db_now : Z -> Z) (o : Order) : Order :=
  flush_order (db_now (order_id o)) o (set_cancelled_at now (set_status CANCELLED o)).

End SweepSpec.

(** ** Invariants of the connection manager *)

Module ManagerSpec.

(** Every role list is empty. *)
Definition roles_empty (m : WebsocketManager.ConnectionManager) : Prop :=
  forall (role : string) (l : list nat),
    WebsocketManager.role_connection m !! role = Some l -> l = [].

End ManagerSpec.

(** * Properties *)

(** ** The order state machine: [OrderService.update_order_status] *)

Section OrderTransitions.

Import OrderService Spec Samples.

Lemma find_order_id (l : list Order) (id : Z) (o : Order) :
  find (fun x => order_id x =? id) l = Some o -> order_id o = id.
Proof.
  induction l as [|x l IH]; simpl; [discriminate|].
  destruct (order_id x =? id) eqn:E.
  - intros [= <-]. lia.
  - exact IH.
Qed.

Lemma get_order_id (db : DB) (id : Z) (o : Order) :
  get_order db id = Some o -> order_id o = id.
Proof. apply find_order_id. Qed.

(** Reading back the row that was just written. *)
Lemma get_order_put_order (db : DB) (o0 o : Order) :
  get_order db (order_id o) = Some o0 ->
  get_order (put_order o db) (order_id o) = Some o.
Proof.
  unfold get_order, put_order; simpl.
  induction (orders db) as [|x l IH]; simpl; [discriminate|].
  destruct (order_id x =? order_id o) eqn:E.
  - intros _. rewrite Z.eqb_refl. reflexivity.
  - rewrite E. exact IH.
Qed.

(** The other rows are untouched. *)
Lemma get_order_put_order_ne (db : DB) (o : Order) (id : Z) :
  id <> order_id o ->
  get_order (put_order o db) id = get_order db id.
Proof.
  intros Hne. unfold get_order, put_order; simpl.
  induction (orders db) as [|x l IH]; simpl; [reflexivity|].
  destruct (order_id x =? order_id o) eqn:E.
  - apply Z.eqb_eq in E.
    destruct (order_id o =? id) eqn:E1; [apply Z.eqb_eq in E1; congruence|].
    destruct (order_id x =? id) eqn:E2; [apply Z.eqb_eq in E2; congruence|].
    exact IH.
  - destruct (order_id x =? id); [reflexivity|exact IH].
Qed.

(** The row after a commit has the assigned columns of the object. *)
Lemma flush_order_assigned (db_now : Z) (loaded o : Order) :
  order_assigned_columns (flush_order db_now loaded o) = order_assigned_columns o.
Proof.
  unfold flush_order. destruct (decide _) as [E|_]; [symmetry; exact E|reflexivity].
Qed.

Lemma flush_order_status (db_now : Z) (loaded o : Order) :
  status (flush_order db_now loaded o) = status o.
Proof.
  pose proof (flush_order_assigned db_now loaded o) as H.
  unfold order_assigned_columns in H. congruence.
Qed.

(** An UPDATE is emitted, and [updated_at] rewritten, as soon as one
    assigned column has changed. *)
Lemma flush_order_changed (db_now : Z) (loaded o : Order) :
  order_assigned_columns o <> order_assigned_columns loaded ->
  flush_order db_now loaded o = set_updated_at db_now o.
Proof. intros H. unfold flush_order. by rewrite decide_False. Qed.

Lemma flush_order_id (db_now : Z) (loaded o : Order) :
  order_id o = order_id loaded -> order_id (flush_order db_now loaded o) = order_id loaded.
Proof. intros H. unfold flush_order. destruct (decide _); [reflexivity|exact H]. Qed.

(** The table of the code is the graph of the specification on the five
    statuses it has a key for. *)
Lemma valid_transitions_legal (source target : OrderStatus) :
  legal_transition source target = true <->
  exists allowed, valid_transitions source = Some allowed /\
                  status_in target allowed = true.
Proof.
  split.
  - destruct source, target; simpl; try discriminate; intros _;
      eexists; (split; [reflexivity|]); reflexivity.
  - intros (allowed & Hv & Hin).
    destruct source; simpl in Hv; try discriminate;
      injection Hv as <-; destruct target; simpl in Hin |- *;
      first [reflexivity | discriminate Hin].
Qed.

(** A status without a key in the table is a terminal one. *)
Lemma valid_transitions_none (source : OrderStatus) :
  valid_transitions source = None <-> terminal source = true.
Proof. destruct source; simpl; split; congruence. Qed.

(** No edge of the graph is a loop. *)
Lemma legal_transition_moves (source target : OrderStatus) :
  legal_transition source target = true -> target <> source.
Proof. destruct source, target; simpl; congruence. Qed.

(** From a status that has a key in the table, a target outside the
    graph is refused with [ValidationException] and nothing is written. *)
Lemma update_order_status_rejects (db : DB) (now db_now id by_id : Z)
    (target : OrderStatus) (o : Order) :
  get_order db id = Some o ->
  terminal (status o) = false ->
  legal_transition (status o) target = false ->
  update_order_status db now db_now id target by_id =
    (Raised (ValidationException
               (CannotTransition (status_value (status o)) (status_value target))), db).
Proof.
  intros Hget Hterm Hleg. unfold update_order_status. rewrite Hget.
  destruct (valid_transitions (status o)) as [allowed|] eqn:Hv.
  - destruct (status_in target allowed) eqn:Hin; simpl; [|reflexivity].
    assert (legal_transition (status o) target = true) as Habs
      by (apply valid_transitions_legal; eauto).
    congruence.
  - apply valid_transitions_none in Hv. congruence.
Qed.

(** From a terminal status the table has no key: the check is skipped
    and every target is written. *)
Lemma update_order_status_terminal (db : DB) (now db_now id by_id : Z)
    (target : OrderStatus) (o : Order) :
  get_order db id = Some o ->
  terminal (status o) = true ->
  exists o', update_order_status db now db_now id target by_id = (Ok o', put_order o' db)
             /\ status o' = target.
Proof.
  intros Hget Hterm. unfold update_order_status. rewrite Hget.
  apply valid_transitions_none in Hterm. rewrite Hterm.
  eexists; split; [reflexivity|]. rewrite flush_order_status. destruct target; reflexivity.
Qed.

(** The sibling [cancel_order] does refuse an order in a terminal
    status, and writes nothing. *)
Lemma cancel_order_refuses_terminal (db : DB) (now db_now id user : Z) (o : Order) :
  get_order db id = Some o ->
  customer_id o = user ->
  terminal (status o) = true ->
  cancel_order db now db_now id user =
    (Raised (ValidationException OrderCannotBeCancelled), db).
Proof.
  intros Hget Hu Hterm. unfold cancel_order. rewrite Hget, Hu, Z.eqb_refl. simpl.
  destruct (status o); try discriminate; reflexivity.
Qed.

(** C1, at the failing input.  A DELIVERED order is moved back to
    PENDING: (DELIVERED, PENDING) is not an edge of the graph, yet
    [update_order_status] returns the order with status PENDING and
    writes it to the store (with the [updated_at] of the UPDATE). *)
Theorem update_order_status_delivered_to_pending :
  legal_transition DELIVERED PENDING = false /\
  update_order_status (store_of (order_in 1 DELIVERED)) 100 101 1 PENDING 99 =
    (Ok (set_updated_at 101 (order_in 1 PENDING)),
     store_of (set_updated_at 101 (order_in 1 PENDING))).
Proof. split; reflexivity. Qed.

(** C2, as stated, fails: the claim has every legal transition add 1 to
    the order's version counter.  The [Order] row has no such column,
    and no function of the row can play its part: PENDING to CANCELLED
    and CONFIRMED to CANCELLED lead to the same row, while PENDING to
    CONFIRMED separates their sources by one step. *)
Lemma update_order_status_no_version_counter :
  ~ exists version : Order -> Z,
      forall (db : DB) (now db_now id by_id : Z) (target : OrderStatus)
             (o o' : Order) (db' : DB),
        get_order db id = Some o ->
        legal_transition (status o) target = true ->
        update_order_status db now db_now id target by_id = (Ok o', db') ->
        version o' = version o + 1.
Proof.
  intros [version H].
  set (pending := order_in 1 PENDING).
  set (confirmed := set_updated_at 100 (set_status CONFIRMED pending)).
  set (cancelled := set_updated_at 200 (set_cancelled_at 200 (set_status CANCELLED pending))).
  pose proof (H (store_of pending) 100 100 1 99 CONFIRMED pending confirmed
                (store_of confirmed) eq_refl eq_refl eq_refl) as H1.
  pose proof (H (store_of pending) 200 200 1 99 CANCELLED pending cancelled
                (store_of cancelled) eq_refl eq_refl eq_refl) as H2.
  pose proof (H (store_of confirmed) 200 200 1 99 CANCELLED confirmed cancelled
                (store_of cancelled) eq_refl eq_refl eq_refl) as H3.
  lia.
Qed.

(** C2, amended.  For every stored order and every edge of the graph,
    [update_order_status] succeeds, writes the target status, stamps
    exactly the matching timestamp with the current instant, has
    [updated_at] set by the store with the UPDATE, and leaves the other
    columns as they were; the row is written to the store
    unconditionally (reading it back gives the new row, the other rows
    are untouched).  There is no version counter. *)
Theorem update_order_status_legal (db : DB) (now db_now id by_id : Z)
    (target : OrderStatus) (o : Order) :
  get_order db id = Some o ->
  legal_transition (status o) target = true ->
  exists o',
    update_order_status db now db_now id target by_id = (Ok o', put_order o' db) /\
    status o' = target /\
    stamped target now o o' /\
    updated_at o' = db_now /\
    same_other_columns o o' /\
    get_order (put_order o' db) id = Some o' /\
    (forall id', id' <> id -> get_order (put_order o' db) id' = get_order db id').
Proof.
  intros Hget Hleg.
  pose proof (get_order_id _ _ _ Hget) as Hid.
  pose proof (legal_transition_moves _ _ Hleg) as Hmove.
  apply valid_transitions_legal in Hleg as (allowed & Hv & Hin).
  set (o' := set_updated_at db_now (stamp target now (set_status target o))).
  assert (flush_order db_now o (stamp target now (set_status target o)) = o') as Hflush.
  { apply flush_order_changed. unfold order_assigned_columns.
    intros [= _ Hst _ _ _ _]. apply Hmove. rewrite <- Hst. destruct target; reflexivity. }
  exists o'.
  assert (order_id o' = id) as Hid' by (destruct target; exact Hid).
  split; [|split; [|split; [|split; [|split; [|split]]]]].
  - unfold update_order_status. rewrite Hget, Hv, Hin. simpl. rewrite Hflush. reflexivity.
  - destruct target; reflexivity.
  - destruct target; repeat split.
  - destruct target; reflexivity.
  - destruct target; repeat split.
  - rewrite <- Hid'. eapply get_order_put_order. rewrite Hid'. exact Hget.
  - intros id' Hne. apply get_order_put_order_ne. congruence.
Qed.

Lemma update_order_status_legal_witness :
  exists o',
    update_order_status (store_of (order_in 1 CONFIRMED)) 100 101 1 PREPARING 20 =
      (Ok o', put_order o' (store_of (order_in 1 CONFIRMED))) /\
    status o' = PREPARING /\
    stamped PREPARING 100 (order_in 1 CONFIRMED) o' /\
    updated_at o' = 101 /\
    same_other_columns (order_in 1 CONFIRMED) o' /\
    get_order (put_order o' (store_of (order_in 1 CONFIRMED))) 1 = Some o' /\
    (forall id', id' <> 1 ->
       get_order (put_order o' (store_of (order_in 1 CONFIRMED))) id' =
       get_order (store_of (order_in 1 CONFIRMED)) id').
Proof.
  apply (update_order_status_legal (store_of (order_in 1 CONFIRMED)) 100 101 1 20
           PREPARING (order_in 1 CONFIRMED)); reflexivity.
Defined.

End OrderTransitions.

(** ** Payment reconciliation: webhook and poll *)

Section PaymentSignals.

Import PaymentService PaymentTask Webhook Reconcile Samples.

(** The row after a commit has the assigned columns of the object. *)
Lemma flush_payment_assigned (db_now : Z) (loaded p : Payment) :
  payment_assigned_columns (flush_payment db_now loaded p) = payment_assigned_columns p.
Proof.
  unfold flush_payment. destruct (decide _) as [E|_]; [symmetry; exact E|reflexivity].
Qed.

Lemma flush_payment_status (db_now : Z) (loaded p : Payment) :
  pay_status (flush_payment db_now loaded p) = pay_status p.
Proof.
  pose proof (flush_payment_assigned db_now loaded p) as H.
  unfold payment_assigned_columns in H. congruence.
Qed.

Lemma flush_payment_id (db_now : Z) (loaded p : Payment) :
  payment_id p = payment_id loaded ->
  payment_id (flush_payment db_now loaded p) = payment_id loaded.
Proof. intros H. unfold flush_payment. destruct (decide _); [reflexivity|exact H]. Qed.

(** [process_payment] sends no job, whatever happens: its two
    [send_task] calls pass no task name. *)
Lemma process_payment_sends_nothing (stripe : Stripe) (db_now : Z) (db : DB) (q : Queue)
    (id : Z) :
  snd (process_payment stripe db_now db q id) = q.
Proof.
  unfold process_payment.
  destruct (get_payment db id) as [p|]; [|reflexivity].
  destruct (process_stripe_payment stripe db_now db p) as [[[success|e] p'] db'];
    [|reflexivity].
  destruct success; [|reflexivity].
  destruct (get_order db' (pay_order_id p')); reflexivity.
Qed.

(** [process_stripe_payment] does not look at the current status: when
    the provider reports "succeeded" the payment becomes COMPLETED from
    any status, a REFUNDED one included. *)
Lemma process_stripe_payment_any_status (stripe : Stripe) (db_now : Z) (db : DB)
    (p : Payment) (intent_id : string) :
  stripe_payment_intent_id p = Some intent_id ->
  intent_id <> "" ->
  retrieve stripe intent_id = Ok "succeeded" ->
  process_stripe_payment stripe db_now db p =
    (Ok true, flush_payment db_now p (set_pay_status PAY_COMPLETED p),
     put_payment (flush_payment db_now p (set_pay_status PAY_COMPLETED p)) db) /\
  pay_status (flush_payment db_now p (set_pay_status PAY_COMPLETED p)) = PAY_COMPLETED.
Proof.
  intros Hi Hne Hr. unfold process_stripe_payment. rewrite Hi.
  destruct (String.eqb_spec intent_id ""); [contradiction|].
  rewrite Hr. split; [reflexivity|]. apply flush_payment_status.
Qed.

(** The two paths do not map the provider's statuses alike: on
    "payment_failed" the poll's mapping says FAILED, the webhook's path
    leaves the payment as it is. *)
Lemma status_mappings_differ :
  let stripe := mkStripe (fun _ => Ok "payment_failed") (fun _ _ => Ok "succeeded") in
  let p := payment_in 1 1 PAY_PENDING in
  check_stripe_payment_status stripe "pi_1" = Ok PAY_FAILED /\
  process_stripe_payment stripe 100 (store_with (order_in 1 PENDING) p) p =
    (Ok false, p, store_with (order_in 1 PENDING) p).
Proof. split; reflexivity. Qed.

(** The poll alone does converge: a PENDING payment older than the grace
    window whose intent succeeded becomes COMPLETED with one CONFIRMED job,
    and a second poll changes nothing. *)
Lemma poll_then_poll :
  let st0 := (store_with (order_in 1 PENDING) (payment_in 1 1 PAY_PENDING), []) in
  let st1 := poll_signal stripe_succeeded 1000 1001 st0 in
  map pay_status (payments (fst st1)) = [PAY_COMPLETED] /\
  length (confirmed_jobs (snd st1)) = 1%nat /\
  poll_signal stripe_succeeded 1060 1061 st1 = st1.
Proof. repeat split; reflexivity. Qed.

(** C3, at the failing input.  Payment 1 of order 1 is PENDING and the
    provider reports "succeeded".  The webhook signal comes first (the
    store's clock at 900), the poll later (at 1000): the payment is
    COMPLETED, and no job asking for the CONFIRMED transition was sent at
    all (the claim has exactly one).  In the other order the poll sends
    the one job and the webhook path assigns COMPLETED to a payment that
    is COMPLETED. *)
Theorem webhook_then_poll_sends_no_confirmed_job :
  let st0 := (store_with (order_in 1 PENDING) (payment_in 1 1 PAY_PENDING), []) in
  let st_wp := poll_signal stripe_succeeded 1000 1001
                 (webhook_signal stripe_succeeded 900 succeeded_event st0) in
  let st_pw := webhook_signal stripe_succeeded 1100 succeeded_event
                 (poll_signal stripe_succeeded 1000 1001 st0) in
  map pay_status (payments (fst st_wp)) = [PAY_COMPLETED] /\
  confirmed_jobs (snd st_wp) = [] /\
  map pay_status (payments (fst st_pw)) = [PAY_COMPLETED] /\
  length (confirmed_jobs (snd st_pw)) = 1%nat.
Proof. repeat split; reflexivity. Qed.

(** The webhook hands the ORDER id to [process_payment], which looks up
    a PAYMENT by it: when the payment of order 1 has id 7, the webhook
    signal does not reach it. *)
Lemma webhook_signal_misses_payment :
  let st0 := (store_with (order_in 1 PENDING) (payment_in 7 1 PAY_PENDING), []) in
  webhook_signal stripe_succeeded 900 succeeded_event st0 = st0.
Proof. reflexivity. Qed.

(** C4, as stated, fails: the same verified event delivered twice is
    acknowledged twice and sends [process_payment] twice; the second
    delivery changes the broker. *)
Lemma stripe_webhook_redelivery_sends_again :
  let first := stripe_webhook (Verified succeeded_event) [] in
  let second := stripe_webhook (Verified succeeded_event) (snd first) in
  fst first = Success /\ fst second = Success /\
  snd first = [mkJob process_payment_name [AInt 1]] /\
  snd second = [mkJob process_payment_name [AInt 1]; mkJob process_payment_name [AInt 1]] /\
  snd second <> snd first.
Proof. repeat split; try reflexivity. discriminate. Qed.

(** C4, amended.  The handler keeps no record of event ids.  A verified
    event whose [order_id] is absent or an integer is always acknowledged;
    each delivery appends to the broker the jobs of the event (one
    [process_payment] for a [payment_intent.succeeded] event with an order
    id, none otherwise), so a second delivery of the same event is
    acknowledged and sends the same jobs again; the event id has no
    influence; a request that fails verification is answered 400 and
    changes nothing. *)
Theorem stripe_webhook_acknowledges (event : Event) (q : Queue) :
  (forall s, meta_order_id event <> BadOrderId s) ->
  stripe_webhook (Verified event) q = (Success, q ++ jobs_of_event event) /\
  stripe_webhook (Verified event) (q ++ jobs_of_event event) =
    (Success, q ++ jobs_of_event event ++ jobs_of_event event) /\
  (forall id', stripe_webhook
                 (Verified (mkEvent id' (event_type event) (meta_order_id event))) q =
               stripe_webhook (Verified event) q) /\
  stripe_webhook InvalidPayload q = (HTTP400 "Invalid payload", q) /\
  stripe_webhook InvalidSignature q = (HTTP400 "Invalid signature", q).
Proof.
  intros Hgood.
  assert (forall q0, stripe_webhook (Verified event) q0 = (Success, q0 ++ jobs_of_event event))
    as Hone.
  { intros q0. unfold stripe_webhook, jobs_of_event, delay.
    destruct (String.eqb (event_type event) "payment_intent.succeeded").
    - destruct (meta_order_id event) as [|z|s] eqn:Hm.
      + rewrite app_nil_r. reflexivity.
      + reflexivity.
      + exfalso. exact (Hgood s eq_refl).
    - rewrite app_nil_r.
      destruct (String.eqb (event_type event) "payment_intent.payment_failed");
        reflexivity. }
  split; [apply Hone|].
  split; [rewrite Hone, <- app_assoc; reflexivity|].
  split; [reflexivity|].
  split; reflexivity.
Qed.

Lemma stripe_webhook_acknowledges_witness :
  stripe_webhook (Verified succeeded_event) [] =
    (Success, [] ++ jobs_of_event succeeded_event) /\
  stripe_webhook (Verified succeeded_event) ([] ++ jobs_of_event succeeded_event) =
    (Success, [] ++ jobs_of_event succeeded_event ++ jobs_of_event succeeded_event) /\
  (forall id', stripe_webhook
                 (Verified (mkEvent id' (event_type succeeded_event)
                                    (meta_order_id succeeded_event))) [] =
               stripe_webhook (Verified succeeded_event) []) /\
  stripe_webhook InvalidPayload [] = (HTTP400 "Invalid payload", []) /\
  stripe_webhook InvalidSignature [] = (HTTP400 "Invalid signature", []).
Proof.
  apply (stripe_webhook_acknowledges succeeded_event []).
  intros s. discriminate.
Defined.

(** A verified [payment_intent.succeeded] event whose [order_id] is not
    an integer is not acknowledged: [int(order_id)] raises. *)
Lemma stripe_webhook_bad_order_id (q : Queue) (id s : string) :
  stripe_webhook (Verified (mkEvent id "payment_intent.succeeded" (BadOrderId s))) q =
    (HTTP500 (ValueError s), q).
Proof. reflexivity. Qed.

End PaymentSignals.

(** ** Refunds: [PaymentService.process_refund] *)

Section Refunds.

Import PaymentService Samples.

(** The outcome of [process_refund] does not depend on the payment's
    status: the status is never read. *)
Lemma process_refund_status_blind (stripe : Stripe) (now db_now : Z) (db : DB)
    (p : Payment) (ra : option float) (s : PaymentStatus) :
  fst (fst (process_refund stripe now db_now db (set_pay_status s p) ra)) =
  fst (fst (process_refund stripe now db_now db p ra)).
Proof.
  unfold process_refund, amount_to_refund; simpl.
  destruct (stripe_payment_intent_id p) as [i|]; [|reflexivity].
  destruct (String.eqb i ""); [reflexivity|].
  destruct (py_int_of_float _) as [c|e]; [|reflexivity].
  destruct (refund_create stripe i c) as [st|[]]; try reflexivity.
  destruct (String.eqb st "succeeded"); reflexivity.
Qed.

(** [process_refund] never returns True and never writes to the store,
    whatever the payment, the amount and the provider's answer: the only
    path to its commit goes through [datetime.utcnow()], which raises. *)
Lemma process_refund_never_succeeds (stripe : Stripe) (now db_now : Z) (db : DB)
    (p : Payment) (ra : option float) :
  fst (fst (process_refund stripe now db_now db p ra)) <> Ok true /\
  snd (process_refund stripe now db_now db p ra) = db.
Proof.
  unfold process_refund.
  destruct (stripe_payment_intent_id p) as [i|]; [|by split].
  destruct (String.eqb i ""); [by split|].
  destruct (py_int_of_float _) as [c|e]; [|by split].
  destruct (refund_create stripe i c) as [st|[]]; try by split.
  destruct (String.eqb st "succeeded"); by split.
Qed.

(** What [process_refund] does, by the provider's answer.  When the
    provider reports the refund as succeeded the call raises
    [AttributeError] after the two assignments on the object, before
    [refunded_at] is assigned and before the commit: the store is as
    before.  When the payment has no provider reference, or the provider
    raises an error or reports another refund status, the call returns
    False and nothing has changed. *)
Lemma process_refund_by_provider_answer (stripe : Stripe) (now db_now : Z) (db : DB)
    (p : Payment) (ra : option float) (succeeded : bool) :
  RefundSpec.RefundAnswer stripe p ra succeeded ->
  process_refund stripe now db_now db p ra =
    if succeeded
    then (Raised (AttributeError "module 'datetime' has no attribute 'utcnow'"),
          set_refund_amount (amount_to_refund p ra) (set_pay_status PAY_REFUNDED p), db)
    else (Ok false, p, db).
Proof.
  intros H. unfold process_refund.
  destruct H as [i c Hi Hne Hc Hr | i c st Hi Hne Hc Hr Hst | i c e Hi Hne Hc Hr | Hn].
  - rewrite Hi. destruct (String.eqb_spec i ""); [contradiction|].
    rewrite Hc, Hr. reflexivity.
  - rewrite Hi. destruct (String.eqb_spec i ""); [contradiction|].
    rewrite Hc, Hr. destruct (String.eqb_spec st "succeeded"); [contradiction|].
    reflexivity.
  - rewrite Hi. destruct (String.eqb_spec i ""); [contradiction|].
    rewrite Hc, Hr. reflexivity.
  - unfold str_truthy in Hn.
    destruct (stripe_payment_intent_id p) as [i|]; [|reflexivity].
    destruct (String.eqb i ""); [reflexivity|discriminate].
Qed.

(** C5, at the failing input.  Payment 1 is COMPLETED, has the provider
    reference "pi_1" and the amount 29.99; a full refund is asked for and
    the provider reports the refund of 2999 cents as succeeded.  The claim
    has the payment REFUNDED with [refunded_at] set.  [process_refund]
    raises [AttributeError] instead; the store still holds the payment as
    COMPLETED, with no [refunded_at] and a [refund_amount] of 0; and the
    task around it returns False and sends neither the REFUNDED
    transition of the order nor the customer's notification.  This is so
    for every call: [process_refund] never returns True and never writes
    to the store. *)
Theorem process_refund_records_no_refund :
  let p := payment_in 1 1 PAY_COMPLETED in
  let db := store_with (order_in 1 DELIVERED) p in
  (get_payment db 1 = Some p /\
   RefundSpec.RefundAnswer stripe_succeeded p None true /\
   refund_create stripe_succeeded "pi_1" 2999 = Ok "succeeded") /\
  (process_refund stripe_succeeded 50 51 db p None =
     (Raised (AttributeError "module 'datetime' has no attribute 'utcnow'"),
      set_refund_amount 29.99 (set_pay_status PAY_REFUNDED p), db) /\
   map pay_status (payments db) = [PAY_COMPLETED] /\
   map refunded_at (payments db) = [None] /\
   PaymentTask.process_refund stripe_succeeded 50 51 db [] 1 None = (false, db, [])) /\
  (forall (stripe : Stripe) (now db_now : Z) (db : DB) (p : Payment) (ra : option float),
     fst (fst (process_refund stripe now db_now db p ra)) <> Ok true /\
     snd (process_refund stripe now db_now db p ra) = db).
Proof.
  split; [|split].
  - split; [reflexivity|]. split; [|reflexivity].
    apply (RefundSpec.AnswerSucceeded stripe_succeeded _ None "pi_1" 2999);
      [reflexivity | discriminate | reflexivity | reflexivity].
  - repeat split; reflexivity.
  - apply process_refund_never_succeeds.
Qed.

(** The task around it never reports a refund: where the provider
    reports success, [datetime.utcnow()] raises before the commit, the
    handler returns False, the session is closed without a commit and no
    job is sent. *)
Lemma process_refund_task_never_completes (stripe : Stripe) (now db_now : Z) (db : DB)
    (q : Queue) (id : Z) (ra : option float) :
  PaymentTask.process_refund stripe now db_now db q id ra = (false, db, q).
Proof.
  unfold PaymentTask.process_refund, process_refund.
  destruct (get_payment db id) as [p|]; [|reflexivity].
  destruct (stripe_payment_intent_id p) as [i|]; [|reflexivity].
  destruct (String.eqb i ""); [reflexivity|].
  destruct (py_int_of_float _) as [c|e]; [|reflexivity].
  destruct (refund_create stripe i c) as [st|[]]; try reflexivity.
  destruct (String.eqb st "succeeded"); reflexivity.
Qed.

(** The same call on a provider that refuses, and on a payment that is
    still PENDING with a provider that accepts: the store is unchanged
    either way. *)
Lemma process_refund_refused :
  let refusing := mkStripe (fun _ => Ok "succeeded") (fun _ _ => Ok "failed") in
  let p := payment_in 1 1 PAY_COMPLETED in
  let pending := payment_in 1 1 PAY_PENDING in
  process_refund refusing 50 51 (store_with (order_in 1 DELIVERED) p) p None =
    (Ok false, p, store_with (order_in 1 DELIVERED) p) /\
  snd (process_refund stripe_succeeded 50 51 (store_with (order_in 1 PENDING) pending)
         pending None) = store_with (order_in 1 PENDING) pending.
Proof. split; reflexivity. Qed.

End Refunds.

(** ** The order tasks: [app/task/order_task.py] *)

Section OrderTasks.

Import OrderTask Samples.

(** The filter of the sweep compares the status column with the enum
    class: it selects no order, whatever the store and the instant. *)
Lemma unpaid_orders_empty (db : DB) (now : Z) : unpaid_orders db now = [].
Proof.
  unfold unpaid_orders.
  induction (orders db) as [|o l IH]; [reflexivity|].
  rewrite filter_cons_False; [exact IH|]. simpl. intros [].
Qed.

(** The sweep cancels nothing, notifies nobody and returns 0. *)
Lemma auto_cancel_unpaid_order_noop (now utcnow : Z) (db_now : Z -> Z) (db : DB)
    (q : Queue) :
  auto_cancel_unpaid_order now utcnow db_now db q = (0, db, q).
Proof. unfold auto_cancel_unpaid_order. rewrite unpaid_orders_empty. reflexivity. Qed.

(** The age test of the sweep holds for an order created this instant:
    the cutoff is 15 minutes ahead of the clock, not behind it. *)
Lemma cutoff_time_selects_new_orders (now : Z) : (now <? cutoff_time now) = true.
Proof. unfold cutoff_time. apply Z.ltb_lt. lia. Qed.

(** What the body of the loop does to an order it is given: a PENDING
    order is set to CANCELLED with [cancelled_at] stamped, and one
    notification is sent to the order's customer. *)
Lemma cancel_loop_one :
  let o := order_in 1 PENDING in
  cancel_loop 1200 1200 (fun _ => 1201) [o] (store_of o) 0 [] =
    (Ok (store_of (set_updated_at 1201 (set_cancelled_at 1200 (set_status CANCELLED o))), 1),
     [mkJob send_websocket_notification_name
        [AInt 10;
         ADict [("type", JStr "order_cancelled"); ("order_id", JInt 1);
                ("reason", JStr "Payment timeout"); ("timestamp", JTime 1200)]]]).
Proof. reflexivity. Qed.

(** C6, at the failing input.  Order 1 is PENDING and was created 20
    minutes before the sweep runs: the sweep leaves it PENDING, sends no
    notification and returns 0. *)
Theorem auto_cancel_unpaid_order_leaves_pending :
  status (order_in 1 PENDING) = PENDING /\
  created_at (order_in 1 PENDING) + 15 * 60 < 1200 /\
  auto_cancel_unpaid_order 1200 1200 (fun _ => 1201) (store_of (order_in 1 PENDING)) [] =
    (0, store_of (order_in 1 PENDING), []).
Proof. repeat split. Qed.

(** The task [update_order_status] never completes: [OrderStatus[...]]
    fails on a value, and on a member name the first timestamp test
    raises.  The handler returns False, the session is rolled back and no
    job is sent. *)
Lemma update_order_status_task_fails (now db_now : Z) (db : DB) (q : Queue)
    (order_id : Z) (new_status : string) :
  update_order_status now db_now db q order_id new_status = (false, db, q).
Proof.
  unfold update_order_status.
  destruct (get_order db order_id); [|reflexivity].
  destruct (status_by_name new_status); reflexivity.
Qed.

(** The callers pass the VALUE of the status ([new_status.value]); no
    value is a member name. *)
Lemma status_by_name_of_value (s : OrderStatus) :
  status_by_name (status_value s) = Raised (KeyError (status_value s)).
Proof. destruct s; reflexivity. Qed.

(** The notification block behind the commit cannot send its message
    either: the dict holds the class attribute [Order.order_number], which
    the broker's serializer refuses, so the first [send_task] raises. *)
Lemma notify_raises (db : DB) (o : Order) (id : Z) (old_status : OrderStatus)
    (new_status : string) (now : Z) (q : Queue) :
  exists e, notify db o (notification_message id old_status new_status now) q = Raised e.
Proof.
  unfold notify. destruct (get_restaurant db (restaurant_id o)); eexists; reflexivity.
Qed.

(** The job the route sends for PENDING to CONFIRMED, and the same job
    with the member's name: the task returns False, the order stays
    PENDING and the broker stays empty. *)
Lemma update_order_status_task_sends_nothing :
  update_order_status 100 101 (store_of (order_in 1 PENDING)) [] 1 (status_value CONFIRMED) =
    (false, store_of (order_in 1 PENDING), []) /\
  update_order_status 100 101 (store_of (order_in 1 PENDING)) [] 1 (status_name CONFIRMED) =
    (false, store_of (order_in 1 PENDING), []).
Proof. split; reflexivity. Qed.

End OrderTasks.

(** ** The connection manager *)

Section Connections.

Import WebsocketManager.

Lemma remove_first_elem (x y : nat) (l : list nat) :
  x ∈ remove_first y l -> x ∈ l.
Proof.
  induction l as [|z l IH]; simpl; [done|].
  destruct (bool_decide (y = z)).
  - intros H. by apply list_elem_of_further.
  - intros [->|H]%elem_of_cons; [apply list_elem_of_here|].
    apply list_elem_of_further, IH, H.
Qed.

Lemma remove_all_elem (x : nat) (gone l : list nat) :
  x ∈ fold_left (fun acc ws => remove_first ws acc) gone l -> x ∈ l.
Proof.
  revert l. induction gone as [|g gone IH]; simpl; intros l H; [done|].
  apply IH in H. eapply remove_first_elem, H.
Qed.

Lemma delete_all_lookup (gone : list ((Z + string) * nat))
    (uc : gmap (Z + string) nat) (k : Z + string) (ws : nat) :
  fold_left (fun uc kv => delete (fst kv) uc) gone uc !! k = Some ws ->
  uc !! k = Some ws.
Proof.
  revert uc. induction gone as [|g gone IH]; simpl; intros uc H; [done|].
  apply IH in H. apply lookup_delete_Some in H. tauto.
Qed.

(** A call writes only to sockets the manager holds. *)
Lemma step_writes_registered (m : ConnectionManager) (op : Op) (ws : nat) :
  ws ∈ snd (step m op) ->
  (exists k, user_connection m !! k = Some ws) \/
  (exists role l, role_connection m !! role = Some l /\ ws ∈ l).
Proof.
  destruct op as [w u r | u r | raises msg u | raises msg r | raises msg]; simpl.
  - intros H. by apply elem_of_nil in H.
  - intros H. by apply elem_of_nil in H.
  - unfold send_personal_msg.
    destruct (user_connection m !! inl u) as [w|] eqn:E; simpl.
    + destruct (json_dumps_returns msg); simpl;
        [|intros H; by apply elem_of_nil in H].
      destruct (raises w); simpl; intros ->%list_elem_of_singleton; eauto.
    + intros H. by apply elem_of_nil in H.
  - unfold send_to_role.
    destruct (role_connection m !! r) as [l|] eqn:E; simpl.
    + destruct (json_dumps_returns msg); [|intros H; by apply elem_of_nil in H].
      intros H. right. eauto.
    + intros H. by apply elem_of_nil in H.
  - unfold broadcast; simpl.
    destruct (json_dumps_returns msg); [|intros H; by apply elem_of_nil in H].
    intros ([k w] & -> & H)%list_elem_of_fmap.
    apply elem_of_map_to_list in H. left. eauto.
Qed.

(** A call that does not register [ws] keeps it confined. *)
Lemma step_confined (allowed : Z + string -> Prop) (ws : nat)
    (m : ConnectionManager) (op : Op) :
  ~ connects ws op -> confined allowed ws m -> confined allowed ws (fst (step m op)).
Proof.
  intros Hop [Hu Hr].
  destruct op as [w u r | u r | raises msg u | raises msg r | raises msg]; simpl in *.
  - unfold connect.
    destruct (bool_decide _).
    + destruct (role_connection m !! r) as [l|] eqn:E; simpl; split; simpl.
      * intros k [[_ Hk]|[_ Hk]]%lookup_insert_Some; [congruence|eauto].
      * intros role l' [[<- <-]|[_ Hk]]%lookup_insert_Some; [|eauto].
        intros [H| ->%list_elem_of_singleton]%elem_of_app; [by eapply Hr|congruence].
      * intros k [[_ Hk]|[_ Hk]]%lookup_insert_Some; [congruence|eauto].
      * eauto.
    + split; simpl; [|eauto].
      intros k [[_ Hk]|[_ Hk]]%lookup_insert_Some; [congruence|eauto].
  - split; assumption.
  - unfold send_personal_msg.
    destruct (user_connection m !! inl u) as [w|] eqn:E; simpl; [|by split].
    assert (confined allowed ws
              (mkManager (delete (inl u) (user_connection m)) (role_connection m))) as Hdel.
    { split; simpl; [|eauto]. intros k [_ Hk]%lookup_delete_Some. eauto. }
    destruct (json_dumps_returns msg); simpl; [|exact Hdel].
    destruct (raises w); simpl; [exact Hdel|by split].
  - unfold send_to_role.
    destruct (role_connection m !! r) as [l|] eqn:E; simpl; [|by split].
    split; simpl; [eauto|].
    intros role l' [[<- <-]|[_ Hk]]%lookup_insert_Some; [|eauto].
    intros H%remove_all_elem. by eapply Hr.
  - unfold broadcast; simpl. split; simpl; [|eauto].
    intros k H%delete_all_lookup. eauto.
Qed.

Lemma run_confined (allowed : Z + string -> Prop) (ws : nat)
    (ops : list Op) (m : ConnectionManager) :
  never_connects ws ops -> confined allowed ws m -> confined allowed ws (fst (run m ops)).
Proof.
  revert m. induction ops as [|op ops IH]; simpl; intros m Hops Hc; [done|].
  apply Forall_cons in Hops as [Hop Hops].
  pose proof (step_confined allowed ws m op Hop Hc) as H1.
  destruct (step m op) as [m1 w1]; simpl in *.
  specialize (IH m1 Hops H1).
  destruct (run m1 ops) as [m2 w2]; simpl in *. exact IH.
Qed.

(** A socket the manager does not hold, and that is not registered again,
    is never written to. *)
Lemma run_never_writes (ws : nat) (ops : list Op) (m : ConnectionManager) :
  never_connects ws ops -> unregistered ws m -> ws ∉ snd (run m ops).
Proof.
  revert m. induction ops as [|op ops IH]; simpl; intros m Hops Hc.
  - apply not_elem_of_nil.
  - apply Forall_cons in Hops as [Hop Hops].
    pose proof (step_confined _ ws m op Hop Hc) as H1.
    pose proof (step_writes_registered m op ws) as Hw.
    destruct (step m op) as [m1 w1]; simpl in *.
    specialize (IH m1 Hops H1).
    destruct (run m1 ops) as [m2 w2]; simpl in *.
    intros [H|H]%elem_of_app; [|contradiction].
    destruct Hc as [Hu Hr].
    destruct (Hw H) as [(k & Hk)|(role & l & Hl & Hin)]; [by eapply Hu|by eapply Hr].
Qed.

(** The keys of [user_connection] stay user ids. *)
Lemma step_int_keyed (m : ConnectionManager) (op : Op) :
  int_keyed m -> int_keyed (fst (step m op)).
Proof.
  intros Hm s.
  destruct op as [w u r | u r | raises msg u | raises msg r | raises msg]; simpl.
  - unfold connect.
    destruct (bool_decide _); [destruct (role_connection m !! r)|]; simpl;
      rewrite lookup_insert_ne by discriminate; apply Hm.
  - apply Hm.
  - unfold send_personal_msg.
    destruct (user_connection m !! inl u) as [w|]; simpl; [|apply Hm].
    destruct (json_dumps_returns msg); [destruct (raises w)|]; simpl;
      try apply Hm; rewrite lookup_delete_ne by discriminate; apply Hm.
  - unfold send_to_role. destruct (role_connection m !! r); simpl; apply Hm.
  - unfold broadcast; simpl.
    destruct (fold_left _ _ _ !! inr s) as [w|] eqn:E; [|done].
    apply delete_all_lookup in E. rewrite Hm in E. discriminate.
Qed.

Lemma run_int_keyed (ops : list Op) (m : ConnectionManager) :
  int_keyed m -> int_keyed (fst (run m ops)).
Proof.
  revert m. induction ops as [|op ops IH]; simpl; intros m Hm; [done|].
  pose proof (step_int_keyed m op Hm) as H1.
  destruct (step m op) as [m1 w1]; simpl in *.
  specialize (IH m1 H1).
  destruct (run m1 ops) as [m2 w2]; simpl in *. exact IH.
Qed.

Lemma init_int_keyed : int_keyed init.
Proof. intros s. apply lookup_empty. Qed.

(** With user ids for keys, the role test of [connect] is never true:
    the call stores the socket under the user id and touches no role
    list. *)
Lemma connect_int_keyed (ws : nat) (u : Z) (r : string) (m : ConnectionManager) :
  int_keyed m ->
  connect ws u r m =
    (Ok (), mkManager (<[inl u := ws]> (user_connection m)) (role_connection m)).
Proof.
  intros Hm. unfold connect.
  rewrite bool_decide_eq_false_2; [reflexivity|].
  rewrite lookup_insert_ne by discriminate. rewrite Hm. by intros [? ?].
Qed.

(** C7.  In a manager reached from [__init__] by any calls, let a socket
    [old] that the manager does not hold yet be registered for user [u],
    and later a second socket [new] be registered for the same user.  Then
    the manager holds [new] for [u] (one handle per user id, the second
    replacing the first); [send_personal_msg] to [u] writes to [new] and
    to nothing else (to nothing at all when the message cannot be
    encoded); and in every later sequence of calls that does not register
    [old] again, no call writes to [old]. *)
Theorem connect_supersedes (history between later : list Op)
    (old new : nat) (u : Z) (r1 r2 : string) (raises : nat -> bool)
    (msg : list (string * Json)) :
  let m0 := fst (run init history) in
  let m1 := fst (run (snd (connect old u r1 m0)) between) in
  let m2 := snd (connect new u r2 m1) in
  unregistered old m0 ->
  old <> new ->
  never_connects old between ->
  never_connects old later ->
  user_connection m2 !! inl u = Some new /\
  snd (send_personal_msg raises msg u m2) = (if json_dumps_returns msg then [new] else []) /\
  old ∉ snd (run m2 later).
Proof.
  intros m0 m1 m2 Hfresh Hne Hbetween Hlater.
  assert (int_keyed m0) as Hk0 by (apply run_int_keyed, init_int_keyed).
  assert (confined (fun k => k = inl u) old (snd (connect old u r1 m0))) as Hc0.
  { rewrite (connect_int_keyed _ _ _ _ Hk0). destruct Hfresh as [Hu Hr].
    split; simpl; [|exact Hr].
    intros k [[<- _]|[_ Hk]]%lookup_insert_Some; [reflexivity|].
    destruct (Hu k Hk). }
  assert (int_keyed (snd (connect old u r1 m0))) as Hk0'
    by (apply (step_int_keyed m0 (Connect old u r1) Hk0)).
  assert (confined (fun k => k = inl u) old m1) as Hc1
    by (apply run_confined; assumption).
  assert (int_keyed m1) as Hk1 by (apply run_int_keyed; assumption).
  assert (m2 = mkManager (<[inl u := new]> (user_connection m1)) (role_connection m1))
    as Hm2 by (unfold m2; rewrite (connect_int_keyed _ _ _ _ Hk1); reflexivity).
  assert (user_connection m2 !! inl u = Some new) as Hnew
    by (rewrite Hm2; simpl; apply lookup_insert_eq).
  split; [exact Hnew|]. split.
  - unfold send_personal_msg. rewrite Hnew.
    destruct (json_dumps_returns msg); [destruct (raises new)|]; reflexivity.
  - apply run_never_writes; [exact Hlater|].
    destruct Hc1 as [Hu Hr]. rewrite Hm2. split; simpl; [|exact Hr].
    intros k [[_ Hk]|[Hk1' Hk]]%lookup_insert_Some; [congruence|].
    apply Hk1'. symmetry. apply Hu, Hk.
Qed.

End Connections.

(** ** Order creation: [OrderService.create_order] *)

Section OrderCreation.

Import OrderService Spec Samples.

Variable calculate_distance : float -> float -> float -> float -> Result float.

Lemma price_items_length (db : DB) (rid : Z) (items : list ItemReq)
    (s s' : float) (acc data : list ItemData) :
  price_items db rid items s acc = Ok (s', data) ->
  length data = (length acc + length items)%nat.
Proof.
  revert s acc. induction items as [|item items IH]; simpl; intros s acc H.
  - injection H as _ <-. lia.
  - destruct (find_menu_item db rid (req_menu_item_id item)); [|discriminate].
    destruct (req_quantity item <=? 0); [discriminate|].
    destruct (float_mul_int _ _) as [item_total|e]; simpl in H; [|discriminate].
    apply IH in H. rewrite length_app in H. simpl in H. lia.
Qed.

Lemma make_items_length (id first : Z) (data : list ItemData) :
  length (make_items id first data) = length data.
Proof. revert first. induction data; simpl; intros; [reflexivity|]. by rewrite IHdata. Qed.

Lemma make_items_order_id (id first : Z) (data : list ItemData) (it : OrderItem) :
  it ∈ make_items id first data -> item_order_id it = id.
Proof.
  revert first. induction data as [|d data IH]; simpl; intros first H.
  - by apply elem_of_nil in H.
  - apply elem_of_cons in H as [->|H]; [reflexivity|eauto].
Qed.

(** The key the store assigns is above every key in use. *)
Lemma next_id_above (ids : list Z) (x : Z) : x ∈ ids -> x < next_id ids.
Proof.
  unfold next_id. induction ids as [|y ids IH]; simpl; intros H.
  - by apply elem_of_nil in H.
  - apply elem_of_cons in H as [->|H]; [lia|]. specialize (IH H). lia.
Qed.

Lemma find_order_app_fresh (l : list Order) (o : Order) :
  (forall x, x ∈ l -> order_id x <> order_id o) ->
  find (fun x => order_id x =? order_id o) (l ++ [o]) = Some o.
Proof.
  induction l as [|y l IH]; simpl; intros H.
  - by rewrite Z.eqb_refl.
  - destruct (order_id y =? order_id o) eqn:E.
    + apply Z.eqb_eq in E. destruct (H y); [apply list_elem_of_here|exact E].
    + apply IH. intros x Hx. apply H. by apply list_elem_of_further.
Qed.

Lemma filter_none {A} (P : A -> Prop) `{forall x, Decision (P x)} (l : list A) :
  (forall x, x ∈ l -> ~ P x) -> filter P l = [].
Proof.
  induction l as [|y l IH]; intros Hl; [reflexivity|].
  rewrite filter_cons_False by (apply Hl, list_elem_of_here).
  apply IH. intros x Hx. apply Hl. by apply list_elem_of_further.
Qed.

Lemma filter_all {A} (P : A -> Prop) `{forall x, Decision (P x)} (l : list A) :
  (forall x, x ∈ l -> P x) -> filter P l = l.
Proof.
  induction l as [|y l IH]; intros Hl; [reflexivity|].
  rewrite filter_cons_True by (apply Hl, list_elem_of_here).
  f_equal. apply IH. intros x Hx. apply Hl. by apply list_elem_of_further.
Qed.

(** Under the foreign key, no stored item refers to the key the next
    order will get. *)
Lemma items_of_next_id (db : DB) :
  referential_integrity db ->
  items_of db (next_id (map order_id (orders db))) = [].
Proof.
  intros Hri. unfold items_of. apply filter_none.
  intros it Hit Heq.
  destruct (Hri it Hit) as (o & Ho & Hid).
  assert (order_id o < next_id (map order_id (orders db))) as Hlt.
  { apply next_id_above. apply list_elem_of_In, in_map, list_elem_of_In, Ho. }
  lia.
Qed.

(** C10.  Take a call of [create_order] that succeeds when both commits
    do, returning [order], on a store whose items all refer to stored
    orders.  If the first commit succeeds and the second raises, the call
    raises, and the durable store holds the order row (it is found under
    its id) with no item row at all, whereas the successful call stores
    one item row per requested item: the order and its items are not
    created atomically. *)
Theorem create_order_not_atomic (commit_raises : nat -> bool)
    (number : string) (now : Z) (db : DB) (customer rid : Z)
    (items : list ItemReq) (address : string) (lat lon : option float)
    (instructions : option string) (order : Order) (db_ok : DB) :
  create_order calculate_distance commits number now db customer rid items
               address lat lon instructions = (Ok order, db_ok) ->
  commit_raises 0%nat = false ->
  commit_raises 1%nat = true ->
  referential_integrity db ->
  exists db',
    create_order calculate_distance commit_raises number now db customer rid items
                 address lat lon instructions = (Raised (SQLAlchemyError "commit"), db') /\
    get_order db' (order_id order) = Some order /\
    items_of db' (order_id order) = [] /\
    length (items_of db_ok (order_id order)) = length items.
Proof.
  unfold create_order, commits. intros Hok H0 H1 Hri. rewrite H0, H1.
  destruct (find _ (restaurants db)) as [restaurant|]; [|discriminate].
  destruct (price_items db rid items 0 []) as [[subtotal data]|e] eqn:Hp; [|discriminate].
  destruct (PrimFloat.ltb subtotal (minimum_order restaurant)); [discriminate|].
  destruct (order_delivery_fee calculate_distance restaurant lat lon) as [fee|e];
    [|discriminate].
  injection Hok as <- <-.
  eexists; split; [reflexivity|]. simpl.
  pose proof (items_of_next_id db Hri) as Hnone.
  split; [|split].
  - unfold get_order; simpl.
    match goal with
    | |- find _ (_ ++ [?o]) = _ => apply (find_order_app_fresh (orders db) o)
    end.
    intros x Hx. simpl.
    assert (order_id x < next_id (map order_id (orders db))) as Hlt
      by (apply next_id_above, list_elem_of_In, in_map, list_elem_of_In, Hx).
    lia.
  - exact Hnone.
  - unfold items_of in *; simpl. rewrite filter_app, Hnone. simpl.
    rewrite filter_all by (intros it Hit; eapply make_items_order_id, Hit).
    rewrite make_items_length. apply price_items_length in Hp. simpl in Hp. lia.
Qed.

(** C9, as stated, fails.  Customer 10 orders one menu item 2 (10.004)
    at restaurant 7 (delivery fee 2.004, tax 8%, no discount): the order is
    stored with subtotal 10.00, delivery_fee 2.00, tax_amount 0.80 and
    total_amount 12.81, one cent above the sum of the stored parts. *)
Lemma create_order_total_off_by_a_cent :
  exists o db',
    create_order no_distance commits "ORD=20240101-000001" 50 menu_store 10 7
                 [mkItemReq 2 1 None] "1 Main Street" None None None = (Ok o, db') /\
    cents (subtotal o) = Some 1000 /\ cents (delivery_fee o) = Some 200 /\
    cents (tax_amount o) = Some 80 /\ cents (discount_amount o) = Some 0 /\
    cents (total_amount o) = Some 1281 /\
    cents (subtotal o + delivery_fee o + tax_amount o - discount_amount o)%float = Some 1280 /\
    ~ same_cents (total_amount o)
        (subtotal o + delivery_fee o + tax_amount o - discount_amount o)%float.
Proof.
  eexists; eexists; split; [reflexivity|].
  repeat split; try reflexivity. unfold same_cents. vm_compute. discriminate.
Qed.

(** C9, amended.  Let the active restaurant be found and the item loop
    yield the subtotal [s]; let [f] be the delivery fee of the order and
    [t] the tax [round(s * 0.08, 2)].  A subtotal below the restaurant's
    minimum order is rejected with [ValidationException] and the store is
    untouched.  An order that is created is stored in PENDING with
    subtotal [round(s, 2)], delivery_fee [round(f, 2)], tax_amount
    [round(t, 2)], discount_amount 0 and total_amount
    [round(s + f + t - 0.0, 2)]: the total is rounded from the unrounded
    subtotal and fee, so it is the rounded sum of the stored fields when
    rounding leaves [s], [f] and [t] as they are.  For subtotal 25.00,
    delivery fee 2.99, tax rate 0.08 and no discount,
    [calculate_order_total] yields tax_amount 2.00 and total_amount
    29.99. *)
Theorem create_order_money (commit_raises : nat -> bool)
    (number : string) (now : Z) (db : DB) (customer rid : Z)
    (items : list ItemReq) (address : string) (lat lon : option float)
    (instructions : option string)
    (restaurant : Restaurant) (s : float) (data : list ItemData) :
  find (fun r => (rest_id r =? rid) && rest_is_active r) (restaurants db) = Some restaurant ->
  price_items db rid items 0%float [] = Ok (s, data) ->
  let t := calculate_tax s 0.08 in
  let call := create_order calculate_distance commit_raises number now db customer rid
                items address lat lon instructions in
  (PrimFloat.ltb s (minimum_order restaurant) = true ->
   call = (Raised (ValidationException (MinimumOrderAmount (minimum_order restaurant))), db)) /\
  (forall o db', call = (Ok o, db') ->
     exists f,
       order_delivery_fee calculate_distance restaurant lat lon = Ok f /\
       status o = PENDING /\
       subtotal o = py_round2 s /\ delivery_fee o = py_round2 f /\
       tax_amount o = py_round2 t /\ discount_amount o = 0%float /\
       total_amount o = py_round2 (s + f + t - 0.0)%float /\
       (py_round2 s = s -> py_round2 f = f -> py_round2 t = t ->
        total_amount o =
          py_round2 (subtotal o + delivery_fee o + tax_amount o - discount_amount o)%float)) /\
  calculate_order_total 25.0 2.99 0.08 0.0 = mkTotals 25.0 2.99 2.0 0.0 29.99.
Proof.
  intros Hr Hp t call. unfold call, create_order. rewrite Hr, Hp.
  split; [|split].
  - intros ->. reflexivity.
  - intros o db'.
    destruct (PrimFloat.ltb s (minimum_order restaurant)); [discriminate|].
    destruct (order_delivery_fee calculate_distance restaurant lat lon) as [f|e];
      [|discriminate].
    destruct (commit_raises 0%nat); [discriminate|].
    destruct (commit_raises 1%nat); [discriminate|].
    intros [= <- _]. exists f. simpl.
    repeat split. intros Hs Hf Ht.
    fold t. rewrite Hs, Hf, Ht. reflexivity.
  - reflexivity.
Qed.

End OrderCreation.

Lemma create_order_not_atomic_witness :
  exists db',
    OrderService.create_order Samples.no_distance Samples.second_commit_fails
      "ORD=20240101-000001" 50 Samples.menu_store 10 6
      [OrderService.mkItemReq 1 1 None] "1 Main Street" None None None =
      (Raised (SQLAlchemyError "commit"), db') /\
    get_order db' (order_id Samples.placed_order) = Some Samples.placed_order /\
    Spec.items_of db' (order_id Samples.placed_order) = [] /\
    length (Spec.items_of Samples.placed_store (order_id Samples.placed_order)) =
      length [OrderService.mkItemReq 1 1 None].
Proof.
  apply (create_order_not_atomic Samples.no_distance Samples.second_commit_fails
           "ORD=20240101-000001" 50 Samples.menu_store 10 6
           [OrderService.mkItemReq 1 1 None] "1 Main Street" None None None
           Samples.placed_order Samples.placed_store);
    [reflexivity | reflexivity | reflexivity |].
  intros it Hit. inversion Hit.
Defined.

(** The order of the specification's scenario, through [create_order]:
    one item of 25.00 at a restaurant whose delivery fee is 2.99. *)
Lemma create_order_money_witness :
  let call := OrderService.create_order Samples.no_distance Samples.commits
                "ORD=20240101-000001" 50 Samples.menu_store 10 6
                [OrderService.mkItemReq 1 1 None] "1 Main Street" None None None in
  call = (Ok Samples.placed_order, Samples.placed_store) /\
  (forall o db', call = (Ok o, db') ->
     exists f,
       OrderService.order_delivery_fee Samples.no_distance Samples.restaurant_6 None None =
         Ok f /\
       status o = PENDING /\
       subtotal o = py_round2 25.0 /\ delivery_fee o = py_round2 f /\
       tax_amount o = py_round2 (calculate_tax 25.0 0.08) /\ discount_amount o = 0%float /\
       total_amount o = py_round2 (25.0 + f + calculate_tax 25.0 0.08 - 0.0)%float /\
       (py_round2 25.0 = 25.0%float -> py_round2 f = f ->
        py_round2 (calculate_tax 25.0 0.08) = calculate_tax 25.0 0.08 ->
        total_amount o =
          py_round2 (subtotal o + delivery_fee o + tax_amount o - discount_amount o)%float)).
Proof.
  split; [reflexivity|].
  apply (create_order_money Samples.no_distance Samples.commits
           "ORD=20240101-000001" 50 Samples.menu_store 10 6
           [OrderService.mkItemReq 1 1 None] "1 Main Street" None None None
           Samples.restaurant_6 25.0%float
           [OrderService.mkItemData 1 1 25.0 25.0 None] eq_refl eq_refl).
Defined.

(** The scenario's rejection: a subtotal of 25.00 at restaurant 5, whose
    minimum order is 30.00, raises and stores nothing. *)
Lemma create_order_below_minimum :
  OrderService.create_order Samples.no_distance Samples.commits
    "ORD=20240101-000001" 50 Samples.menu_store 10 5
    [OrderService.mkItemReq 3 1 None] "1 Main Street" None None None =
    (Raised (ValidationException (MinimumOrderAmount 30.0)), Samples.menu_store).
Proof. reflexivity. Qed.

Lemma connect_supersedes_witness :
  let msg := [("type", JStr "order_status_update"); ("order_id", JInt 1)] in
  let m2 := snd (WebsocketManager.connect 2%nat 7 "customer"
                   (snd (WebsocketManager.connect 1%nat 7 "customer" WebsocketManager.init))) in
  WebsocketManager.user_connection m2 !! inl 7 = Some 2%nat /\
  snd (WebsocketManager.send_personal_msg (fun _ => false) msg 7 m2) =
    (if WebsocketManager.json_dumps_returns msg then [2%nat] else []) /\
  1%nat ∉ snd (WebsocketManager.run m2
                 [WebsocketManager.SendPersonalMsg (fun _ => true) msg 7;
                  WebsocketManager.Broadcast (fun _ => false) msg]).
Proof.
  apply (connect_supersedes [] []
           [WebsocketManager.SendPersonalMsg (fun _ => true)
              [("type", JStr "order_status_update"); ("order_id", JInt 1)] 7;
            WebsocketManager.Broadcast (fun _ => false)
              [("type", JStr "order_status_update"); ("order_id", JInt 1)]]
           1%nat 2%nat 7 "customer" "customer" (fun _ => false)
           [("type", JStr "order_status_update"); ("order_id", JInt 1)]).
  - split; simpl.
    + intros k Hk. rewrite lookup_empty in Hk. discriminate.
    + intros role l Hl. unfold WebsocketManager.init in Hl; simpl in Hl.
      repeat (apply lookup_insert_Some in Hl as [[_ <-]|[_ Hl]];
              [apply not_elem_of_nil|]).
      rewrite lookup_empty in Hl. discriminate.
  - lia.
  - constructor.
  - repeat constructor; simpl; tauto.
Defined.

(** ** The sequence helpers of [app/utils/__init__.py] *)

Section SequenceHelpers.

Import Utils.

Context {A : Type}.

(** The truncated text fits in [max_length] exactly when the text did, or
    the suffix does: with a suffix longer than [max_length] the result
    is longer than asked.  When the text is cut and the suffix fits, the
    result is a prefix of the text followed by the suffix and is
    [max_length] long. *)
Theorem truncate_string_fits (text suffix : list A) (max_length : Z) :
  (len (truncate_string text max_length suffix) <= max_length <->
   len text <= max_length \/ len suffix <= max_length) /\
  (max_length < len text /\ len suffix <= max_length ->
   truncate_string text max_length suffix =
     take (Z.to_nat (max_length - len suffix)) text ++ suffix /\
   len (truncate_string text max_length suffix) = max_length).
Proof.
  unfold truncate_string, slice_to, len.
  destruct (Z.leb_spec (Z.of_nat (length text)) max_length) as [Hle|Hgt].
  - split; [split; [auto|intros _; exact Hle]|]. lia.
  - destruct (Z.leb_spec 0 (max_length - Z.of_nat (length suffix))) as [Hk|Hk].
    + rewrite length_app, length_take. split; [split; [lia|intros _; lia]|].
      intros _. split; [reflexivity|lia].
    + rewrite length_app, length_take. split; [split; lia|lia].
Qed.

(** The chunks of a prefix: joining the first [m] chunks of size [n]
    gives the first [m * n] elements. *)
Lemma concat_chunks (n : nat) (l : list A) (m : nat) :
  concat ((fun i => take n (drop i l)) <$> ((fun k => k * n)%nat <$> seq 0 m)) =
  take (m * n) l.
Proof.
  induction m as [|m IH]; [reflexivity|].
  rewrite seq_S, !fmap_app, concat_app, IH. simpl. rewrite app_nil_r.
  replace (n + m * n)%nat with (m * n + n)%nat by lia.
  apply take_take_drop.
Qed.

(** [chunk_list] with a positive size cuts the list into consecutive
    chunks: joined again they give the list, no chunk is empty and none
    is longer than the size.  A negative size gives no chunk at all,
    whatever the list, and size 0 raises. *)
Theorem chunk_list_joins (lst : list A) (chunk_size : Z) :
  (0 < chunk_size ->
   exists chunks,
     chunk_list lst chunk_size = Returns chunks /\
     concat chunks = lst /\
     Forall (fun c => (0 < length c <= Z.to_nat chunk_size)%nat) chunks) /\
  (chunk_size < 0 -> chunk_list lst chunk_size = Returns []) /\
  (chunk_size = 0 -> chunk_list lst chunk_size =
                       Raises (ErrValue "range() arg 3 must not be zero")).
Proof.
  unfold chunk_list. split; [|split].
  - intros Hpos.
    destruct (Z.eqb_spec chunk_size 0) as [?|_]; [lia|].
    destruct (Z.ltb_spec chunk_size 0) as [?|_]; [lia|].
    set (n := Z.to_nat chunk_size). assert (0 < n)%nat as Hn by lia.
    set (m := ((length lst + n - 1) / n)%nat).
    assert (n * m <= length lst + n - 1 < n * m + n)%nat as Hm.
    { pose proof (Nat.div_mod_eq (length lst + n - 1) n) as Hd.
      pose proof (Nat.mod_upper_bound (length lst + n - 1) n) as Hu.
      fold m in Hd. lia. }
    eexists; split; [reflexivity|]. unfold range0. fold m. split.
    + rewrite concat_chunks. apply take_ge. nia.
    + apply Forall_fmap, Forall_fmap, Forall_forall. intros k Hk. simpl.
      apply elem_of_seq in Hk. rewrite length_take, length_drop. nia.
  - intros Hneg.
    destruct (Z.eqb_spec chunk_size 0) as [?|_]; [lia|].
    destruct (Z.ltb_spec chunk_size 0) as [_|?]; [reflexivity|lia].
  - intros ->. reflexivity.
Qed.

(** [paginate_query] with at least one row per page: the pages 1 to
    [pages] are non-empty, hold at most [per_page] rows each and, joined in
    order, give every row of the query once; a page after the last is
    empty. *)
Theorem paginate_query_covers (rows : list A) (per_page : Z) :
  1 <= per_page ->
  let pages := (len rows + per_page - 1) / per_page in
  concat ((fun p => page_items rows (Z.of_nat p) per_page) <$> seq 1 (Z.to_nat pages))
    = rows /\
  (forall p, 1 <= p <= pages ->
     page_items rows p per_page <> [] /\ len (page_items rows p per_page) <= per_page) /\
  (forall p, pages < p -> page_items rows p per_page = []).
Proof.
  intros Hpp pages.
  assert (forall p, 1 <= p ->
            page_items rows p per_page =
            take (Z.to_nat per_page) (drop (Z.to_nat (p - 1) * Z.to_nat per_page) rows))
    as Hitems.
  { intros p Hp. unfold page_items, paginate_query, offset_limit.
    destruct (Z.eqb_spec per_page 0) as [?|_]; [lia|]. simpl.
    destruct (Z.ltb_spec per_page 0) as [?|_]; [lia|].
    rewrite Z2Nat.inj_mul by lia. reflexivity. }
  assert (per_page * pages <= len rows + per_page - 1 < per_page * pages + per_page)
    as Hm.
  { pose proof (Z.div_mod (len rows + per_page - 1) per_page ltac:(lia)) as Hd.
    pose proof (Z.mod_pos_bound (len rows + per_page - 1) per_page ltac:(lia)) as Hu.
    fold pages in Hd. lia. }
  assert (0 <= pages) as Hp0 by (unfold len in *; nia).
  unfold len in *.
  split; [|split].
  - rewrite <- fmap_S_seq, <- list_fmap_compose.
    rewrite (list_fmap_ext _ (fun k => take (Z.to_nat per_page)
                                (drop (k * Z.to_nat per_page)%nat rows))).
    + transitivity (take (Z.to_nat pages * Z.to_nat per_page) rows).
      * rewrite <- concat_chunks, <- list_fmap_compose. reflexivity.
      * apply take_ge. nia.
    + intros i k _. simpl. rewrite Hitems by lia. do 3 f_equal. lia.
  - intros p Hp. rewrite Hitems by lia. split.
    + intros Hnil. apply (f_equal length) in Hnil.
      rewrite length_take, length_drop in Hnil. simpl in Hnil. nia.
    + rewrite length_take. lia.
  - intros p Hp. rewrite Hitems by lia.
    rewrite drop_ge; [apply take_nil|]. nia.
Qed.

End SequenceHelpers.

Lemma paginate_query_covers_witness :
  let pages := (Utils.len [10; 20; 30; 40; 50] + 2 - 1) / 2 in
  concat ((fun p => Utils.page_items [10; 20; 30; 40; 50] (Z.of_nat p) 2)
            <$> seq 1 (Z.to_nat pages)) = [10; 20; 30; 40; 50] /\
  (forall p, 1 <= p <= pages ->
     Utils.page_items [10; 20; 30; 40; 50] p 2 <> [] /\
     Utils.len (Utils.page_items [10; 20; 30; 40; 50] p 2) <= 2) /\
  (forall p, pages < p -> Utils.page_items [10; 20; 30; 40; 50] p 2 = []).
Proof. apply (paginate_query_covers [10; 20; 30; 40; 50] 2). lia. Defined.


Section Deduplication.

Import Utils.

Context {A : Type} `{EqDecision A}.

Lemma unseen_spec (seen lst : list A) :
  NoDup (unseen seen lst) /\
  (forall x, x ∈ unseen seen lst <-> x ∈ lst /\ x ∉ seen) /\
  sublist (unseen seen lst) lst.
Proof.
  revert seen. induction lst as [|y lst IH]; intros seen; simpl.
  - split; [constructor|]. split; [|constructor].
    intros x. rewrite elem_of_nil. tauto.
  - destruct (IH seen) as (Hn & Hm & Hs).
    destruct (IH (y :: seen)) as (Hn' & Hm' & Hs').
    destruct (decide (y ∈ seen)) as [Hin|Hout].
    + split; [exact Hn|]. split; [|by apply sublist_cons].
      intros x. rewrite Hm, elem_of_cons. split; [tauto|].
      intros [[->|Hx] Hns]; [contradiction|tauto].
    + split; [|split; [|by apply sublist_skip]].
      * constructor; [|exact Hn'].
        rewrite Hm', elem_of_cons. tauto.
      * intros x. rewrite !elem_of_cons, Hm', elem_of_cons.
        destruct (decide (x = y)) as [->|Hne]; tauto.
Qed.

Lemma unseen_fixed (seen lst : list A) :
  NoDup lst -> (forall x, x ∈ lst -> x ∉ seen) -> unseen seen lst = lst.
Proof.
  revert seen. induction lst as [|y lst IH]; intros seen Hn Hd; [reflexivity|].
  simpl. apply NoDup_cons in Hn as [Hy Hn].
  rewrite decide_False by (apply Hd, list_elem_of_here).
  f_equal. apply IH; [exact Hn|].
  intros x Hx [->|Hs]%elem_of_cons; [contradiction|].
  eapply Hd; [by apply list_elem_of_further|exact Hs].
Qed.

(** [remove_duplicates] keeps the elements of the list, each once and in
    the order of the list, and changes nothing in a list it has already
    cleaned. *)
Theorem remove_duplicates_spec (lst : list A) :
  NoDup (remove_duplicates lst) /\
  (forall x, x ∈ remove_duplicates lst <-> x ∈ lst) /\
  sublist (remove_duplicates lst) lst /\
  remove_duplicates (remove_duplicates lst) = remove_duplicates lst.
Proof.
  unfold remove_duplicates.
  destruct (unseen_spec [] lst) as (Hn & Hm & Hs).
  split; [exact Hn|]. split; [|split; [exact Hs|]].
  - intros x. rewrite Hm, elem_of_nil. tauto.
  - apply unseen_fixed; [exact Hn|]. intros x _. apply not_elem_of_nil.
Qed.

Variable at_sign star : A.

Lemma split_once_one (local domain : list A) :
  at_sign ∉ local -> at_sign ∉ domain ->
  split_once at_sign (local ++ at_sign :: domain) = Some (local, domain).
Proof.
  intros Hl Hd. induction local as [|c local IH]; simpl.
  - rewrite decide_True by reflexivity. by rewrite decide_False.
  - apply not_elem_of_cons in Hl as [Hc Hl].
    rewrite decide_False by congruence. by rewrite IH.
Qed.

Lemma split_once_many (local domain : list A) :
  at_sign ∉ local -> at_sign ∈ domain ->
  split_once at_sign (local ++ at_sign :: domain) = None.
Proof.
  intros Hl Hd. induction local as [|c local IH]; simpl.
  - rewrite decide_True by reflexivity. by rewrite decide_True.
  - apply not_elem_of_cons in Hl as [Hc Hl].
    rewrite decide_False by congruence. by rewrite IH.
Qed.

(** [mask_email] on an address whose local part, before the first "@",
    is [local].  With three characters or more in it and no second "@",
    the mask has the length of the address: the first and the last
    character of the local part and the domain are kept, every character
    between is a star.  A second "@" makes the call raise [ValueError], an
    empty local part [IndexError]. *)
Theorem mask_email_cases (local domain : list A) :
  at_sign ∉ local ->
  (forall first middle last,
     local = first :: middle ++ [last] -> middle <> [] -> at_sign ∉ domain ->
     mask_email at_sign star (local ++ at_sign :: domain) =
       Returns (first :: replicate (length middle) star ++ [last] ++ at_sign :: domain)) /\
  (at_sign ∈ domain ->
   mask_email at_sign star (local ++ at_sign :: domain) =
     Raises (ErrValue "too many values to unpack (expected 2)")) /\
  (local = [] -> at_sign ∉ domain ->
   mask_email at_sign star (local ++ at_sign :: domain) =
     Raises (ErrIndex "string index out of range")).
Proof.
  intros Hl.
  assert (at_sign ∈ local ++ at_sign :: domain) as Hin
    by (apply elem_of_app; right; apply list_elem_of_here).
  unfold mask_email. rewrite (decide_True _ _ Hin).
  split; [|split].
  - intros first middle last -> Hmid Hd.
    rewrite (split_once_one _ _ Hl Hd).
    destruct (Z.leb_spec (len (first :: middle ++ [last])) 2) as [Hlen|Hlen].
    { unfold len in Hlen. simpl in Hlen. rewrite length_app in Hlen. simpl in Hlen.
      destruct middle; [contradiction|simpl in Hlen; lia]. }
    assert (slice_from (-1) (first :: middle ++ [last]) = [last]) as Hlast.
    { unfold slice_from, len.
      change (first :: middle ++ [last]) with ((first :: middle) ++ [last]).
      replace (Z.to_nat (Z.of_nat (length ((first :: middle) ++ [last])) + -1))
        with (length (first :: middle)) by (rewrite length_app; simpl; lia).
      apply drop_app_length. }
    rewrite Hlast.
    replace (length (first :: middle ++ [last]) - 2)%nat with (length middle)
      by (simpl; rewrite length_app; simpl; lia).
    reflexivity.
  - intros Hd. rewrite (split_once_many _ _ Hl Hd). reflexivity.
  - intros -> Hd. rewrite (split_once_one _ _ Hl Hd). reflexivity.
Qed.

End Deduplication.

Lemma mask_email_cases_witness :
  (forall first middle last,
     [1; 2; 3; 4] = first :: middle ++ [last] -> middle <> [] -> 0 ∉ [7; 8] ->
     Utils.mask_email 0 9 ([1; 2; 3; 4] ++ 0 :: [7; 8]) =
       Utils.Returns (first :: replicate (length middle) 9 ++ [last] ++ 0 :: [7; 8])) /\
  (0 ∈ [7; 8] ->
   Utils.mask_email 0 9 ([1; 2; 3; 4] ++ 0 :: [7; 8]) =
     Utils.Raises (Utils.ErrValue "too many values to unpack (expected 2)")) /\
  ([1; 2; 3; 4] = [] -> 0 ∉ [7; 8] ->
   Utils.mask_email 0 9 ([1; 2; 3; 4] ++ 0 :: [7; 8]) =
     Utils.Raises (Utils.ErrIndex "string index out of range")).
Proof.
  apply (mask_email_cases 0 9 [1; 2; 3; 4] [7; 8]).
  intros Hin. repeat (apply elem_of_cons in Hin as [Hin|Hin]; [discriminate|]).
  by apply elem_of_nil in Hin.
Defined.

(** ** More of the order service *)

Section OrderServiceMore.

Import OrderService Spec Samples.

Lemma update_order_status_rejects_witness :
  update_order_status (store_of (order_in 1 READY_FOR_PICKUP)) 100 101 1 CANCELLED 20 =
    (Raised (ValidationException
               (CannotTransition (status_value (status (order_in 1 READY_FOR_PICKUP)))
                                 (status_value CANCELLED))),
     store_of (order_in 1 READY_FOR_PICKUP)).
Proof.
  apply (update_order_status_rejects (store_of (order_in 1 READY_FOR_PICKUP)) 100 101 1 20
           CANCELLED (order_in 1 READY_FOR_PICKUP)); reflexivity.
Defined.

(** The row a transition stores, whether or not the store had to write:
    it has the key of the loaded row, the target status and the matching
    timestamp. *)
Lemma transition_row (target : OrderStatus) (now db_now : Z) (o : Order) :
  let o' := flush_order db_now o (stamp target now (set_status target o)) in
  order_id o' = order_id o /\ status o' = target /\ stamped target now o o'.
Proof.
  intros o'. split; [|split].
  - apply flush_order_id. destruct target; reflexivity.
  - unfold o'. rewrite flush_order_status. destruct target; reflexivity.
  - pose proof (flush_order_assigned db_now o (stamp target now (set_status target o))) as H.
    fold o' in H. unfold order_assigned_columns in H.
    injection H as _ _ _ Hp Hu Hd Hc. unfold stamped. rewrite Hp, Hu, Hd, Hc.
    destruct target; repeat split.
Qed.

(** What a call on an edge of the graph returns and stores. *)
Lemma update_order_status_edge (db : DB) (now db_now id by_id : Z)
    (target : OrderStatus) (o : Order) :
  get_order db id = Some o ->
  legal_transition (status o) target = true ->
  update_order_status db now db_now id target by_id =
    (Ok (flush_order db_now o (stamp target now (set_status target o))),
     put_order (flush_order db_now o (stamp target now (set_status target o))) db).
Proof.
  intros Hget Hleg.
  apply valid_transitions_legal in Hleg as (allowed & Hv & Hin).
  unfold update_order_status. rewrite Hget, Hv, Hin. reflexivity.
Qed.

(** The same transition asked a second time, after it succeeded.  When
    the target is not terminal the second call is refused and writes
    nothing.  When the target is DELIVERED or CANCELLED the second call
    succeeds again and stamps the timestamp anew, with the later
    instant. *)
Theorem update_order_status_replay (db : DB) (now db_now later db_later id by_id : Z)
    (target : OrderStatus) (o : Order) :
  get_order db id = Some o ->
  legal_transition (status o) target = true ->
  exists o1 db1,
    update_order_status db now db_now id target by_id = (Ok o1, db1) /\
    if terminal target
    then exists o2,
           update_order_status db1 later db_later id target by_id =
             (Ok o2, put_order o2 db1) /\
           status o2 = target /\ stamped target later o1 o2
    else update_order_status db1 later db_later id target by_id =
           (Raised (ValidationException
                      (CannotTransition (status_value target) (status_value target))), db1).
Proof.
  intros Hget Hleg.
  pose proof (get_order_id _ _ _ Hget) as Hid.
  rewrite (update_order_status_edge _ _ _ _ _ _ _ Hget Hleg).
  set (o1 := flush_order db_now o (stamp target now (set_status target o))).
  destruct (transition_row target now db_now o) as (Hid1 & Hst1 & _). fold o1 in Hid1, Hst1.
  exists o1, (put_order o1 db). split; [reflexivity|].
  assert (get_order (put_order o1 db) id = Some o1) as Hget1.
  { rewrite <- Hid, <- Hid1. eapply get_order_put_order. rewrite Hid1, Hid. exact Hget. }
  unfold update_order_status. rewrite Hget1, Hst1.
  destruct (transition_row target later db_later o1) as (_ & Hst2 & Hstamp2).
  destruct (status o), target; simpl in Hleg; try discriminate; simpl;
    try reflexivity;
    (eexists; split; [reflexivity|]; split; [exact Hst2|exact Hstamp2]).
Qed.

Lemma update_order_status_replay_witness :
  exists o1 db1,
    update_order_status (store_of (order_in 1 OUT_FOR_DELIVERY)) 100 101 1 DELIVERED 30 =
      (Ok o1, db1) /\
    if terminal DELIVERED
    then exists o2,
           update_order_status db1 200 201 1 DELIVERED 30 = (Ok o2, put_order o2 db1) /\
           status o2 = DELIVERED /\ stamped DELIVERED 200 o1 o2
    else update_order_status db1 200 201 1 DELIVERED 30 =
           (Raised (ValidationException
                      (CannotTransition (status_value DELIVERED) (status_value DELIVERED))),
            db1).
Proof.
  apply (update_order_status_replay (store_of (order_in 1 OUT_FOR_DELIVERY))
           100 101 200 201 1 30 DELIVERED (order_in 1 OUT_FOR_DELIVERY)); reflexivity.
Defined.

(** [cancel_order] by the order's customer while the order is PENDING or
    CONFIRMED sets it to CANCELLED and stamps [cancelled_at]; a second
    cancellation is refused and leaves the first stamp; another user is
    refused with [AuthorizationException] whatever the status. *)
Theorem cancel_order_once (db : DB) (now db_now later db_later id user : Z) (o : Order) :
  get_order db id = Some o ->
  customer_id o = user ->
  status_in (status o) [PENDING; CONFIRMED] = true ->
  exists o1,
    cancel_order db now db_now id user = (Ok o1, put_order o1 db) /\
    status o1 = CANCELLED /\ cancelled_at o1 = Some now /\
    get_order (put_order o1 db) id = Some o1 /\
    cancel_order (put_order o1 db) later db_later id user =
      (Raised (ValidationException OrderCannotBeCancelled), put_order o1 db) /\
    (forall other, other <> user ->
       cancel_order db now db_now id other =
         (Raised (AuthorizationException "Not authorized to cancel this order"), db)).
Proof.
  intros Hget Hu Hst.
  pose proof (get_order_id _ _ _ Hget) as Hid.
  set (o1 := flush_order db_now o (set_cancelled_at now (set_status CANCELLED o))).
  assert (o1 = set_updated_at db_now (set_cancelled_at now (set_status CANCELLED o))) as Ho1.
  { apply flush_order_changed. unfold order_assigned_columns. simpl.
    intros [= Hs _]. rewrite <- Hs in Hst. discriminate. }
  assert (get_order (put_order o1 db) id = Some o1) as Hget1.
  { rewrite <- Hid. replace (order_id o) with (order_id o1) by (rewrite Ho1; reflexivity).
    eapply get_order_put_order. rewrite Ho1. simpl. rewrite Hid. exact Hget. }
  exists o1.
  split; [|split; [rewrite Ho1; reflexivity|split; [rewrite Ho1; reflexivity|
                   split; [exact Hget1|split]]]].
  - unfold cancel_order. rewrite Hget, Hu, Z.eqb_refl, Hst. reflexivity.
  - unfold cancel_order. rewrite Hget1. rewrite Ho1. simpl. rewrite Hu, Z.eqb_refl.
    reflexivity.
  - intros other Hne. unfold cancel_order. rewrite Hget, Hu.
    destruct (Z.eqb_spec user other); [congruence|reflexivity].
Qed.

Lemma cancel_order_once_witness :
  exists o1,
    cancel_order (store_of (order_in 1 CONFIRMED)) 100 101 1 10 =
      (Ok o1, put_order o1 (store_of (order_in 1 CONFIRMED))) /\
    status o1 = CANCELLED /\ cancelled_at o1 = Some 100 /\
    get_order (put_order o1 (store_of (order_in 1 CONFIRMED))) 1 = Some o1 /\
    cancel_order (put_order o1 (store_of (order_in 1 CONFIRMED))) 200 201 1 10 =
      (Raised (ValidationException OrderCannotBeCancelled),
       put_order o1 (store_of (order_in 1 CONFIRMED))) /\
    (forall other, other <> 10 ->
       cancel_order (store_of (order_in 1 CONFIRMED)) 100 101 1 other =
         (Raised (AuthorizationException "Not authorized to cancel this order"),
          store_of (order_in 1 CONFIRMED))).
Proof.
  apply (cancel_order_once (store_of (order_in 1 CONFIRMED)) 100 101 200 201 1 10
           (order_in 1 CONFIRMED)); reflexivity.
Defined.

(** The row an assignment of the delivery partner stores: the loaded row
    with that partner, and the status it had. *)
Lemma partner_row (db_now : Z) (partner : option Z) (o : Order) :
  let o' := flush_order db_now o (set_delivery_partner_id partner o) in
  order_id o' = order_id o /\ delivery_partner_id o' = partner /\ status o' = status o.
Proof.
  intros o'. split; [|split].
  - apply flush_order_id. reflexivity.
  - pose proof (flush_order_assigned db_now o (set_delivery_partner_id partner o)) as H.
    unfold order_assigned_columns in H. injection H as H _ _ _ _ _ _. exact H.
  - unfold o'. rewrite flush_order_status. reflexivity.
Qed.

(** [assign_delivery_partner] does not look at the partner the order
    already has: on an order that is READY_FOR_PICKUP a second assignment
    succeeds like the first and replaces the partner.  In any other status
    the call is refused and writes nothing. *)
Theorem assign_delivery_partner_replaces (db : DB) (db_now db_later id first second : Z)
    (o : Order) :
  get_order db id = Some o ->
  (status o = READY_FOR_PICKUP ->
   exists o1 o2,
     assign_delivery_partner db db_now id first = (Ok o1, put_order o1 db) /\
     delivery_partner_id o1 = Some first /\
     assign_delivery_partner (put_order o1 db) db_later id second =
       (Ok o2, put_order o2 (put_order o1 db)) /\
     delivery_partner_id o2 = Some second /\
     get_order (put_order o2 (put_order o1 db)) id = Some o2) /\
  (status o <> READY_FOR_PICKUP ->
   assign_delivery_partner db db_now id first =
     (Raised (ValidationException OrderNotReadyForPickup), db)).
Proof.
  intros Hget. pose proof (get_order_id _ _ _ Hget) as Hid. split.
  - intros Hst.
    set (o1 := flush_order db_now o (set_delivery_partner_id (Some first) o)).
    set (o2 := flush_order db_later o1 (set_delivery_partner_id (Some second) o1)).
    destruct (partner_row db_now (Some first) o) as (Hid1 & Hp1 & Hst1).
    destruct (partner_row db_later (Some second) o1) as (Hid2 & Hp2 & Hst2).
    fold o1 in Hid1, Hp1, Hst1. fold o2 in Hid2, Hp2, Hst2.
    assert (get_order (put_order o1 db) id = Some o1) as Hget1.
    { rewrite <- Hid, <- Hid1. eapply get_order_put_order. rewrite Hid1, Hid. exact Hget. }
    assert (get_order (put_order o2 (put_order o1 db)) id = Some o2) as Hget2.
    { rewrite <- Hid, <- Hid1, <- Hid2. eapply get_order_put_order.
      rewrite Hid2, Hid1, Hid. exact Hget1. }
    exists o1, o2. repeat split; try assumption.
    + unfold assign_delivery_partner. rewrite Hget, Hst. reflexivity.
    + unfold assign_delivery_partner. rewrite Hget1, Hst1, Hst. reflexivity.
  - intros Hst. unfold assign_delivery_partner. rewrite Hget.
    rewrite bool_decide_eq_false_2 by exact Hst. reflexivity.
Qed.

Lemma assign_delivery_partner_replaces_witness :
  (status (order_in 1 READY_FOR_PICKUP) = READY_FOR_PICKUP ->
   exists o1 o2,
     assign_delivery_partner (store_of (order_in 1 READY_FOR_PICKUP)) 101 1 31 =
       (Ok o1, put_order o1 (store_of (order_in 1 READY_FOR_PICKUP))) /\
     delivery_partner_id o1 = Some 31 /\
     assign_delivery_partner (put_order o1 (store_of (order_in 1 READY_FOR_PICKUP)))
                             201 1 32 =
       (Ok o2, put_order o2 (put_order o1 (store_of (order_in 1 READY_FOR_PICKUP)))) /\
     delivery_partner_id o2 = Some 32 /\
     get_order (put_order o2 (put_order o1 (store_of (order_in 1 READY_FOR_PICKUP)))) 1 =
       Some o2) /\
  (status (order_in 1 READY_FOR_PICKUP) <> READY_FOR_PICKUP ->
   assign_delivery_partner (store_of (order_in 1 READY_FOR_PICKUP)) 101 1 31 =
     (Raised (ValidationException OrderNotReadyForPickup),
      store_of (order_in 1 READY_FOR_PICKUP))).
Proof.
  apply (assign_delivery_partner_replaces (store_of (order_in 1 READY_FOR_PICKUP))
           101 201 1 31 32 (order_in 1 READY_FOR_PICKUP)); reflexivity.
Defined.

End OrderServiceMore.

(** ** More of order creation *)

Section OrderCreationMore.

Import OrderService Spec Samples.

(** The item loop either raises or extends [order_items_data] by one
    entry per requested item, in order, each for an available menu item
    of the restaurant, with the requested positive quantity, the item's
    price and their product. *)
Lemma price_items_entries (db : DB) (rid : Z) (items : list ItemReq)
    (s s' : float) (acc data : list ItemData) :
  price_items db rid items s acc = Ok (s', data) ->
  exists new,
    data = acc ++ new /\
    map (fun d => (d_menu_item_id d, d_quantity d)) new =
      map (fun r => (req_menu_item_id r, req_quantity r)) items /\
    Forall (fun d => 0 < d_quantity d /\
                     float_mul_int (d_unit_price d) (d_quantity d) = Ok (d_total_price d) /\
                     exists m, find_menu_item db rid (d_menu_item_id d) = Some m /\
                               d_unit_price d = mi_price m) new.
Proof.
  revert s acc. induction items as [|item items IH]; simpl; intros s acc H.
  - injection H as _ <-. exists []. rewrite app_nil_r. repeat split. constructor.
  - destruct (find_menu_item db rid (req_menu_item_id item)) as [m|] eqn:Hm; [|discriminate].
    destruct (Z.leb_spec (req_quantity item) 0) as [|Hq]; [discriminate|].
    destruct (float_mul_int (mi_price m) (req_quantity item)) as [item_total|e] eqn:Hmul;
      simpl in H; [|discriminate].
    apply IH in H as (new & -> & Hmap & Hall).
    eexists (_ :: new). rewrite <- app_assoc. split; [reflexivity|]. split.
    + simpl. by rewrite Hmap.
    + constructor; [|exact Hall]. simpl. repeat split; eauto.
Qed.


Lemma make_items_entries (id first : Z) (data : list ItemData) :
  map (fun it => (menu_item_id it, quantity it)) (make_items id first data) =
    map (fun d => (d_menu_item_id d, d_quantity d)) data /\
  map unit_price (make_items id first data) = map d_unit_price data /\
  map total_price (make_items id first data) = map d_total_price data.
Proof.
  revert first. induction data as [|d data IH]; intros first; simpl; [done|].
  destruct (IH (first + 1)) as (-> & -> & ->). done.
Qed.

Variable calculate_distance : float -> float -> float -> float -> Result float.



(** An order [create_order] returns is stored as a new PENDING row
    under a key no order had, after the rows that were there; the item
    rows it adds are one per requested item, in order, each with the
    order's key, the menu item and the positive quantity asked for, and
    nothing is added to the payments. *)
Theorem create_order_stores (commit_raises : nat -> bool)
    (number : string) (now : Z) (db : DB) (customer rid : Z)
    (items : list ItemReq) (address : string) (lat lon : option float)
    (instructions : option string) (o : Order) (db' : DB) :
  create_order calculate_distance commit_raises number now db customer rid items
               address lat lon instructions = (Ok o, db') ->
  status o = PENDING /\ customer_id o = customer /\
  (order_id o ∉ map order_id (orders db)) /\
  orders db' = orders db ++ [o] /\
  payments db' = payments db /\
  exists new_items,
    order_items db' = order_items db ++ new_items /\
    map (fun it => (menu_item_id it, quantity it)) new_items =
      map (fun r => (req_menu_item_id r, req_quantity r)) items /\
    Forall (fun it => item_order_id it = order_id o /\ 0 < quantity it) new_items.
Proof.
  unfold create_order. intros H.
  destruct (find _ (restaurants db)) as [restaurant|]; [|discriminate].
  destruct (price_items db rid items 0 []) as [[subtotal data]|e0] eqn:Hp; [|discriminate].
  destruct (PrimFloat.ltb subtotal (minimum_order restaurant)); [discriminate|].
  destruct (order_delivery_fee calculate_distance restaurant lat lon) as [fee|e1];
    [|discriminate].
  destruct (commit_raises 0%nat); [discriminate|].
  destruct (commit_raises 1%nat); [discriminate|].
  injection H as <- <-. simpl.
  apply price_items_entries in Hp as (new & -> & Hmap & Hall). simpl in *.
  split; [reflexivity|]. split; [reflexivity|]. split.
  - intros Hin. apply next_id_above in Hin. lia.
  - split; [reflexivity|]. split; [reflexivity|].
    eexists; split; [reflexivity|].
    destruct (make_items_entries (next_id (map order_id (orders db)))
                (next_id (map item_id (order_items db))) new) as (Hm & _ & _).
    split; [by rewrite Hm|].
    apply Forall_forall. intros it Hit. split.
    + eapply make_items_order_id, Hit.
    + assert ((menu_item_id it, quantity it) ∈
              map (fun d => (d_menu_item_id d, d_quantity d)) new) as Hq.
      { rewrite <- Hm. apply list_elem_of_In.
        apply (in_map (fun it => (menu_item_id it, quantity it))).
        apply list_elem_of_In, Hit. }
      apply list_elem_of_In, in_map_iff in Hq as (d & [= _ <-] & Hd).
      apply list_elem_of_In in Hd.
      rewrite Forall_forall in Hall. by destruct (Hall d Hd).
Qed.

End OrderCreationMore.


Lemma create_order_stores_witness :
  status Samples.placed_order = PENDING /\ customer_id Samples.placed_order = 10 /\
  (order_id Samples.placed_order ∉ map order_id (orders Samples.menu_store)) /\
  orders Samples.placed_store = orders Samples.menu_store ++ [Samples.placed_order] /\
  payments Samples.placed_store = payments Samples.menu_store /\
  exists new_items,
    order_items Samples.placed_store = order_items Samples.menu_store ++ new_items /\
    map (fun it => (menu_item_id it, quantity it)) new_items =
      map (fun r => (OrderService.req_menu_item_id r, OrderService.req_quantity r))
          [OrderService.mkItemReq 1 1 None] /\
    Forall (fun it => item_order_id it = order_id Samples.placed_order /\ 0 < quantity it)
           new_items.
Proof.
  apply (create_order_stores Samples.no_distance Samples.commits
           "ORD=20240101-000001" 50 Samples.menu_store 10 6
           [OrderService.mkItemReq 1 1 None] "1 Main Street" None None None
           Samples.placed_order Samples.placed_store).
  reflexivity.
Defined.

(** ** The order routes and the jobs they send *)

Section OrderRoutes.

Import OrdersApi Samples.


(** The disagreement, on a request with an infinite latitude (the JSON
    number 1e999) at a restaurant that has coordinates: the service
    raises [ValueError] and stores nothing, the route stores the order. *)
Lemma create_order_route_accepts_infinite_latitude :
  let service := OrderService.create_order domain_distance commits "ORD=20240101-000001" 50
                   located_store 10 8 [OrderService.mkItemReq 4 1 None] "1 Main Street"
                   (Some infinity) (Some 77.6%float) None in
  let route := create_order commits "A1B2C3D4" 50 located_store [] (mkUser 10 CUSTOMER) 8
                 [OrderService.mkItemReq 4 1 None] "1 Main Street"
                 (Some infinity) (Some 77.6%float) None in
  service = (Raised (ValueError "math domain error"), located_store) /\
  (exists o, fst (fst route) = Ok o /\ orders (snd (fst route)) = [o]).
Proof. split; [reflexivity|]. eexists. split; reflexivity. Qed.

Lemma find_available (db : DB) (id : Z) (o : Order) :
  get_order db id = Some o ->
  status o = READY_FOR_PICKUP -> delivery_partner_id o = None ->
  find (fun x => (order_id x =? id) && bool_decide (status x = READY_FOR_PICKUP)
                 && bool_decide (delivery_partner_id x = None)) (orders db) = Some o.
Proof.
  unfold get_order. intros Hget Hst Hp.
  induction (orders db) as [|x l IH]; simpl in *; [discriminate|].
  destruct (order_id x =? id); simpl.
  - injection Hget as ->. rewrite Hst, Hp. reflexivity.
  - apply IH, Hget.
Qed.

Lemma find_available_taken (db : DB) (o : Order) (partner : Z) :
  delivery_partner_id o = Some partner ->
  find (fun x => (order_id x =? order_id o) && bool_decide (status x = READY_FOR_PICKUP)
                 && bool_decide (delivery_partner_id x = None))
       (orders (put_order o db)) = None.
Proof.
  intros Hp. unfold put_order; simpl.
  induction (orders db) as [|x l IH]; simpl; [reflexivity|].
  destruct (order_id x =? order_id o) eqn:E.
  - rewrite Z.eqb_refl, Hp. simpl. rewrite andb_false_r. exact IH.
  - rewrite E. simpl. exact IH.
Qed.

(** [accept_delivery] gives an order to one delivery partner only: once
    a partner has accepted an order that was READY_FOR_PICKUP and free,
    the order is stored with that partner, and the acceptance of any
    other (or the same) partner is answered [NotFoundException] and
    changes nothing.  A user who is not a delivery partner is refused. *)
Theorem accept_delivery_once (db : DB) (db_now db_later : Z) (first second : User) (id : Z)
    (o : Order) :
  get_order db id = Some o ->
  status o = READY_FOR_PICKUP ->
  delivery_partner_id o = None ->
  role first = DELIVERY_PARTNER ->
  exists db1 o1,
    accept_delivery db_now db first id = (Ok (), db1) /\
    get_order db1 id = Some o1 /\
    delivery_partner_id o1 = Some (user_id first) /\ status o1 = READY_FOR_PICKUP /\
    (role second = DELIVERY_PARTNER ->
     accept_delivery db_later db1 second id =
       (Raised (NotFoundException "Available delivery order"), db1)) /\
    (role second <> DELIVERY_PARTNER ->
     accept_delivery db_now db second id =
       (Raised (AuthorizationException
                  "Access denied. Required roles: ['delivery_partner']"), db)).
Proof.
  intros Hget Hst Hp Hrole.
  pose proof (get_order_id _ _ _ Hget) as Hid.
  set (o1 := flush_order db_now o (set_delivery_partner_id (Some (user_id first)) o)).
  destruct (partner_row db_now (Some (user_id first)) o) as (Hid1 & Hp1 & Hst1).
  fold o1 in Hid1, Hp1, Hst1.
  exists (put_order o1 db), o1.
  split; [|split; [|split; [exact Hp1|split; [congruence|split]]]].
  - unfold accept_delivery, get_delivery_partner.
    rewrite bool_decide_eq_true_2 by exact Hrole.
    rewrite (find_available _ _ _ Hget Hst Hp). reflexivity.
  - rewrite <- Hid, <- Hid1. eapply get_order_put_order. rewrite Hid1, Hid. exact Hget.
  - intros Hrole2. unfold accept_delivery, get_delivery_partner.
    rewrite bool_decide_eq_true_2 by exact Hrole2.
    rewrite <- Hid, <- Hid1.
    rewrite (find_available_taken db o1 (user_id first)); [reflexivity|exact Hp1].
  - intros Hrole2. unfold accept_delivery, get_delivery_partner.
    rewrite bool_decide_eq_false_2 by exact Hrole2. reflexivity.
Qed.

Lemma accept_delivery_once_witness :
  exists db1 o1,
    accept_delivery 101 (store_of (order_in 1 READY_FOR_PICKUP))
                    (mkUser 31 DELIVERY_PARTNER) 1 = (Ok (), db1) /\
    get_order db1 1 = Some o1 /\
    delivery_partner_id o1 = Some (user_id (mkUser 31 DELIVERY_PARTNER)) /\
    status o1 = READY_FOR_PICKUP /\
    (role (mkUser 32 DELIVERY_PARTNER) = DELIVERY_PARTNER ->
     accept_delivery 201 db1 (mkUser 32 DELIVERY_PARTNER) 1 =
       (Raised (NotFoundException "Available delivery order"), db1)) /\
    (role (mkUser 32 DELIVERY_PARTNER) <> DELIVERY_PARTNER ->
     accept_delivery 101 (store_of (order_in 1 READY_FOR_PICKUP))
                     (mkUser 32 DELIVERY_PARTNER) 1 =
       (Raised (AuthorizationException
                  "Access denied. Required roles: ['delivery_partner']"),
        store_of (order_in 1 READY_FOR_PICKUP))).
Proof.
  apply (accept_delivery_once (store_of (order_in 1 READY_FOR_PICKUP)) 101 201
           (mkUser 31 DELIVERY_PARTNER) (mkUser 32 DELIVERY_PARTNER) 1
           (order_in 1 READY_FOR_PICKUP)); reflexivity.
Defined.

(** A PATCH that carries a delivery partner and no status.  For an admin
    and for a restaurant owner it stores the partner on the order,
    whatever the order's status, its restaurant and the partner it had:
    the owner need not own the order's restaurant.  For a customer and
    for a delivery partner it is refused and stores nothing. *)
Theorem update_order_assigns_partner (db_now : Z) (db : DB) (q : Queue) (u : User)
    (id partner : Z) (o : Order) :
  get_order db id = Some o ->
  let o' := flush_order db_now o (set_delivery_partner_id (Some partner) o) in
  update_order db_now db q u id (mkOrderUpdate None (Some partner)) =
    match role u with
    | ADMIN | RESTAURANT_OWNER => (Ok o', put_order o' db, q)
    | CUSTOMER | DELIVERY_PARTNER =>
        (Raised (AuthorizationException "Not authorized to assign delivery partner"), db, q)
    end /\
  delivery_partner_id o' = Some partner /\ status o' = status o /\
  (role u <> CUSTOMER -> role u <> DELIVERY_PARTNER ->
   get_order (snd (fst (update_order db_now db q u id (mkOrderUpdate None (Some partner)))))
             id = Some o').
Proof.
  intros Hget o'. pose proof (get_order_id _ _ _ Hget) as Hid.
  destruct (partner_row db_now (Some partner) o) as (Hid1 & Hp1 & Hst1).
  fold o' in Hid1, Hp1, Hst1.
  assert (update_order db_now db q u id (mkOrderUpdate None (Some partner)) =
          match role u with
          | ADMIN | RESTAURANT_OWNER => (Ok o', put_order o' db, q)
          | CUSTOMER | DELIVERY_PARTNER =>
              (Raised (AuthorizationException "Not authorized to assign delivery partner"),
               db, q)
          end) as Heq.
  { unfold update_order. rewrite Hget. simpl. destruct (role u); reflexivity. }
  split; [exact Heq|]. split; [exact Hp1|]. split; [exact Hst1|].
  intros Hc Hd. rewrite Heq.
  assert (get_order (put_order o' db) id = Some o') as Hput.
  { rewrite <- Hid, <- Hid1. eapply get_order_put_order. rewrite Hid1, Hid. exact Hget. }
  destruct (role u); simpl; congruence.
Qed.

Lemma update_order_assigns_partner_witness :
  let o := order_in 1 DELIVERED in
  let o' := flush_order 101 o (set_delivery_partner_id (Some 31) o) in
  update_order 101 (store_of o) [] (mkUser 77 RESTAURANT_OWNER) 1
               (mkOrderUpdate None (Some 31)) =
    match role (mkUser 77 RESTAURANT_OWNER) with
    | ADMIN | RESTAURANT_OWNER => (Ok o', put_order o' (store_of o), [])
    | CUSTOMER | DELIVERY_PARTNER =>
        (Raised (AuthorizationException "Not authorized to assign delivery partner"),
         store_of o, [])
    end /\
  delivery_partner_id o' = Some 31 /\ status o' = status o /\
  (role (mkUser 77 RESTAURANT_OWNER) <> CUSTOMER ->
   role (mkUser 77 RESTAURANT_OWNER) <> DELIVERY_PARTNER ->
   get_order (snd (fst (update_order 101 (store_of o) []
                          (mkUser 77 RESTAURANT_OWNER) 1
                          (mkOrderUpdate None (Some 31))))) 1 = Some o').
Proof.
  apply (update_order_assigns_partner 101 (store_of (order_in 1 DELIVERED)) []
           (mkUser 77 RESTAURANT_OWNER) 1 31 (order_in 1 DELIVERED)).
  reflexivity.
Defined.

(** A PATCH that carries a status and no delivery partner never changes
    the store: it is refused, or it sends the one job
    [update_order_status(order_id, status.value)] and returns the order
    as it was.  That job, run at any time on any store, returns False
    and changes neither the store nor the broker: a status asked for
    through the route does not take effect. *)
Theorem update_order_status_request (db_now : Z) (db : DB) (q : Queue) (u : User) (id : Z)
    (s : OrderStatus) :
  let answer := update_order db_now db q u id (mkOrderUpdate (Some s) None) in
  snd (fst answer) = db /\
  match fst (fst answer) with
  | Ok o => get_order db id = Some o /\
            snd answer = q ++ [mkJob update_order_status_name
                                 [AInt id; AStr (status_value s)]]
  | Raised _ => snd answer = q
  end /\
  (forall now db_now' db' q',
     OrderTask.update_order_status now db_now' db' q' id (status_value s) =
       (false, db', q')).
Proof.
  simpl. split; [|split].
  - unfold update_order. destruct (get_order db id) as [o|]; [|reflexivity]. simpl.
    destruct (status_permission db u o s); reflexivity.
  - unfold update_order. destruct (get_order db id) as [o|]; [|reflexivity]. simpl.
    destruct (status_permission db u o s); [reflexivity|]. simpl. split; reflexivity.
  - intros now db_now' db' q'. apply update_order_status_task_fails.
Qed.

(** The permission chain of the status requests: a customer may ask for
    nothing but the cancellation of an own order that is PENDING or
    CONFIRMED, and an admin for anything. *)
Theorem status_permission_customer (db : DB) (u : User) (o : Order) (s : OrderStatus) :
  (role u = CUSTOMER ->
   (status_permission db u o s = None <->
    s = CANCELLED /\ customer_id o = user_id u /\
    (status o = PENDING \/ status o = CONFIRMED))) /\
  (role u = ADMIN -> status_permission db u o s = None).
Proof.
  unfold status_permission. split.
  - intros ->. simpl.
    destruct (decide (s = CANCELLED)) as [->|Hs].
    + simpl. destruct (Z.eqb_spec (customer_id o) (user_id u)) as [Hc|Hc]; simpl.
      * destruct (status o); simpl; split; try discriminate; try tauto;
          intros (_ & _ & [?|?]); discriminate.
      * split; [discriminate|tauto].
    + rewrite bool_decide_eq_false_2 by exact Hs. simpl. split; [discriminate|tauto].
  - intros ->. simpl. destruct s; reflexivity.
Qed.

End OrderRoutes.

(** ** The estimated delivery time *)

Section EstimatedDelivery.

Import EtaTask Samples.

(** The row the task stores: the loaded row with the estimate. *)
Lemma eta_row (db_now eta : Z) (o : Order) :
  let o' := flush_order db_now o (set_estimated_delivery_time eta o) in
  order_id o' = order_id o /\ customer_id o' = customer_id o /\
  estimated_delivery_time o' = Some eta /\ status o' = status o.
Proof.
  intros o'. split; [|split; [|split]].
  - apply flush_order_id. reflexivity.
  - unfold o', flush_order. destruct (decide _); reflexivity.
  - pose proof (flush_order_assigned db_now o (set_estimated_delivery_time eta o)) as H.
    unfold order_assigned_columns in H. injection H as _ _ H _ _ _ _. exact H.
  - unfold o'. rewrite flush_order_status. reflexivity.
Qed.



End EstimatedDelivery.

(** ** More of the payment paths *)

Section PaymentsMore.

Import PaymentService PaymentTask PaymentIntent Samples.

Lemma find_payment_app_fresh (l : list Payment) (p : Payment) :
  (forall x, x ∈ l -> payment_id x <> payment_id p) ->
  find (fun x => payment_id x =? payment_id p) (l ++ [p]) = Some p.
Proof.
  induction l as [|y l IH]; simpl; intros H.
  - by rewrite Z.eqb_refl.
  - destruct (payment_id y =? payment_id p) eqn:E.
    + apply Z.eqb_eq in E. destruct (H y); [apply list_elem_of_here|exact E].
    + apply IH. intros x Hx. apply H. by apply list_elem_of_further.
Qed.

(** [create_payment_intent] never touches the orders.  When it returns
    None the store is as before.  When it returns a result, the provider
    created an intent for the order's total in whole cents, and one
    payment was added after the stored ones: PENDING, for this order and
    its customer, of the order's total, with the provider's reference and
    a key no payment had, under which it is read back. *)
Theorem create_payment_intent_outcome (create : Create) (now : Z) (db : DB)
    (id : Z) (payment_method : PaymentMethod) :
  let answer := create_payment_intent create now db id payment_method in
  orders (snd answer) = orders db /\
  match fst answer with
  | None => snd answer = db
  | Some res =>
      exists o cents p,
        get_order db id = Some o /\
        py_int_of_float (total_amount o * 100)%float = Ok cents /\
        create cents id (customer_id o) = Ok (payment_intent_id res, client_secret res) /\
        payments (snd answer) = payments db ++ [p] /\
        pay_status p = PAY_PENDING /\ amount p = total_amount o /\
        pay_order_id p = id /\ pay_user_id p = customer_id o /\
        stripe_payment_intent_id p = Some (payment_intent_id res) /\
        payment_id p = res_payment_id res /\
        (payment_id p ∉ map payment_id (payments db)) /\
        get_payment (snd answer) (payment_id p) = Some p
  end.
Proof.
  unfold create_payment_intent. simpl.
  destruct (get_order db id) as [o|] eqn:Hget; [|done].
  destruct (py_int_of_float (total_amount o * 100)) as [cents|e] eqn:Hc; [|done].
  destruct (create cents id (customer_id o)) as [[i secret]|e] eqn:Hcr; [|done].
  destruct (reference_taken db i); [done|]. simpl.
  split; [reflexivity|].
  eexists o, cents, _. repeat split; try reflexivity; try assumption.
  - simpl. intros Hin. apply next_id_above in Hin. lia.
  - unfold get_payment; simpl.
    match goal with
    | |- find _ (_ ++ [?p]) = _ => apply (find_payment_app_fresh (payments db) p)
    end.
    intros x Hx. simpl.
    assert (payment_id x < OrderService.next_id (map payment_id (payments db))) as Hlt
      by (apply next_id_above, list_elem_of_In, in_map, list_elem_of_In, Hx).
    lia.
Qed.

(** The route answers 404 for an order that is not the current user's,
    whatever the provider would do, and stores nothing. *)
Theorem create_intent_route_foreign_order (create : Create) (now : Z) (db : DB)
    (user id : Z) (payment_method : PaymentMethod) :
  (forall o, o ∈ orders db -> order_id o = id -> customer_id o <> user) ->
  create_intent_route create now db user id payment_method = (IntentHTTP404, db).
Proof.
  intros H. unfold create_intent_route.
  assert (find (fun o => (order_id o =? id) && (customer_id o =? user)) (orders db) = None)
    as ->; [|reflexivity].
  induction (orders db) as [|x l IH]; [reflexivity|]. simpl.
  destruct (Z.eqb_spec (order_id x) id) as [Hid|Hid]; simpl.
  - destruct (Z.eqb_spec (customer_id x) user) as [Hc|Hc].
    + destruct (H x (list_elem_of_here _ _) Hid Hc).
    + apply IH. intros o Ho. apply H. by apply list_elem_of_further.
  - apply IH. intros o Ho. apply H. by apply list_elem_of_further.
Qed.

Lemma create_intent_route_foreign_order_witness :
  create_intent_route (fun _ _ _ => Ok ("pi_9", "secret")) 50
    (store_of (order_in 1 PENDING)) 11 1 CREDIT_CARD =
    (IntentHTTP404, store_of (order_in 1 PENDING)).
Proof.
  apply (create_intent_route_foreign_order (fun _ _ _ => Ok ("pi_9", "secret")) 50
           (store_of (order_in 1 PENDING)) 11 1 CREDIT_CARD).
  intros o Ho _. apply list_elem_of_singleton in Ho as ->. discriminate.
Defined.

(** Whenever the webhook's path changes a payment, the status it writes
    is the one the poll's mapping gives for the same provider answer, and
    it reports success exactly when the poll's mapping says COMPLETED. *)
Theorem status_mappings_agree (stripe : Stripe) (db_now : Z) (db : DB) (p : Payment)
    (i : string) :
  stripe_payment_intent_id p = Some i ->
  i <> "" ->
  let answer := process_stripe_payment stripe db_now db p in
  match check_stripe_payment_status stripe i with
  | Ok s =>
      (snd (fst answer) = p \/ pay_status (snd (fst answer)) = s) /\
      (fst (fst answer) = Ok true <-> s = PAY_COMPLETED)
  | Raised e => answer = (Raised e, p, db)
  end.
Proof.
  intros Hi Hne. unfold process_stripe_payment, check_stripe_payment_status.
  rewrite Hi. destruct (String.eqb_spec i ""); [contradiction|].
  destruct (retrieve stripe i) as [st|[]]; simpl; try reflexivity.
  - destruct (String.eqb_spec st "succeeded") as [->|H1]; simpl.
    { split; [right; apply flush_payment_status|tauto]. }
    destruct (String.eqb_spec st "requires_payment_method") as [->|H2]; simpl.
    { split; [right; apply flush_payment_status|split; discriminate]. }
    destruct (String.eqb_spec st "payment_failed") as [->|H3]; simpl;
      [split; [tauto|split; discriminate]|].
    destruct (String.eqb_spec st "canceled") as [->|H4]; simpl.
    { split; [right; apply flush_payment_status|split; discriminate]. }
    destruct (String.eqb st "requires_confirmation" || String.eqb st "requires_action");
      simpl; (split; [tauto|split; discriminate]).
  - split; [right; apply flush_payment_status|split; discriminate].
Qed.

Lemma status_mappings_agree_witness :
  let answer := process_stripe_payment stripe_succeeded 100
                  (store_with (order_in 1 PENDING) (payment_in 1 1 PAY_PENDING))
                  (payment_in 1 1 PAY_PENDING) in
  match check_stripe_payment_status stripe_succeeded "pi_1" with
  | Ok s =>
      (snd (fst answer) = payment_in 1 1 PAY_PENDING \/ pay_status (snd (fst answer)) = s) /\
      (fst (fst answer) = Ok true <-> s = PAY_COMPLETED)
  | Raised e =>
      answer = (Raised e, payment_in 1 1 PAY_PENDING,
                store_with (order_in 1 PENDING) (payment_in 1 1 PAY_PENDING))
  end.
Proof.
  apply (status_mappings_agree stripe_succeeded 100
           (store_with (order_in 1 PENDING) (payment_in 1 1 PAY_PENDING))
           (payment_in 1 1 PAY_PENDING) "pi_1"); [reflexivity|discriminate].
Defined.

Lemma put_payment_twice (p : Payment) (db : DB) :
  put_payment p (put_payment p db) = put_payment p db.
Proof.
  unfold put_payment; simpl. f_equal. rewrite map_map. apply map_ext.
  intros x. destruct (payment_id x =? payment_id p) eqn:E; [|by rewrite E].
  by rewrite Z.eqb_refl.
Qed.

(** Assigning again what the stored row already holds emits no UPDATE:
    the row, its [updated_at] included, stays as the first commit left
    it, whatever the store's clock has become. *)
Lemma flush_payment_again (db_now db_later : Z) (loaded : Payment)
    (assign : Payment -> Payment) :
  (forall x, payment_assigned_columns x = payment_assigned_columns (assign loaded) ->
             payment_assigned_columns (assign x) = payment_assigned_columns x) ->
  let stored := flush_payment db_now loaded (assign loaded) in
  flush_payment db_later stored (assign stored) = stored.
Proof.
  intros Hassign stored. unfold flush_payment at 1.
  rewrite decide_True; [reflexivity|].
  apply Hassign. apply flush_payment_assigned.
Qed.

Lemma flush_payment_reference (db_now : Z) (loaded p : Payment) :
  stripe_payment_intent_id p = stripe_payment_intent_id loaded ->
  stripe_payment_intent_id (flush_payment db_now loaded p) =
    stripe_payment_intent_id loaded.
Proof. intros H. unfold flush_payment. destruct (decide _); [reflexivity|exact H]. Qed.

(** Reconciling a payment a second time, with the provider's answer
    unchanged, changes nothing more: the second call returns what the
    first returned and leaves the payment and the store as the first left
    them. *)
Theorem process_stripe_payment_again (stripe : Stripe) (db_now db_later : Z) (db : DB)
    (p : Payment) :
  let first := process_stripe_payment stripe db_now db p in
  process_stripe_payment stripe db_later (snd first) (snd (fst first)) = first.
Proof.
  unfold process_stripe_payment.
  destruct (stripe_payment_intent_id p) as [i|] eqn:Hi; simpl; [|by rewrite Hi].
  destruct (String.eqb i "") eqn:Hempty; simpl; [by rewrite Hi, Hempty|].
  assert (forall assign : Payment -> Payment,
            stripe_payment_intent_id (assign p) = stripe_payment_intent_id p ->
            (forall x, payment_assigned_columns x = payment_assigned_columns (assign p) ->
                       payment_assigned_columns (assign x) = payment_assigned_columns x) ->
            let stored := flush_payment db_now p (assign p) in
            stripe_payment_intent_id stored = Some i /\
            flush_payment db_later stored (assign stored) = stored /\
            put_payment stored (put_payment stored db) = put_payment stored db) as Hagain.
  { intros assign Href Hassign stored. split; [|split].
    - unfold stored. rewrite flush_payment_reference by exact Href. exact Hi.
    - apply flush_payment_again, Hassign.
    - apply put_payment_twice. }
  destruct (retrieve stripe i) as [st|[]] eqn:Hr; simpl;
    try (rewrite Hi, Hempty, Hr; reflexivity).
  - destruct (String.eqb st "succeeded") eqn:H1; simpl.
    { destruct (Hagain (set_pay_status PAY_COMPLETED) eq_refl) as (Hi' & Hf & Hp).
      { unfold payment_assigned_columns. simpl. intros x [= -> _ _]. reflexivity. }
      rewrite Hi', Hempty, Hr, H1, Hf, Hp. reflexivity. }
    destruct (String.eqb st "requires_payment_method") eqn:H2; simpl.
    { destruct (Hagain (fun x => set_failure_reason "Payment method required"
                                   (set_pay_status PAY_FAILED x)) eq_refl)
        as (Hi' & Hf & Hp).
      { unfold payment_assigned_columns. simpl. intros x [= -> -> _]. reflexivity. }
      rewrite Hi', Hempty, Hr, H1, H2, Hf, Hp. reflexivity. }
    destruct (String.eqb st "canceled") eqn:H3; simpl.
    { destruct (Hagain (set_pay_status PAY_CANCELLED) eq_refl) as (Hi' & Hf & Hp).
      { unfold payment_assigned_columns. simpl. intros x [= -> _ _]. reflexivity. }
      rewrite Hi', Hempty, Hr, H1, H2, H3, Hf, Hp. reflexivity. }
    rewrite Hi, Hempty, Hr, H1, H2, H3. reflexivity.
  - destruct (Hagain (fun x => set_failure_reason what (set_pay_status PAY_FAILED x))
                eq_refl) as (Hi' & Hf & Hp).
    { unfold payment_assigned_columns. simpl. intros x [= -> -> _]. reflexivity. }
    rewrite Hi', Hempty, Hr, Hf, Hp. reflexivity.
Qed.

Lemma put_payment_orders (p : Payment) (db : DB) : orders (put_payment p db) = orders db.
Proof. reflexivity. Qed.

(** [process_payment] sends no job and never touches the orders; it
    returns True only when the provider reports the payment's intent as
    succeeded and the payment's order is not in the store. *)
Theorem process_payment_outcome (stripe : Stripe) (db_now : Z) (db : DB) (q : Queue)
    (id : Z) :
  let answer := process_payment stripe db_now db q id in
  snd answer = q /\
  orders (snd (fst answer)) = orders db /\
  (fst (fst answer) = true ->
   exists p i, get_payment db id = Some p /\
               stripe_payment_intent_id p = Some i /\
               retrieve stripe i = Ok "succeeded" /\
               get_order db (pay_order_id p) = None).
Proof.
  unfold process_payment, process_stripe_payment. simpl.
  destruct (get_payment db id) as [p|] eqn:Hp; [|by repeat split].
  destruct (stripe_payment_intent_id p) as [i|] eqn:Hi; [|by repeat split].
  destruct (String.eqb i ""); [by repeat split|].
  destruct (retrieve stripe i) as [st|e] eqn:Hr; simpl.
  - destruct (String.eqb_spec st "succeeded") as [->|H1]; simpl.
    + set (stored := flush_payment db_now p (set_pay_status PAY_COMPLETED p)).
      assert (pay_order_id stored = pay_order_id p) as Ho
        by (unfold stored, flush_payment; destruct (decide _); reflexivity).
      unfold get_order; simpl. fold (get_order db (pay_order_id stored)). rewrite Ho.
      destruct (get_order db (pay_order_id p)) eqn:Hord; simpl; [by repeat split|].
      repeat split. intros _. exists p, i. repeat split; try assumption.
    + destruct (String.eqb st "requires_payment_method"); simpl; [by repeat split|].
      destruct (String.eqb st "canceled"); by repeat split.
  - destruct e; by repeat split.
Qed.

End PaymentsMore.

(** ** The poll and the sweep loops *)

Section Loops.

Import PaymentService PaymentTask PollSpec.

Lemma unique_key (l : list Payment) (a b : Payment) :
  NoDup (map payment_id l) -> a ∈ l -> b ∈ l -> payment_id a = payment_id b -> a = b.
Proof.
  induction l as [|x l IH]; simpl; intros Hn Ha Hb Hk.
  - by apply elem_of_nil in Ha.
  - apply NoDup_cons in Hn as [Hx Hn].
    apply elem_of_cons in Ha as [->|Ha]; apply elem_of_cons in Hb as [->|Hb].
    + reflexivity.
    + destruct Hx. rewrite Hk. apply list_elem_of_In, in_map, list_elem_of_In, Hb.
    + destruct Hx. rewrite <- Hk. apply list_elem_of_In, in_map, list_elem_of_In, Ha.
    + by apply IH.
Qed.

Lemma poll_update_key (now : Z) (a b : Payment) :
  poll_update now a b -> payment_id b = payment_id a.
Proof. intros [->|(_ & _ & s & t & _ & ->)]; reflexivity. Qed.

(** The row the poll stores for a selected payment whose status the
    provider has changed. *)
Lemma flush_polled (db_now : Z) (p : Payment) (s : PaymentStatus) :
  s <> pay_status p ->
  flush_payment db_now p (set_pay_status s p) =
    set_pay_updated_at db_now (set_pay_status s p).
Proof.
  intros Hs. unfold flush_payment. rewrite decide_False; [reflexivity|].
  unfold payment_assigned_columns. simpl. intros [= E]. contradiction.
Qed.

(** Writing a new status for a selected payment keeps the rows related
    to the original ones. *)
Lemma put_payment_rows (now t : Z) (orig part rows : list Payment) (p : Payment)
    (s : PaymentStatus) :
  NoDup (map payment_id orig) ->
  p ∈ orig -> pay_status p = PAY_PENDING -> pay_created_at p < now - 5 * 60 ->
  s <> PAY_PENDING ->
  (forall a, a ∈ part -> a ∈ orig) ->
  Forall2 (poll_update now) part rows ->
  Forall2 (poll_update now) part
    (map (fun x => if payment_id x =? payment_id p
                   then set_pay_updated_at t (set_pay_status s p) else x) rows).
Proof.
  intros Hn Hp Hst Hold Hs Hsub H.
  induction H as [|a b part rows Hab H IH]; simpl; [constructor|].
  constructor.
  - destruct (Z.eqb_spec (payment_id b) (payment_id p)) as [Hk|Hk]; [|exact Hab].
    assert (a = p) as ->.
    { apply (unique_key orig); [exact Hn|apply Hsub, list_elem_of_here|exact Hp|].
      rewrite <- (poll_update_key _ _ _ Hab). exact Hk. }
    right. eauto 6.
  - apply IH. intros x Hx. apply Hsub. by apply list_elem_of_further.
Qed.

Lemma check_loop_frame (stripe : Stripe) (now : Z) (db_now : Z -> Z)
    (orig pending : list Payment) (work : DB) (n : Z) (q : Queue) :
  NoDup (map payment_id orig) ->
  (forall p, p ∈ pending ->
     p ∈ orig /\ pay_status p = PAY_PENDING /\ pay_created_at p < now - 5 * 60) ->
  Forall2 (poll_update now) orig (payments work) ->
  (exists jobs, snd (check_loop stripe db_now pending work n q) = q ++ jobs /\
                Forall poll_job jobs) /\
  match fst (check_loop stripe db_now pending work n q) with
  | Ok (work', n') =>
      Forall2 (poll_update now) orig (payments work') /\
      orders work' = orders work /\
      n <= n' <= n + Z.of_nat (length pending)
  | Raised _ => True
  end.
Proof.
  intros Hn. revert work n q.
  induction pending as [|p pending IH]; intros work n q Hsel Hrows; simpl.
  - split; [exists []; by rewrite app_nil_r|]. repeat split; [exact Hrows|lia|lia].
  - assert (forall x, x ∈ pending ->
              x ∈ orig /\ pay_status x = PAY_PENDING /\ pay_created_at x < now - 5 * 60)
      as Hsel' by (intros x Hx; apply Hsel; by apply list_elem_of_further).
    destruct (Hsel p (list_elem_of_here _ _)) as (Hp & Hst & Hold).
    assert (forall work1 n1 q1 jobs1,
              Forall2 (poll_update now) orig (payments work1) ->
              orders work1 = orders work -> n <= n1 <= n + 1 ->
              q1 = q ++ jobs1 -> Forall poll_job jobs1 ->
              (exists jobs, snd (check_loop stripe db_now pending work1 n1 q1) = q ++ jobs /\
                            Forall poll_job jobs) /\
              match fst (check_loop stripe db_now pending work1 n1 q1) with
              | Ok (work', n') =>
                  Forall2 (poll_update now) orig (payments work') /\
                  orders work' = orders work /\
                  n <= n' <= n + Z.of_nat (S (length pending))
              | Raised _ => True
              end) as Hrest.
    { intros work1 n1 q1 jobs1 Hrows1 Ho1 Hn1 -> Hj1.
      destruct (IH work1 n1 (q ++ jobs1) Hsel' Hrows1) as ((jobs & Hq & Hj) & Hres).
      split.
      - exists (jobs1 ++ jobs). rewrite Hq, app_assoc. split; [reflexivity|].
        by apply Forall_app.
      - destruct (fst (check_loop stripe db_now pending work1 n1 (q ++ jobs1)))
          as [[w n']|]; [|exact I].
        destruct Hres as (? & ? & ?). repeat split; [assumption|congruence|lia|lia]. }
    destruct (str_truthy (stripe_payment_intent_id p));
      [|apply (Hrest work n q []);
        [exact Hrows | reflexivity | lia | by rewrite app_nil_r | constructor]].
    destruct (check_stripe_payment_status stripe _) as [s|e];
      [|split; [exists []; by rewrite app_nil_r|exact I]].
    destruct (decide (s <> pay_status p)) as [Hs|Hs];
      [rewrite (bool_decide_eq_true_2 _ Hs)|rewrite (bool_decide_eq_false_2 _ Hs)];
      [|apply (Hrest work n q []);
        [exact Hrows | reflexivity | lia | by rewrite app_nil_r | constructor]].
    rewrite (flush_polled _ _ _ Hs).
    assert (Forall2 (poll_update now) orig
              (payments (put_payment
                           (set_pay_updated_at (db_now (payment_id p)) (set_pay_status s p))
                           work))) as Hrows1.
    { unfold put_payment; simpl.
      apply (put_payment_rows now _ orig orig); auto. congruence. }
    destruct s; simpl.
    1, 2, 5, 6:
      (apply (Hrest _ (n + 1) q []);
       [exact Hrows1 | reflexivity | lia | (by rewrite app_nil_r) | constructor]).
    all:
      (eapply (Hrest _ (n + 1));
       [exact Hrows1 | reflexivity | lia | reflexivity |];
       constructor; [|constructor];
       split; [reflexivity|];
       eexists; first [left; reflexivity | right; reflexivity]).
Qed.

(** The poll changes nothing but the status, and with it [updated_at],
    of payments that were PENDING and created more than five minutes
    before: the orders are untouched; row by row, a payment after the poll
    is the payment before, or a selected payment with another status and
    the [updated_at] of its UPDATE; the jobs added ask
    [update_order_status] for CONFIRMED or CANCELLED and nothing else;
    the count returned is at most the number of selected payments. *)
Theorem check_pending_payments_frame (stripe : Stripe) (now : Z) (db_now : Z -> Z)
    (db : DB) (q : Queue) :
  payment_keys_unique db ->
  let answer := check_pending_payments stripe now db_now db q in
  orders (snd (fst answer)) = orders db /\
  Forall2 (poll_update now) (payments db) (payments (snd (fst answer))) /\
  (exists jobs, snd answer = q ++ jobs /\ Forall poll_job jobs) /\
  0 <= fst (fst answer) <= Z.of_nat (length (pending_payments db (now - 5 * 60))).
Proof.
  intros Hn. unfold check_pending_payments.
  assert (Forall2 (poll_update now) (payments db) (payments db)) as Hrefl.
  { induction (payments db); constructor; [by left|auto]. }
  destruct (check_loop_frame stripe now db_now (payments db)
              (pending_payments db (now - 5 * 60)) db 0 q Hn) as (Hjobs & Hres).
  - intros p Hp. unfold pending_payments in Hp.
    apply list_elem_of_filter in Hp as [Hsel Hin].
    apply andb_prop_elim in Hsel as [Hst Hold].
    apply bool_decide_unpack in Hst. apply Is_true_eq_true, Z.ltb_lt in Hold. auto.
  - exact Hrefl.
  - destruct (check_loop stripe db_now (pending_payments db (now - 5 * 60)) db 0 q)
      as [[[work n]|e] q'] eqn:E; simpl in *.
    + destruct Hres as (? & ? & ?). repeat split; [assumption|assumption|assumption|lia|lia].
    + repeat split; [exact Hrefl|exact Hjobs|lia|lia].
Qed.

End Loops.

Lemma check_pending_payments_frame_witness :
  let db := Samples.store_with (Samples.order_in 1 PENDING)
                               (Samples.payment_in 1 1 PAY_PENDING) in
  let answer :=
    PaymentTask.check_pending_payments Samples.stripe_succeeded 1000 (fun _ => 1001) db [] in
  orders (snd (fst answer)) = orders db /\
  Forall2 (PollSpec.poll_update 1000) (payments db) (payments (snd (fst answer))) /\
  (exists jobs, snd answer = [] ++ jobs /\ Forall PollSpec.poll_job jobs) /\
  0 <= fst (fst answer) <=
    Z.of_nat (length (PaymentTask.pending_payments db (1000 - 5 * 60))).
Proof.
  apply (check_pending_payments_frame Samples.stripe_succeeded 1000 (fun _ => 1001)
           (Samples.store_with (Samples.order_in 1 PENDING)
                               (Samples.payment_in 1 1 PAY_PENDING)) []).
  unfold PollSpec.payment_keys_unique. simpl.
  apply NoDup_cons. split; [apply not_elem_of_nil|apply NoDup_nil_2].
Defined.

Section SweepLoop.

Import OrderTask SweepSpec.

Lemma swept_row (now : Z) (db_now : Z -> Z) (o : Order) :
  order_id (swept now db_now o) = order_id o /\
  customer_id (swept now db_now o) = customer_id o /\
  status (swept now db_now o) = CANCELLED /\
  cancelled_at (swept now db_now o) = Some now.
Proof.
  unfold swept. split; [|split; [|split]].
  - apply flush_order_id. reflexivity.
  - unfold flush_order. destruct (decide _); reflexivity.
  - rewrite flush_order_status. reflexivity.
  - pose proof (flush_order_assigned (db_now (order_id o)) o
                  (set_cancelled_at now (set_status CANCELLED o))) as H.
    unfold order_assigned_columns in H. injection H as _ _ _ _ _ _ H. exact H.
Qed.

(** The loop of the sweep, on the orders it is given: it ends normally;
    every order given is written as CANCELLED with [cancelled_at] set to
    the instant of the sweep; the count grows by the number of orders;
    and one [order_cancelled] notification per order, in order, is sent to
    the order's customer. *)
Theorem cancel_loop_all (now utcnow : Z) (db_now : Z -> Z) (selected : list Order)
    (work : DB) (count : Z) (q : Queue) :
  cancel_loop now utcnow db_now selected work count q =
    (Ok (fold_left (fun w o => put_order (swept now db_now o) w) selected work,
         count + Z.of_nat (length selected)),
     q ++ map (fun o => mkJob send_websocket_notification_name
                          [AInt (customer_id o);
                           ADict [("type", JStr "order_cancelled");
                                  ("order_id", JInt (order_id o));
                                  ("reason", JStr "Payment timeout");
                                  ("timestamp", JTime utcnow)]])
              selected) /\
  Forall (fun o => status (swept now db_now o) = CANCELLED /\
                   cancelled_at (swept now db_now o) = Some now) selected.
Proof.
  split.
  - revert work count q. induction selected as [|o selected IH]; intros work count q.
    + simpl. rewrite app_nil_r, Z.add_0_r. reflexivity.
    + cbn [cancel_loop send_task forallb arg_serializable json_serializable snd andb].
      fold (swept now db_now o).
      destruct (swept_row now db_now o) as (Hid & Hc & _ & _). rewrite Hid, Hc.
      rewrite IH. cbn [fold_left map length].
      rewrite <- app_assoc. do 3 f_equal. lia.
  - apply Forall_forall. intros o _.
    destruct (swept_row now db_now o) as (_ & _ & Hs & Ht). auto.
Qed.

End SweepLoop.

(** ** More of the connection manager *)

Section ConnectionsMore.

Import WebsocketManager ManagerSpec.

Lemma step_roles_empty (m : ConnectionManager) (op : Op) :
  int_keyed m -> roles_empty m -> roles_empty (fst (step m op)).
Proof.
  intros Hk Hr.
  destruct op as [w u r | u r | raises msg u | raises msg r | raises msg]; simpl.
  - rewrite (connect_int_keyed _ _ _ _ Hk). exact Hr.
  - exact Hr.
  - unfold send_personal_msg.
    destruct (user_connection m !! inl u) as [w|]; [|exact Hr].
    destruct (json_dumps_returns msg); [destruct (raises w)|]; exact Hr.
  - unfold send_to_role.
    destruct (role_connection m !! r) as [l|] eqn:E; [|exact Hr].
    apply Hr in E as ->. intros role l'. simpl.
    intros [[_ <-]|[_ H]]%lookup_insert_Some; [reflexivity|eauto].
  - exact Hr.
Qed.

Lemma run_roles_empty (ops : list Op) (m : ConnectionManager) :
  int_keyed m -> roles_empty m ->
  int_keyed (fst (run m ops)) /\ roles_empty (fst (run m ops)).
Proof.
  revert m. induction ops as [|op ops IH]; simpl; intros m Hk Hr; [done|].
  pose proof (step_int_keyed m op Hk) as Hk1.
  pose proof (step_roles_empty m op Hk Hr) as Hr1.
  destruct (step m op) as [m1 w1]; simpl in *.
  specialize (IH m1 Hk1 Hr1).
  destruct (run m1 ops) as [m2 w2]; simpl in *. exact IH.
Qed.

Lemma init_roles_empty : roles_empty init.
Proof.
  intros role l Hl. unfold init in Hl; simpl in Hl.
  repeat (apply lookup_insert_Some in Hl as [[_ <-]|[_ Hl]]; [reflexivity|]).
  rewrite lookup_empty in Hl. discriminate.
Qed.

(** Whatever was called on the manager since [__init__], every role list
    is empty: [connect] tests the role against the dict of users, so it
    never appends; and [send_to_role] writes to no socket, for any role
    and any message. *)
Theorem send_to_role_reaches_nobody (history : list Op) (raises : nat -> bool)
    (message : list (string * Json)) (role : string) :
  let m := fst (run init history) in
  roles_empty m /\
  snd (send_to_role raises message role m) = [] /\
  user_connection (fst (send_to_role raises message role m)) = user_connection m /\
  roles_empty (fst (send_to_role raises message role m)).
Proof.
  destruct (run_roles_empty history init init_int_keyed init_roles_empty) as [Hk Hr].
  simpl. split; [exact Hr|].
  pose proof (step_roles_empty _ (SendToRole raises message role) Hk Hr) as Hr'.
  simpl in Hr'. split; [|split; [|exact Hr']].
  - unfold send_to_role.
    destruct (role_connection (fst (run init history)) !! role) as [l|] eqn:E;
      [|reflexivity].
    simpl. rewrite (Hr _ _ E). by destruct (json_dumps_returns message).
  - unfold send_to_role.
    destruct (role_connection (fst (run init history)) !! role); reflexivity.
Qed.

(** [send_personal_msg] to a user with a stored socket writes to that
    socket once when the message can be encoded, and to nothing when it
    cannot.  When the message is encoded and the write succeeds the
    manager is unchanged.  When the encoding or the write raises, the
    user's entry is removed and the others stay: a later message to the
    user is written nowhere. *)
Theorem send_personal_msg_evicts (raises : nat -> bool) (msg : list (string * Json))
    (u : Z) (m : ConnectionManager) (ws : nat) :
  user_connection m !! inl u = Some ws ->
  let sent := json_dumps_returns msg && negb (raises ws) in
  let m' := fst (send_personal_msg raises msg u m) in
  snd (send_personal_msg raises msg u m) = (if json_dumps_returns msg then [ws] else []) /\
  (sent = true -> m' = m) /\
  (sent = false ->
   user_connection m' !! inl u = None /\
   (forall k, k <> inl u -> user_connection m' !! k = user_connection m !! k) /\
   role_connection m' = role_connection m /\
   forall raises' msg', send_personal_msg raises' msg' u m' = (m', [])).
Proof.
  intros Hu sent m'.
  set (gone := mkManager (delete (inl u) (user_connection m)) (role_connection m)).
  assert (send_personal_msg raises msg u m =
          (if sent then m else gone, if json_dumps_returns msg then [ws] else [])) as Heq.
  { unfold send_personal_msg, sent. rewrite Hu.
    destruct (json_dumps_returns msg), (raises ws); reflexivity. }
  unfold m'. rewrite Heq. simpl. split; [reflexivity|].
  destruct sent; (split; [try reflexivity; discriminate|]); [discriminate|].
  intros _. split; [apply lookup_delete_eq|].
  split; [intros k Hk; by apply lookup_delete_ne|].
  split; [reflexivity|].
  intros raises' msg'. unfold send_personal_msg. simpl. by rewrite lookup_delete_eq.
Qed.

Lemma send_personal_msg_evicts_witness :
  let msg := [("order_number", JClassAttribute "Order.order_number")] in
  let m := snd (connect 1%nat 7 "customer" init) in
  let sent := json_dumps_returns msg && negb ((fun _ : nat => false) 1%nat) in
  let m' := fst (send_personal_msg (fun _ => false) msg 7 m) in
  snd (send_personal_msg (fun _ => false) msg 7 m) =
    (if json_dumps_returns msg then [1%nat] else []) /\
  (sent = true -> m' = m) /\
  (sent = false ->
   user_connection m' !! inl 7 = None /\
   (forall k, k <> inl 7 -> user_connection m' !! k = user_connection m !! k) /\
   role_connection m' = role_connection m /\
   forall raises' msg', send_personal_msg raises' msg' 7 m' = (m', [])).
Proof.
  apply (send_personal_msg_evicts (fun _ => false)
           [("order_number", JClassAttribute "Order.order_number")] 7
           (snd (connect 1%nat 7 "customer" init)) 1%nat).
  reflexivity.
Defined.

Lemma delete_all_lookup_eq (gone : list ((Z + string) * nat))
    (uc : gmap (Z + string) nat) (k : Z + string) :
  fold_left (fun uc kv => delete (fst kv) uc) gone uc !! k =
  if decide (k ∈ fst <$> gone) then None else uc !! k.
Proof.
  revert uc. induction gone as [|g gone IH]; intros uc; cbn [fold_left].
  - destruct (decide (k ∈ fst <$> [])) as [H|_]; [by apply elem_of_nil in H|done].
  - rewrite IH, fmap_cons.
    destruct (decide (k ∈ fst <$> gone)) as [Hin|Hout];
      destruct (decide (k ∈ fst g :: (fst <$> gone))) as [Hin'|Hout'].
    + reflexivity.
    + destruct Hout'. by apply list_elem_of_further.
    + apply elem_of_cons in Hin' as [->|?]; [apply lookup_delete_eq|contradiction].
    + apply lookup_delete_ne. intros <-. apply Hout', list_elem_of_here.
Qed.

(** [broadcast] of a message that can be encoded writes to every stored
    socket, and to those only; a message that cannot be encoded is
    written to no socket.  The entries that stay are those whose socket
    was written to without an exception, so a message that cannot be
    encoded empties the dict; the role lists are not touched. *)
Theorem broadcast_evicts (raises : nat -> bool) (msg : list (string * Json))
    (m : ConnectionManager) :
  let m' := fst (broadcast raises msg m) in
  let written := snd (broadcast raises msg m) in
  (forall ws, ws ∈ written <->
              json_dumps_returns msg = true /\ exists k, user_connection m !! k = Some ws) /\
  length written = (if json_dumps_returns msg then size (user_connection m) else 0%nat) /\
  (forall k ws, user_connection m' !! k = Some ws <->
                user_connection m !! k = Some ws /\
                json_dumps_returns msg = true /\ raises ws = false) /\
  role_connection m' = role_connection m.
Proof.
  unfold broadcast; simpl. split; [|split; [|split; [|reflexivity]]].
  - intros ws. destruct (json_dumps_returns msg).
    + rewrite list_elem_of_fmap. split.
      * intros ([k w] & -> & H%elem_of_map_to_list). eauto.
      * intros (_ & k & Hk). exists (k, ws). split; [reflexivity|].
        by apply elem_of_map_to_list.
    + split; [intros H; by apply elem_of_nil in H|intros [? _]; discriminate].
  - destruct (json_dumps_returns msg); [|reflexivity].
    rewrite length_fmap. apply length_map_to_list.
  - intros k ws. rewrite delete_all_lookup_eq.
    destruct (decide _) as [Hin|Hout].
    + split; [discriminate|]. intros (Hk & Hd & Hr).
      apply list_elem_of_fmap in Hin as ([k' w] & -> & Hin).
      apply list_elem_of_filter in Hin as [Hw Hin]. simpl in *.
      apply elem_of_map_to_list in Hin. rewrite Hd in Hw. simpl in Hw. congruence.
    + split; [|tauto].
      intros Hk. split; [exact Hk|].
      destruct (json_dumps_returns msg) eqn:Hd, (raises ws) eqn:Hr; try done;
        (destruct Hout; apply list_elem_of_fmap; exists (k, ws);
         split; [reflexivity|]; apply list_elem_of_filter;
         split; [simpl; rewrite ?Hd, ?Hr; reflexivity|by apply elem_of_map_to_list]).
Qed.

End ConnectionsMore.

(** ** Status transitions and the jobs sent with them *)

Section TransitionsAndJobs.

Import System Samples.

Lemma statuses_kept_orders (db db' : DB) : orders db' = orders db -> statuses_kept db db'.
Proof. intros H id o o'. unfold get_order. rewrite H. congruence. Qed.

Lemma find_app_found {A} (f : A -> bool) (l l' : list A) (x : A) :
  find f l = Some x -> find f (l ++ l') = Some x.
Proof.
  induction l as [|y l IH]; simpl; [discriminate|]. destruct (f y); [done|exact IH].
Qed.

Lemma statuses_kept_insert (db db' : DB) (o : Order) :
  orders db' = orders db ++ [o] -> statuses_kept db db'.
Proof.
  intros H id x x' Hx. unfold get_order in *. rewrite H.
  rewrite (find_app_found _ _ _ _ Hx). congruence.
Qed.

(** Writing back a loaded row with the status it had keeps the statuses. *)
Lemma statuses_kept_put (db : DB) (loaded x : Order) :
  get_order db (order_id x) = Some loaded ->
  status x = status loaded ->
  statuses_kept db (put_order x db).
Proof.
  intros Hget Hst id o o' Ho Ho'.
  destruct (decide (id = order_id x)) as [->|Hne].
  - rewrite (get_order_put_order _ _ _ Hget) in Ho'. congruence.
  - rewrite get_order_put_order_ne in Ho' by exact Hne. congruence.
Qed.

Lemma statuses_kept_refl (db : DB) : statuses_kept db db.
Proof. by apply statuses_kept_orders. Qed.

(** The order route adds an order and leaves the stored ones alone. *)
Lemma route_create_order_keeps (commit_raises : nat -> bool) (number : string) (now : Z)
    (db : DB) (q : Queue) (u : OrdersApi.User) (rid : Z) (items : list OrderService.ItemReq)
    (address : string) (lat lon : option float) (instructions : option string) :
  statuses_kept db
    (snd (fst (OrdersApi.create_order commit_raises number now db q u rid items address
                 lat lon instructions))).
Proof.
  unfold OrdersApi.create_order.
  destruct (find _ (restaurants db)); [|apply statuses_kept_refl].
  destruct (OrderService.price_items db rid items 0 []) as [[subtotal data]|e];
    [|apply statuses_kept_refl].
  destruct (PrimFloat.ltb _ _); [apply statuses_kept_refl|].
  destruct (commit_raises 0%nat); [apply statuses_kept_refl|].
  destruct (commit_raises 1%nat); eapply statuses_kept_insert; reflexivity.
Qed.

(** The PATCH route writes the delivery partner only. *)
Lemma route_update_order_keeps (db_now : Z) (db : DB) (q : Queue) (u : OrdersApi.User)
    (id : Z) (order_update : OrdersApi.OrderUpdate) :
  statuses_kept db (snd (fst (OrdersApi.update_order db_now db q u id order_update))).
Proof.
  unfold OrdersApi.update_order.
  destruct (get_order db id) as [o|] eqn:Hget; [|apply statuses_kept_refl].
  destruct (match OrdersApi.upd_status order_update with Some _ => _ | None => _ end);
    [|apply statuses_kept_refl].
  destruct (OrdersApi.upd_delivery_partner_id order_update) as [partner|];
    [|apply statuses_kept_refl].
  destruct (negb _); [apply statuses_kept_refl|]. simpl.
  destruct (partner_row db_now (Some partner) o) as (Hid & _ & Hst).
  eapply statuses_kept_put; [|exact Hst].
  rewrite Hid, (get_order_id _ _ _ Hget). exact Hget.
Qed.

(** The estimated-delivery task writes the estimate only. *)
Lemma calculate_estimated_delivery_time_keeps (now db_now : Z) (db : DB) (q : Queue)
    (id : Z) :
  statuses_kept db
    (snd (fst (EtaTask.calculate_estimated_delivery_time now db_now db q id))).
Proof.
  unfold EtaTask.calculate_estimated_delivery_time.
  destruct (get_order db id) as [o|] eqn:Hget; [|apply statuses_kept_refl].
  destruct (get_restaurant db (restaurant_id o)) as [r|]; [|apply statuses_kept_refl].
  set (eta := now + (EtaTask.prep_time r + 15) * 60).
  destruct (eta_row db_now eta o) as (Hid & _ & _ & Hst).
  assert (statuses_kept db
            (put_order (flush_order db_now o (set_estimated_delivery_time eta o)) db))
    as Hkept.
  { eapply statuses_kept_put; [|exact Hst].
    rewrite Hid, (get_order_id _ _ _ Hget). exact Hget. }
  simpl. exact Hkept.
Qed.

(** The poll writes payments only. *)
Lemma check_loop_orders (stripe : Stripe) (db_now : Z -> Z) (pending : list Payment)
    (work : DB) (n : Z) (q : Queue) (work' : DB) (n' : Z) :
  fst (PaymentTask.check_loop stripe db_now pending work n q) = Ok (work', n') ->
  orders work' = orders work.
Proof.
  revert work n q. induction pending as [|p pending IH]; simpl; intros work n q H.
  - by injection H as <- _.
  - destruct (str_truthy _); [|eapply IH, H].
    destruct (PaymentService.check_stripe_payment_status stripe _) as [s|e];
      [|discriminate].
    destruct (bool_decide _); [|eapply IH, H].
    destruct s; simpl in H;
      try (apply IH in H; exact H);
      (destruct (send_task _ _ q) as [q1|e]; [|discriminate]; apply IH in H; exact H).
Qed.

Lemma check_pending_payments_keeps (stripe : Stripe) (now : Z) (db_now : Z -> Z)
    (db : DB) (q : Queue) :
  statuses_kept db (snd (fst (PaymentTask.check_pending_payments stripe now db_now db q))).
Proof.
  unfold PaymentTask.check_pending_payments.
  destruct (PaymentTask.check_loop stripe db_now _ db 0 q) as [[[work n]|e] q'] eqn:E;
    simpl; [|apply statuses_kept_refl].
  apply statuses_kept_orders.
  eapply check_loop_orders. rewrite E. reflexivity.
Qed.

(** C8.  No operation of the code base follows a status transition with
    a job: whenever a call leaves a stored order with another status than
    it had, the broker holds after the call exactly the jobs it held
    before.  The transitions that succeed are those of [OrderService]
    ([update_order_status], [cancel_order]), which send nothing; the
    operations that send jobs (the order routes, the status task, the
    estimated-delivery task, the sweep, the payment tasks, the webhook)
    never change the status of a stored order. *)
Theorem status_change_sends_no_job (call : Call) (st : DB * Queue) :
  changes_status call st -> snd (exec call st) = snd st.
Proof.
  destruct st as [db q]. intros (id & o & o' & Hget & Hget' & Hne). simpl in Hget.
  assert (forall db', statuses_kept db db' -> get_order db' id = Some o' -> False) as Hkept
    by (intros db' Hk Ho'; apply Hne; eapply Hk; eassumption).
  destruct call as
    [ dist cr num now c rid items addr lat lon instr
    | now dbn oid ns by_id
    | dbn oid partner
    | now dbn oid uid
    | cr num now u rid items addr lat lon instr
    | dbn u oid upd
    | dbn u oid
    | create now uid oid pm
    | request
    | now dbn oid ns
    | now dbn oid
    | now utcnow dbn
    | stripe dbn pid
    | stripe now dbn
    | stripe now dbn pid ra ];
    simpl in *; try reflexivity.
  - exfalso.
    pose proof (route_create_order_keeps cr num now db q u rid items addr lat lon instr)
      as Hk.
    destruct (OrdersApi.create_order _ _ _ _ _ _ _ _ _ _ _ _) as [[r db'] q'].
    exact (Hkept _ Hk Hget').
  - exfalso.
    pose proof (route_update_order_keeps dbn db q u oid upd) as Hk.
    destruct (OrdersApi.update_order _ _ _ _ _ _) as [[r db'] q'].
    exact (Hkept _ Hk Hget').
  - exfalso. exact (Hkept _ (statuses_kept_refl db) Hget').
  - rewrite update_order_status_task_fails. reflexivity.
  - exfalso.
    pose proof (calculate_estimated_delivery_time_keeps now dbn db q oid) as Hk.
    destruct (EtaTask.calculate_estimated_delivery_time _ _ _ _ _) as [[r db'] q'].
    exact (Hkept _ Hk Hget').
  - unfold OrderTask.auto_cancel_unpaid_order. rewrite unpaid_orders_empty. reflexivity.
  - pose proof (process_payment_sends_nothing stripe dbn db q pid) as Hq.
    destruct (PaymentTask.process_payment _ _ _ _ _) as [[r db'] q']. exact Hq.
  - exfalso.
    pose proof (check_pending_payments_keeps stripe now dbn db q) as Hk.
    destruct (PaymentTask.check_pending_payments _ _ _ _ _) as [[r db'] q'].
    exact (Hkept _ Hk Hget').
  - exfalso.
    assert (snd (fst (PaymentTask.process_refund stripe now dbn db q pid ra)) = db) as Hdb.
    { unfold PaymentTask.process_refund.
      destruct (get_payment db pid) as [p|]; [|reflexivity].
      pose proof (process_refund_never_succeeds stripe now dbn db p ra) as [Hno Hsame].
      destruct (PaymentService.process_refund _ _ _ _ _ _) as [[[[]|e] p'] db'];
        simpl in *; congruence. }
    destruct (PaymentTask.process_refund _ _ _ _ _ _ _) as [[r db'] q'].
    simpl in Hdb. subst db'. exact (Hkept _ (statuses_kept_refl db) Hget').
Qed.

(** C8, at the failing input.  Order 1 is PENDING and
    [OrderService.update_order_status] moves it to CONFIRMED: the
    transition succeeds and the broker stays empty, where the claim has
    notifications for the customer and the restaurant owner and a job for
    the estimated delivery time. *)
Lemma status_change_sends_no_job_witness :
  let st := (store_of (order_in 1 PENDING), @nil Job) in
  let call := ServiceUpdateOrderStatus 100 101 1 CONFIRMED 20 in
  snd (exec call st) = snd st.
Proof.
  apply (status_change_sends_no_job (ServiceUpdateOrderStatus 100 101 1 CONFIRMED 20)
           (store_of (order_in 1 PENDING), [])).
  exists 1, (order_in 1 PENDING), (set_updated_at 101 (order_in 1 CONFIRMED)).
  split; [reflexivity|]. split; [reflexivity|]. discriminate.
Defined.

End TransitionsAndJobs.
